(** * MetaTrader Connection Protocol: broker and client, shallow embedding

    The development follows [src/python/mcp_server.py] (class [MCPServer])
    and [src/python/mcp_client.py] (class [MCPClient]).  Python objects are
    embedded as follows.

    - Values produced by [json.loads] are the inductive type [json]; an
      object keeps its fields in arrival order as an association list whose
      first binding of a key is the live one.  Literals with a fraction or an
      exponent (Python floats) are outside the embedding: no field the broker
      inspects is compared against one.
    - Dictionaries owned by the server ([clients], [response_cache],
      [auth_tokens]) and by the client ([callbacks]) are [gmap]s.
    - A method of the server is a function from the state of the server to
      a [result]: the call returns a value, raises an exception, or never
      returns because its thread waits for a lock.  The three
      [threading.Lock] objects are part of the state, and [with lock:] is
      [with_lock].  Operators on JSON values that can raise return [option].
    - Threads interleave at the granularity of one call of a handler or one
      critical section of the dispatcher; what the other threads do while
      the dispatcher sleeps is a schedule of events.
    - Time is an integer count of milliseconds, so that [time.sleep(0.1)] is
      [100], the dispatcher deadline of 30 s is [30000] and the eviction
      horizon of 600 s is [600000].
    - What a socket has been handed by [sendall] is logged in [wire], oldest
      first, as the value that was passed to [json.dumps]. *)

From Stdlib Require Import ZArith Ascii String List Bool Lia.
From stdpp Require Import base option gmap strings list fin_maps pretty.

Local Open Scope string_scope.
Local Open Scope Z_scope.
Local Open Scope list_scope.

(** ** JSON values and the Python operators applied to them *)

#[local] Unset Elimination Schemes.

Inductive json : Type :=
| JNull
| JBool (b : bool)
| JInt (z : Z)
| JString (s : string)
| JArray (items : list json)
| JObject (fields : list (string * json)).

#[local] Set Elimination Schemes.

(** [d[key]] and [key in d] on a dict. *)
Fixpoint assoc (key : string) (fields : list (string * json)) : option json :=
  match fields with
  | [] => None
  | (k, v) :: rest => if String.eqb key k then Some v else assoc key rest
  end.

(** [needle in haystack] on two [str]: substring test. *)
Fixpoint substringb (needle haystack : string) : bool :=
  String.prefix needle haystack
  || match haystack with
     | EmptyString => false
     | String _ rest => substringb needle rest
     end.

(** [value == 'text'] for a JSON value against a [str] literal. *)
Definition py_eq_str (value : json) (text : string) : bool :=
  match value with
  | JString s => String.eqb s text
  | _ => false
  end.

(** ['key' in data].  [None] is the [TypeError] raised on a value that is not
    a container. *)
Definition py_contains (key : string) (data : json) : option bool :=
  match data with
  | JObject fields => Some (bool_decide (is_Some (assoc key fields)))
  | JArray items => Some (existsb (fun v => py_eq_str v key) items)
  | JString s => Some (substringb key s)
  | JNull | JBool _ | JInt _ => None
  end.

(** [data['key']].  [None] is [KeyError] on a dict and [TypeError] on a list
    or a [str], whose indices must be integers. *)
Definition py_getitem (data : json) (key : string) : option json :=
  match data with
  | JObject fields => assoc key fields
  | _ => None
  end.

(** [data.get('key', default)].  [None] is the [AttributeError] of a value
    without a [get] method. *)
Definition py_get (data : json) (key : string) (default : json) : option json :=
  match data with
  | JObject fields => Some (from_option id default (assoc key fields))
  | _ => None
  end.

(** Truth value of a JSON value in a Python condition. *)
Definition py_truthy (value : json) : bool :=
  match value with
  | JNull => false
  | JBool b => b
  | JInt z => negb (Z.eqb z 0)
  | JString s => negb (String.eqb s "")
  | JArray items => negb (Nat.eqb (length items) 0)
  | JObject fields => negb (Nat.eqb (length fields) 0)
  end.

(** Dictionary keys.  Python hashes [True] and [1] (and [False] and [0]) to
    the same key; lists and dicts are unhashable. *)
Inductive pykey : Type :=
| KNone
| KNum (z : Z)
| KStr (s : string).

#[global] Instance pykey_eq_dec : EqDecision pykey.
Proof. solve_decision. Defined.

#[global] Instance pykey_countable : Countable pykey.
Proof.
  refine (inj_countable'
    (fun k => match k with
              | KNone => inl tt
              | KNum z => inr (inl z)
              | KStr s => inr (inr s)
              end)
    (fun x => match x with
              | inl _ => KNone
              | inr (inl z) => KNum z
              | inr (inr s) => KStr s
              end) _).
  intros k. destruct k as [ |z|s]; reflexivity.
Defined.

(** [None] is [TypeError: unhashable type]. *)
Definition key_of (value : json) : option pykey :=
  match value with
  | JNull => Some KNone
  | JBool b => Some (KNum (if b then 1 else 0))
  | JInt z => Some (KNum z)
  | JString s => Some (KStr s)
  | JArray _ | JObject _ => None
  end.

(** Text of the [TypeError] raised when [value] is used as a key. *)
Definition unhashable_message (value : json) : string :=
  match value with
  | JObject _ => "unhashable type: 'dict'"
  | _ => "unhashable type: 'list'"
  end.

(** Library behaviour the broker and the client only pass through:
    [uuid4 n] is the text of the [n]-th [uuid.uuid4()] drawn by a process,
    [isoformat t] is [datetime.now().isoformat()] at time [t], and
    [py_str v] is [str(v)] as an f-string interpolates it. *)
Record Runtime : Type := {
  uuid4 : nat -> string;
  isoformat : Z -> string;
  py_str : json -> string
}.

(** What [json.loads(message)] makes of a message, that is, of bytes that
    [data.decode('utf-8')] has turned into text: it raises
    [JSONDecodeError] ([Malformed]), it raises another exception, such as
    the [RecursionError] of a text that is nested too deep ([Unparsed]), or
    it returns a value.  Bytes that do not decode never become a message;
    what the broker does with them is [MCPServer.handle_client_undecodable]. *)
Inductive received : Type :=
| Malformed
| Unparsed
| Decoded (d : json).

(** [split(',')] on a [str]. *)
Fixpoint split_comma_aux (current : string) (text : string) : list string :=
  match text with
  | EmptyString => [current]
  | String c rest =>
      if Ascii.eqb c ","%char
      then current :: split_comma_aux "" rest
      else split_comma_aux (current +:+ String c "") rest
  end.

Definition split_comma (text : string) : list string := split_comma_aux "" text.

(** [','.join(parts)]. *)
Fixpoint join_comma (parts : list string) : string :=
  match parts with
  | [] => ""
  | [part] => part
  | part :: rest => part +:+ "," +:+ join_comma rest
  end.

(** ** The broker: [class MCPServer] *)

Module MCPServer.

(** A socket object, by identity. *)
Definition sock : Type := nat.

(** One value of [self.clients]. *)
Record client_info : Type := ClientInfo {
  socket : sock;
  address : string * Z;
  type : string;
  authenticated : bool;
  last_activity : Z
}.

(** One value of [self.auth_tokens]. *)
Record token_info : Type := TokenInfo {
  permissions : list string;
  created_at : string
}.

(** One element of [self.command_queue]. *)
Record command_item : Type := CommandItem {
  client_id : string;
  command : json;
  parameters : json;
  request_id : json;
  timestamp : Z
}.

(** One value of [self.response_cache]: [{'data': ..., 'timestamp': ...}]. *)
Record cache_entry : Type := CacheEntry {
  data : json;
  cached_timestamp : Z
}.

(** The three [threading.Lock] objects of the server. *)
Inductive lock : Type :=
| clients_lock
| queue_lock
| cache_lock.

(** The attributes of an [MCPServer] that the protocol reads or writes:
    the registry, the upstream link, the queue, the cache, the token store
    and, for each lock, whether some thread holds it.  They are followed by
    the part of the process environment they interact with: the clock, the
    set of closed sockets, what each socket was handed, and the number of
    identifiers drawn so far. *)
Record server : Type := Server {
  auth_enabled : bool;
  clients : gmap string client_info;
  mt5_connection : option sock;
  command_queue : list command_item;
  response_cache : gmap pykey cache_entry;
  auth_tokens : gmap string token_info;
  clients_held : bool;
  queue_held : bool;
  cache_held : bool;
  clock : Z;
  closed : gset sock;
  wire : list (sock * json);
  drawn : nat
}.

Definition set_clients (f : gmap string client_info -> gmap string client_info) (s : server) : server :=
  Server (auth_enabled s) (f (clients s)) (mt5_connection s)
         (command_queue s) (response_cache s) (auth_tokens s)
         (clients_held s) (queue_held s) (cache_held s) (clock s) (closed s)
         (wire s) (drawn s).

Definition set_command_queue (f : list command_item -> list command_item) (s : server) : server :=
  Server (auth_enabled s) (clients s) (mt5_connection s)
         (f (command_queue s)) (response_cache s) (auth_tokens s)
         (clients_held s) (queue_held s) (cache_held s) (clock s) (closed s)
         (wire s) (drawn s).

Definition set_response_cache (f : gmap pykey cache_entry -> gmap pykey cache_entry) (s : server) : server :=
  Server (auth_enabled s) (clients s) (mt5_connection s) (command_queue s)
         (f (response_cache s)) (auth_tokens s) (clients_held s)
         (queue_held s) (cache_held s) (clock s) (closed s) (wire s)
         (drawn s).

Definition set_clock (f : Z -> Z) (s : server) : server :=
  Server (auth_enabled s) (clients s) (mt5_connection s) (command_queue s)
         (response_cache s) (auth_tokens s) (clients_held s) (queue_held s)
         (cache_held s) (f (clock s)) (closed s) (wire s) (drawn s).

Definition set_closed (f : gset sock -> gset sock) (s : server) : server :=
  Server (auth_enabled s) (clients s) (mt5_connection s) (command_queue s)
         (response_cache s) (auth_tokens s) (clients_held s) (queue_held s)
         (cache_held s) (clock s) (f (closed s)) (wire s) (drawn s).

Definition set_wire (f : list (sock * json) -> list (sock * json)) (s : server) : server :=
  Server (auth_enabled s) (clients s) (mt5_connection s) (command_queue s)
         (response_cache s) (auth_tokens s) (clients_held s) (queue_held s)
         (cache_held s) (clock s) (closed s) (f (wire s)) (drawn s).

Definition set_drawn (f : nat -> nat) (s : server) : server :=
  Server (auth_enabled s) (clients s) (mt5_connection s) (command_queue s)
         (response_cache s) (auth_tokens s) (clients_held s) (queue_held s)
         (cache_held s) (clock s) (closed s) (wire s) (f (drawn s)).

Definition set_mt5_connection (v : option sock) (s : server) : server :=
  Server (auth_enabled s) (clients s) v (command_queue s) (response_cache s)
         (auth_tokens s) (clients_held s) (queue_held s) (cache_held s)
         (clock s) (closed s) (wire s) (drawn s).

Definition set_clients_held (v : bool) (s : server) : server :=
  Server (auth_enabled s) (clients s) (mt5_connection s) (command_queue s)
         (response_cache s) (auth_tokens s) v (queue_held s) (cache_held s)
         (clock s) (closed s) (wire s) (drawn s).

Definition set_queue_held (v : bool) (s : server) : server :=
  Server (auth_enabled s) (clients s) (mt5_connection s) (command_queue s)
         (response_cache s) (auth_tokens s) (clients_held s) v
         (cache_held s) (clock s) (closed s) (wire s) (drawn s).

Definition set_cache_held (v : bool) (s : server) : server :=
  Server (auth_enabled s) (clients s) (mt5_connection s) (command_queue s)
         (response_cache s) (auth_tokens s) (clients_held s) (queue_held s)
         v (clock s) (closed s) (wire s) (drawn s).

Definition held (l : lock) (s : server) : bool :=
  match l with
  | clients_lock => clients_held s
  | queue_lock => queue_held s
  | cache_lock => cache_held s
  end.

Definition set_held (l : lock) (b : bool) (s : server) : server :=
  match l with
  | clients_lock => set_clients_held b s
  | queue_lock => set_queue_held b s
  | cache_lock => set_cache_held b s
  end.

(** No thread is inside a critical section. *)
Definition unlocked (s : server) : Prop :=
  clients_held s = false /\ queue_held s = false /\ cache_held s = false.

Definition with_type (t : string) (c : client_info) : client_info :=
  ClientInfo (socket c) (address c) t (authenticated c) (last_activity c).

Definition with_authenticated (b : bool) (c : client_info) : client_info :=
  ClientInfo (socket c) (address c) (type c) b (last_activity c).

Definition with_last_activity (t : Z) (c : client_info) : client_info :=
  ClientInfo (socket c) (address c) (type c) (authenticated c) t.

(** *** Method calls as state transformers

    A call made by one thread either returns, raises, or never returns
    because the thread waits for a lock that is not going to be released.
    [threading.Lock] is not reentrant: a thread that re-enters a [with] on a
    lock it already holds waits for itself. *)
Inductive result (A : Type) : Type :=
| Returns (a : A) (s : server)
| Raises (text : string) (s : server)
| Blocks (s : server).

Arguments Returns {A} a s.
Arguments Raises {A} text s.
Arguments Blocks {A} s.

Definition M (A : Type) : Type := server -> result A.

#[global] Instance M_ret : MRet M := fun A a s => Returns a s.

#[global] Instance M_bind : MBind M := fun A B f m s =>
  match m s with
  | Returns a s' => f a s'
  | Raises text s' => Raises text s'
  | Blocks s' => Blocks s'
  end.

Definition gets {A : Type} (f : server -> A) : M A := fun s => Returns (f s) s.

Definition modify (f : server -> server) : M unit := fun s => Returns tt (f s).

Definition raise {A : Type} (text : string) : M A := fun s => Raises text s.

(** An operation of the embedding of JSON values that may raise. *)
Definition lift {A : Type} (text : string) (o : option A) : M A :=
  match o with
  | Some a => mret a
  | None => raise text
  end.

(** [try: body except Exception as e: handler(str(e))]. *)
Definition try_except {A : Type} (body : M A) (handler : string -> M A) : M A :=
  fun s =>
    match body s with
    | Raises text s' => handler text s'
    | r => r
    end.

(** [with l: body].  The lock is released when the body returns or raises,
    and stays held when the thread is stuck inside the body.  Calls of
    different threads interleave as wholes, so a lock that is found held is
    held by a thread that is stuck (possibly the caller itself), and the
    wait for it does not end. *)
Definition with_lock {A : Type} (l : lock) (body : M A) : M A :=
  fun s =>
    if held l s then Blocks s
    else match body (set_held l true s) with
         | Returns a s' => Returns a (set_held l false s')
         | Raises text s' => Raises text (set_held l false s')
         | Blocks s' => Blocks s'
         end.

(** The state a call leaves behind, however it ended. *)
Definition final {A : Type} (r : result A) : server :=
  match r with
  | Returns _ s | Raises _ s | Blocks s => s
  end.

(** The state after [payload] was handed to [sk]. *)
Definition sent (sk : sock) (payload : json) (s : server) : server :=
  set_wire (fun w => w ++ [(sk, payload)]) s.

(** [str(e)] of the [OSError] that a write to a closed socket raises. *)
Definition EBADF : string := "[Errno 9] Bad file descriptor".

(** [sk.sendall(payload)].  A socket that was closed raises [OSError];
    otherwise the payload is handed to the transport. *)
Definition sendall (sk : sock) (payload : json) : M unit :=
  fun s =>
    if decide (sk ∈ closed s) then Raises EBADF s
    else Returns tt (sent sk payload s).

(** [sk.close()]. *)
Definition close (sk : sock) (s : server) : server :=
  set_closed (fun c => {[sk]} ∪ c) s.

(** [time.sleep(seconds)], in milliseconds. *)
Definition sleep (ms : Z) (s : server) : server := set_clock (fun t => t + ms) s.

(** [_send_to_client]: the write happens only for a registered client, under
    the registry lock, and an exception of the write is swallowed. *)
Definition _send_to_client (cid : string) (message : json) : M bool :=
  try_except
    (with_lock clients_lock
       (registry ← gets clients;
        match registry !! cid with
        | Some c => sendall (socket c) message;; mret true
        | None => mret false
        end))
    (fun _ => mret false).

Definition _is_client_authenticated (cid : string) : M bool :=
  enabled ← gets auth_enabled;
  if negb enabled then mret true
  else
    with_lock clients_lock
      (registry ← gets clients;
       mret (match registry !! cid with
             | Some c => authenticated c
             | None => false
             end)).

(** [token in self.auth_tokens]: the keys of the store are [str]; [None] is
    the [TypeError] of an unhashable token. *)
Definition token_known (token : json) (store : gmap string token_info)
    : option bool :=
  match key_of token with
  | None => None
  | Some (KStr t) => Some (bool_decide (is_Some (store !! t)))
  | Some _ => Some false
  end.

Definition _authenticate_client (cid : string) (token : json) : M bool :=
  enabled ← gets auth_enabled;
  if negb enabled then mret true
  else
    store ← gets auth_tokens;
    known ← lift (unhashable_message token) (token_known token store);
    if known : bool then
      with_lock clients_lock
        (registry ← gets clients;
         match registry !! cid with
         | Some c =>
             modify (set_clients (insert cid (with_authenticated true c)));;
             mret true
         | None => mret false
         end)
    else mret false.

Definition _get_client_type (cid : string) : M string :=
  with_lock clients_lock
    (registry ← gets clients;
     mret (match registry !! cid with
           | Some c => type c
           | None => "unknown"
           end)).

(** *** Messages of the wire protocol *)

Section Protocol.

Context (rt : Runtime).

Definition connected_reply (now : Z) : json :=
  JObject [("status", JString "connected");
           ("server_time", JString (isoformat rt now))].

Definition authenticated_reply : json :=
  JObject [("status", JString "authenticated");
           ("message", JString "Authentication successful")].

Definition authentication_failed_reply : json :=
  JObject [("status", JString "error");
           ("message", JString "Authentication failed")].

Definition not_authenticated_reply : json :=
  JObject [("status", JString "error");
           ("message", JString "Not authenticated")].

Definition queued_reply (rid cmd : json) : json :=
  JObject [("status", JString "queued");
           ("requestId", rid);
           ("message",
            JString ("Command '" +:+ py_str rt cmd +:+ "' queued for processing"))].

Definition invalid_json_reply : json :=
  JObject [("status", JString "error");
           ("message", JString "Invalid JSON format")].

(** The three error replies of [_execute_command] share this shape. *)
Definition error_reply (rid : json) (message : string) : json :=
  JObject [("status", JString "error");
           ("requestId", rid);
           ("message", JString message)].

Definition not_connected_reply (rid : json) : json :=
  error_reply rid "MetaTrader EA not connected".

Definition timeout_reply (rid : json) : json :=
  error_reply rid "Timeout waiting for response from MetaTrader".

Definition exception_reply (rid : json) (text : string) : json :=
  error_reply rid ("Error executing command: " +:+ text).

(** The envelope forwarded to the Expert Advisor. *)
Definition mt5_message (item : command_item) (now : Z) : json :=
  JObject [("command", command item);
           ("parameters", parameters item);
           ("requestId", request_id item);
           ("timestamp", JString (isoformat rt now))].

(** *** [_process_message] *)

(** The branch under [if 'command' in data]: a reply of the Expert Advisor
    is cached, a request of anyone else is queued and acknowledged.  The
    default of [data.get('requestId', str(uuid.uuid4()))] is evaluated
    whether or not the key is present, so an identifier is drawn first. *)
Definition process_command (cid : string) (d : json) : M unit :=
  cmd ← lift "'command'" (py_getitem d "command");
  n ← gets drawn;
  modify (set_drawn S);;
  rid ← lift "get" (py_get d "requestId" (JString (uuid4 rt n)));
  params ← lift "get" (py_get d "parameters" (JObject []));
  client_type ← _get_client_type cid;
  if String.eqb client_type "mt5_ea" then
    has_response_to ← lift "in" (py_contains "responseToId" d);
    if has_response_to : bool then
      response_to ← lift "'responseToId'" (py_getitem d "responseToId");
      with_lock cache_lock
        (k ← lift (unhashable_message response_to) (key_of response_to);
         now ← gets clock;
         modify (set_response_cache (insert k (CacheEntry d now))))
    else mret tt
  else
    with_lock queue_lock
      (now ← gets clock;
       modify (set_command_queue
                 (fun q => q ++ [CommandItem cid cmd params rid now])));;
    _send_to_client cid (queued_reply rid cmd);;
    mret tt.

(** The item [_process_message] builds from the fields of a request. *)
Definition item_of (cid : string) (fields : list (string * json)) (cmd : json)
    (s : server) : command_item :=
  CommandItem cid cmd
    (from_option id (JObject []) (assoc "parameters" fields))
    (from_option id (JString (uuid4 rt (drawn s))) (assoc "requestId" fields))
    (clock s).

(** Whether a registered connection passes [_is_client_authenticated]. *)
Definition admitted (c : client_info) (s : server) : bool :=
  negb (auth_enabled s) || authenticated c.

(** The identification branch.  The acknowledgment is sent from inside
    [with self.clients_lock], and [_send_to_client] enters the same lock.
    The result tells whether the branch executed its [return]. *)
Definition process_identity (cid : string) : M bool :=
  with_lock clients_lock
    (registry ← gets clients;
     match registry !! cid with
     | Some c =>
         modify (set_clients (insert cid (with_type "mt5_ea" c)));;
         modify (set_mt5_connection (Some (socket c)));;
         now ← gets clock;
         _send_to_client cid (connected_reply now);;
         mret true
     | None => mret false
     end).

(** ['identity' in data and data['identity'] == 'MT5_EA']. *)
Definition is_identification (d : json) : M bool :=
  has_identity ← lift "in" (py_contains "identity" d);
  if has_identity : bool
  then v ← lift "'identity'" (py_getitem d "identity");
       mret (py_eq_str v "MT5_EA")
  else mret false.

(** The same test on the fields of an object. *)
Definition identity_marker (fields : list (string * json)) : bool :=
  match assoc "identity" fields with
  | Some v => py_eq_str v "MT5_EA"
  | None => false
  end.

(** The body of the [try] block once [json.loads] has returned [d]. *)
Definition process_decoded (cid : string) (d : json) : M unit :=
  is_ea ← is_identification d;
  returned ← (if is_ea : bool then process_identity cid else mret false);
  if returned : bool then mret tt
  else
    has_auth ← lift "in" (py_contains "auth" d);
    attempt ← (if has_auth : bool
                then ok ← _is_client_authenticated cid; mret (negb ok)
                else mret false);
    if attempt : bool then
      auth_token ← lift "'auth'" (py_getitem d "auth");
      ok ← _authenticate_client cid auth_token;
      _send_to_client cid
        (if ok : bool then authenticated_reply else authentication_failed_reply);;
      mret tt
    else
      ok ← _is_client_authenticated cid;
      if negb ok then
        _send_to_client cid not_authenticated_reply;;
        mret tt
      else
        has_command ← lift "in" (py_contains "command" d);
        if has_command : bool then process_command cid d else mret tt.

(** [_process_message]: a decode error is answered, any other exception,
    of [json.loads] or of the code that follows it, is only logged. *)
Definition _process_message (cid : string) (message : received) : M unit :=
  match message with
  | Malformed => _send_to_client cid invalid_json_reply;; mret tt
  | Unparsed => mret tt
  | Decoded d => try_except (process_decoded cid d) (fun _ => mret tt)
  end.

(** *** [_handle_client], one piece per phase of the handler thread *)

(** Registration of a fresh connection; the result is its identifier. *)
Definition handle_client_accept (sk : sock) (addr : string * Z) : M string :=
  n ← gets drawn;
  modify (set_drawn S);;
  enabled ← gets auth_enabled;
  with_lock clients_lock
    (now ← gets clock;
     modify (set_clients
               (insert (uuid4 rt n)
                       (ClientInfo sk addr "unknown" (negb enabled) now))));;
  mret (uuid4 rt n).

(** The update of [last_activity] at the head of an iteration of the read
    loop. *)
Definition touch (cid : string) : M unit :=
  with_lock clients_lock
    (registry ← gets clients;
     match registry !! cid with
     | Some c =>
         now ← gets clock;
         modify (set_clients (insert cid (with_last_activity now c)))
     | None => mret tt
     end).

(** One iteration of the read loop that received a message. *)
Definition handle_client_recv (cid : string) (message : received) : M unit :=
  touch cid;;
  _process_message cid message.

(** [str(e)] of the [UnicodeDecodeError] that [data.decode('utf-8')]
    raises. *)
Definition EILSEQ : string := "'utf-8' codec can't decode the data".

(** One iteration of the read loop whose bytes are not UTF-8: the activity
    time is refreshed, then [data.decode('utf-8')] raises.  The exception
    leaves the loop through its [except Exception], which logs it and
    breaks: [_process_message] is not called, and the handler goes on to
    its [finally] block. *)
Definition handle_client_undecodable (cid : string) : M unit :=
  touch cid;;
  raise EILSEQ.

(** One iteration that ended in [socket.timeout]: whether to [break]. *)
Definition handle_client_idle (cid : string) : M bool :=
  with_lock clients_lock
    (registry ← gets clients;
     now ← gets clock;
     mret (match registry !! cid with
           | Some c => bool_decide (120000 < now - last_activity c)
           | None => false
           end)).

(** The [finally] block: close the socket, leave the registry. *)
Definition handle_client_finally (cid : string) (sk : sock) : M unit :=
  modify (close sk);;
  with_lock clients_lock (modify (set_clients (delete cid))).

(** [stop]: every registered socket is closed and the registry cleared,
    then the upstream socket is closed and the link reset. *)
Definition stop : M unit :=
  with_lock clients_lock
    (registry ← gets clients;
     modify (set_closed
               (fun c => list_to_set (socket <$> (map_to_list registry).*2) ∪ c));;
     modify (set_clients (fun _ => ∅)));;
  link ← gets mt5_connection;
  match link with
  | Some up => modify (close up);; modify (set_mt5_connection None)
  | None => mret tt
  end.

(** What the other threads do while the dispatcher sleeps: a connection is
    accepted, a handler receives a message, a handler reaches its [finally]
    block, time passes, or a handler receives bytes that are not UTF-8 and
    leaves its loop (its [finally] block is the [Hangup] that follows).  A
    handler that is stuck takes no further step; a schedule that lists one
    anyway lets it do more than the code does. *)
Inductive event : Type :=
| Connect (sk : sock) (addr : string * Z)
| Receive (cid : string) (message : received)
| Hangup (cid : string) (sk : sock)
| Elapse (ms : N)
| Garbled (cid : string).

Definition step (e : event) (s : server) : server :=
  match e with
  | Connect sk addr => final (handle_client_accept sk addr s)
  | Receive cid message => final (handle_client_recv cid message s)
  | Hangup cid sk => final (handle_client_finally cid sk s)
  | Elapse ms => sleep (Z.of_N ms) s
  | Garbled cid => final (handle_client_undecodable cid s)
  end.

Definition run_events (events : list event) (s : server) : server :=
  fold_left (fun acc e => step e acc) events s.

(** *** The dispatcher: [_process_command_queue] and [_execute_command] *)

(** How the execution of one command ended.  [Exhausted] is the embedding's
    own: the waiting loop is given a number of sleeps to spend, and the
    number it is given is never used up ([wait_loop_terminates]). *)
Inductive outcome : Type :=
| Rejected
| Completed
| TimedOut
| Failed
| Exhausted.

Definition max_wait_time : Z := 30000.

(** The critical section of one poll: claim the cached reply and forward
    it.  The result tells whether the [return] inside the loop was taken. *)
Definition poll_cache (item : command_item) : M bool :=
  with_lock cache_lock
    (k ← lift (unhashable_message (request_id item)) (key_of (request_id item));
     cache ← gets response_cache;
     match cache !! k with
     | Some entry =>
         modify (set_response_cache (delete k));;
         _send_to_client (client_id item) (data entry);;
         mret true
     | None => mret false
     end).

(** [while time.time() - start_time < max_wait_time].  During each
    [time.sleep(0.1)] the other threads run the next batch of [schedule]. *)
Fixpoint wait_loop (fuel : nat) (start_time : Z) (item : command_item)
    (schedule : list (list event)) (s : server) {struct fuel} : result outcome :=
  if bool_decide (clock s - start_time < max_wait_time) then
    match poll_cache item s with
    | Returns true s1 => Returns Completed s1
    | Returns false s1 =>
        match fuel with
        | O => Returns Exhausted s1
        | S fuel' =>
            wait_loop fuel' start_time item (tail schedule)
                      (run_events (hd [] schedule) (sleep 100 s1))
        end
    | Raises text s1 => Raises text s1
    | Blocks s1 => Blocks s1
    end
  else Returns TimedOut s.

(** Sleeps that fit into the deadline. *)
Definition max_polls : nat := 300.

Definition _execute_command (item : command_item) (schedule : list (list event))
    : M outcome :=
  link ← gets mt5_connection;
  match link with
  | None =>
      _send_to_client (client_id item) (not_connected_reply (request_id item));;
      mret Rejected
  | Some upstream =>
      try_except
        (now ← gets clock;
         sendall upstream (mt5_message item now);;
         start_time ← gets clock;
         waited ← wait_loop max_polls start_time item schedule;
         match waited with
         | TimedOut =>
             _send_to_client (client_id item) (timeout_reply (request_id item));;
             mret TimedOut
         | other => mret other
         end)
        (fun text =>
           _send_to_client (client_id item) (exception_reply (request_id item) text);;
           mret Failed)
  end.

(** One iteration of [_process_command_queue]. *)
Definition process_command_queue_step (schedule : list (list event))
    : M (option outcome) :=
  try_except
    (command_item ← with_lock queue_lock
       (queue ← gets command_queue;
        match queue with
        | item :: _ => modify (set_command_queue (drop 1));; mret (Some item)
        | [] => mret None
        end);
     match command_item with
     | Some item => out ← _execute_command item schedule; mret (Some out)
     | None => modify (sleep 100);; mret None
     end)
    (fun _ => modify (sleep 1000);; mret None).

(** *** [_clean_expired_cache] *)

Definition expiration : Z := 600000.

Definition expired (current_time : Z) (entry : cache_entry) : Prop :=
  expiration < current_time - cached_timestamp entry.

#[global] Instance expired_dec (current_time : Z) (entry : cache_entry)
  : Decision (expired current_time entry).
Proof. unfold expired. apply _. Defined.

Definition _clean_expired_cache : M unit :=
  current_time ← gets clock;
  with_lock cache_lock
    (cache ← gets response_cache;
     let expired_keys :=
       (filter (fun kv => expired current_time kv.2) (map_to_list cache)).*1 in
     modify (set_response_cache
               (fun c => foldl (fun acc key => delete key acc) c expired_keys))).

(** *** [_load_auth_tokens] and [__init__] *)

(** [mcp_config.ini] as [configparser] presents it: absent, present but
    raising while it is read, a list of sections with the option/value
    pairs their proxies enumerate, or a file with an [AUTH_TOKENS] section
    whose enumeration raises part-way (a value that refers to an option
    which does not exist, as in [bad = %(nope)s]) after it has yielded the
    [options] in front of the one that raises. *)
Inductive config_file : Type :=
| Missing
| Unreadable
| Parsed (sections : list (string * list (string * string)))
| Interrupted (options : list (string * string)).

Fixpoint section (name : string)
    (sections : list (string * list (string * string)))
    : option (list (string * string)) :=
  match sections with
  | [] => None
  | (n, options) :: rest =>
      if String.eqb name n then Some options else section name rest
  end.

(** The result is the token store and the file left on disk.  [writable]
    tells whether creating and writing the file succeeds; a failure is only
    logged.  The tokens are stored one by one while the section is
    enumerated, so an exception in the middle of the enumeration leaves
    the ones stored so far. *)
Definition _load_auth_tokens (file : config_file) (writable : bool) (now : Z)
    (n : nat) : gmap string token_info * config_file :=
  match file with
  | Parsed sections =>
      match section "AUTH_TOKENS" sections with
      | Some options =>
          (foldl (fun tokens '(token, perms) =>
                    <[token := TokenInfo (split_comma perms) (isoformat rt now)]> tokens)
                 ∅ options,
           file)
      | None => (∅, file)
      end
  | Interrupted options =>
      (foldl (fun tokens '(token, perms) =>
                <[token := TokenInfo (split_comma perms) (isoformat rt now)]> tokens)
             ∅ options,
       file)
  | Unreadable => (∅, file)
  | Missing =>
      let default_token := uuid4 rt n in
      (<[default_token := TokenInfo ["all"] (isoformat rt now)]> ∅,
       if writable
       then Parsed [("AUTH_TOKENS", [(default_token, "all")])]
       else Missing)
  end.

(** The tokens an external configuration provides. *)
Definition configured_tokens (file : config_file) : list (string * string) :=
  match file with
  | Parsed sections => from_option id [] (section "AUTH_TOKENS" sections)
  | Interrupted options => options
  | Missing | Unreadable => []
  end.

(** [MCPServer.__init__] at time [now], in a process that has drawn [n]
    identifiers. *)
Definition init (enabled : bool) (file : config_file) (writable : bool)
    (now : Z) (n : nat) : server :=
  Server enabled ∅ None [] ∅ (_load_auth_tokens file writable now n).1
         false false false now ∅ []
         (match file with Missing => S n | _ => n end).

(** *** Runs of the broker *)

(** Every call of [m] relates the state it starts in to the state it leaves,
    however it ends. *)
Definition ensures {A : Type} (R : server -> server -> Prop) (m : M A) : Prop :=
  forall s, R s (final (m s)).

Definition clock_advances (s s' : server) : Prop := clock s <= clock s'.

(** A held registry lock stays held, and the upstream link is as before
    unless the registry lock ends up held. *)
Definition link_guarded (s s' : server) : Prop :=
  (clients_held s = true -> clients_held s' = true)
  /\ (mt5_connection s' = mt5_connection s \/ clients_held s' = true).

(** What a relation has to satisfy to hold across every call: it is a
    preorder, it is insensitive to the queue, the cache, the identifier
    supply, the two locks that guard them and the passing of time, and it
    holds across the methods that enter the registry lock. *)
Record framed (R : server -> server -> Prop) : Prop := Framed {
  framed_refl : forall s, R s s;
  framed_trans : forall s1 s2 s3, R s1 s2 -> R s2 s3 -> R s1 s3;
  framed_queue_lock : forall b s, R s (set_queue_held b s);
  framed_cache_lock : forall b s, R s (set_cache_held b s);
  framed_queue : forall f s, R s (set_command_queue f s);
  framed_cache : forall f s, R s (set_response_cache f s);
  framed_drawn : forall f s, R s (set_drawn f s);
  framed_sleep : forall ms s, 0 <= ms -> R s (sleep ms s);
  framed_sendall : forall sk m, ensures R (sendall sk m);
  framed_send : forall cid m, ensures R (_send_to_client cid m);
  framed_authenticated : forall cid, ensures R (_is_client_authenticated cid);
  framed_authenticate : forall cid token, ensures R (_authenticate_client cid token);
  framed_type : forall cid, ensures R (_get_client_type cid);
  framed_identity : forall cid, ensures R (process_identity cid);
  framed_accept : forall sk addr, ensures R (handle_client_accept sk addr);
  framed_touch : forall cid, ensures R (touch cid);
  framed_finally : forall cid sk, ensures R (handle_client_finally cid sk)
}.

(** What the other threads can still change once the registry lock is held
    for good: sockets get closed, identifiers are drawn and time passes. *)
Definition frozen (s s' : server) : Prop :=
  clients_held s' = true
  /\ wire s' = wire s
  /\ response_cache s' = response_cache s
  /\ cache_held s' = cache_held s
  /\ mt5_connection s' = mt5_connection s
  /\ clock s <= clock s'.

(** Nothing a client could observe has changed: the link, the registry, the
    queue, the cache and what the sockets were handed are as before, and the
    registry lock is held. *)
Definition standstill (s s' : server) : Prop :=
  clients_held s' = true
  /\ mt5_connection s' = mt5_connection s
  /\ clients s' = clients s
  /\ command_queue s' = command_queue s
  /\ response_cache s' = response_cache s
  /\ wire s' = wire s.

(** The registry lock is not left held without a link: a lock that ends up
    held was held before, or a link is set; and a link that is set stays. *)
Definition lock_guarded (s s' : server) : Prop :=
  (mt5_connection s <> None -> mt5_connection s' <> None)
  /\ (clients_held s' = true ->
      clients_held s = true \/ mt5_connection s' <> None).

(** No connection is given the upstream type unless the registry lock ends
    up held: a held lock stays held, and otherwise every connection that is
    registered with the type ["mt5_ea"] was so before. *)
Definition type_guarded (s s' : server) : Prop :=
  (clients_held s = true -> clients_held s' = true)
  /\ (clients_held s' = true
      \/ forall cid c', clients s' !! cid = Some c' -> type c' = "mt5_ea" ->
                        exists c, clients s !! cid = Some c /\ type c = "mt5_ea").

(** The states a server goes through: it is constructed, handler threads
    take steps, and the dispatcher runs iterations of its loop. *)
Inductive reachable : server -> Prop :=
| reachable_init (enabled : bool) (file : config_file) (writable : bool)
    (now : Z) (n : nat) :
    reachable (init enabled file writable now n)
| reachable_step (e : event) (s : server) :
    reachable s -> reachable (step e s)
| reachable_dispatch (schedule : list (list event)) (s : server) :
    reachable s -> reachable (final (process_command_queue_step schedule s)).

End Protocol.

End MCPServer.

(** ** The client: [class MCPClient] *)

Module MCPClient.

(** What [self.callbacks] holds: the bound method
    [self._sync_response_callback], or a callable supplied by the caller,
    known by a name. *)
Inductive callback : Type :=
| sync
| user (name : nat).

#[global] Instance callback_eq_dec : EqDecision callback.
Proof. solve_decision. Defined.

(** The attributes of an [MCPClient], followed by its environment: the text
    of the exception [socket.sendall] raises, if it does, what was handed to
    the socket, the calls made to callables of the caller (which are taken
    not to reach back into the client), and the number of identifiers drawn
    so far. *)
Record client : Type := Client {
  connected : bool;
  authenticated : bool;
  auth_token : option string;
  callbacks : gmap string callback;
  default_callback : option nat;
  response_event : bool;
  last_response : option json;
  send_error : option string;
  outbox : list json;
  invoked : list (nat * json);
  drawn : nat
}.

Definition set_callbacks (f : gmap string callback -> gmap string callback) (c : client) : client :=
  Client (connected c) (authenticated c) (auth_token c) (f (callbacks c))
         (default_callback c) (response_event c) (last_response c)
         (send_error c) (outbox c) (invoked c) (drawn c).

Definition set_outbox (f : list json -> list json) (c : client) : client :=
  Client (connected c) (authenticated c) (auth_token c) (callbacks c)
         (default_callback c) (response_event c) (last_response c)
         (send_error c) (f (outbox c)) (invoked c) (drawn c).

Definition set_invoked (f : list (nat * json) -> list (nat * json)) (c : client) : client :=
  Client (connected c) (authenticated c) (auth_token c) (callbacks c)
         (default_callback c) (response_event c) (last_response c)
         (send_error c) (outbox c) (f (invoked c)) (drawn c).

Definition set_drawn (f : nat -> nat) (c : client) : client :=
  Client (connected c) (authenticated c) (auth_token c) (callbacks c)
         (default_callback c) (response_event c) (last_response c)
         (send_error c) (outbox c) (invoked c) (f (drawn c)).

Definition set_response_event (v : bool) (c : client) : client :=
  Client (connected c) (authenticated c) (auth_token c) (callbacks c)
         (default_callback c) v (last_response c) (send_error c) (outbox c)
         (invoked c) (drawn c).

Definition set_last_response (v : option json) (c : client) : client :=
  Client (connected c) (authenticated c) (auth_token c) (callbacks c)
         (default_callback c) (response_event c) v (send_error c) (outbox c)
         (invoked c) (drawn c).

Definition set_connected (v : bool) (c : client) : client :=
  Client v (authenticated c) (auth_token c) (callbacks c) (default_callback c)
         (response_event c) (last_response c) (send_error c) (outbox c)
         (invoked c) (drawn c).

Definition set_authenticated (v : bool) (c : client) : client :=
  Client (connected c) v (auth_token c) (callbacks c) (default_callback c)
         (response_event c) (last_response c) (send_error c) (outbox c)
         (invoked c) (drawn c).

Section Calls.

Context (rt : Runtime).

(** [if self.auth_token:] on an [Optional[str]]. *)
Definition token_set (c : client) : bool :=
  match auth_token c with
  | Some t => negb (String.eqb t "")
  | None => false
  end.

Definition error_result (message : string) : json :=
  JObject [("status", JString "error"); ("message", JString message)].

(** [self.socket.sendall(...)]; [None] is the exception it raises. *)
Definition sendall (payload : json) (c : client) : option client :=
  match send_error c with
  | Some _ => None
  | None => Some (set_outbox (fun o => o ++ [payload]) c)
  end.

Definition _sync_response_callback (response : json) (c : client) : client :=
  set_response_event true (set_last_response (Some response) c).

(** A call [callback(response)]; an exception of a callable of the caller is
    caught and logged. *)
Definition invoke (cb : callback) (response : json) (c : client) : client :=
  match cb with
  | sync => _sync_response_callback response c
  | user name => set_invoked (fun l => l ++ [(name, response)]) c
  end.

(** [request_id in self.callbacks] and [self.callbacks[request_id]]: the
    keys are [str]; the outer [None] is the [TypeError] of an unhashable
    identifier. *)
Definition find_callback (request_id : json) (c : client)
    : option (option (string * callback)) :=
  match key_of request_id with
  | None => None
  | Some (KStr id) => Some (pair id <$> callbacks c !! id)
  | Some _ => Some None
  end.

(** [if self.default_callback: self.default_callback(response)]. *)
Definition call_default (response : json) (c : client) : client :=
  match default_callback c with
  | Some name => set_invoked (fun l => l ++ [(name, response)]) c
  | None => c
  end.

(** [_process_response], run by the receive thread on each message.  An
    exception before the default callback skips the default callback. *)
Definition _process_response (message : received) (c : client) : client :=
  match message with
  | Malformed | Unparsed => c
  | Decoded response =>
      match py_get response "requestId" JNull with
      | None => c
      | Some request_id =>
          let handled : option client :=
            if py_truthy request_id then
              found ← find_callback request_id c;
              Some (match found with
                    | Some (id, cb) =>
                        invoke cb response
                          (if decide (cb <> sync)
                           then set_callbacks (delete id) c
                           else c)
                    | None => c
                    end)
            else Some c in
          match handled with
          | None => c
          | Some c1 => call_default response c1
          end
      end
  end.

(** [self.response_event.wait(timeout)]: [arrivals] are the messages the
    receive thread processes before the timeout expires; the wait ends as
    soon as the event is set. *)
Fixpoint wait (arrivals : list received) (c : client) : client * bool :=
  if response_event c then (c, true)
  else match arrivals with
       | [] => (c, false)
       | message :: rest => wait rest (_process_response message c)
       end.

(** [send_command(command, parameters, callback, timeout)]. *)
Definition send_command (command : string) (parameters : option json)
    (callback : option nat) (arrivals : list received) (c : client)
    : client * json :=
  if negb (connected c) then (c, error_result "Not connected to MCP Server")
  else if token_set c && negb (authenticated c)
  then (c, error_result "Not authenticated with MCP Server")
  else
    let request_id := uuid4 rt (drawn c) in
    let c0 := set_drawn S c in
    let message :=
      JObject ([("command", JString command);
                ("requestId", JString request_id);
                ("parameters",
                 match parameters with
                 | Some p => if py_truthy p then p else JObject []
                 | None => JObject []
                 end)]
               ++ (if token_set c
                   then [("auth", JString (default "" (auth_token c)))]
                   else [])) in
    match callback with
    | Some name =>
        let c1 := set_callbacks (insert request_id (user name)) c0 in
        match sendall message c1 with
        | Some c2 =>
            (c2, JObject [("status", JString "sent");
                          ("requestId", JString request_id)])
        | None => (c1, error_result (default "" (send_error c1)))
        end
    | None =>
        let c1 := set_last_response None (set_response_event false c0) in
        let c2 := set_callbacks (insert request_id sync) c1 in
        match sendall message c2 with
        | Some c3 =>
            let (c4, signalled) := wait arrivals c3 in
            if signalled : bool then
              match last_response c4 with
              | Some response =>
                  if py_truthy response then (c4, response)
                  else (c4, error_result "Empty response")
              | None => (c4, error_result "Empty response")
              end
            else (set_callbacks (delete request_id) c4,
                  error_result "Response timeout")
        | None => (c2, error_result (default "" (send_error c2)))
        end
    end.

(** The envelope [send_command] hands to the socket. *)
Definition command_message (command : string) (parameters : option json)
    (c : client) : json :=
  JObject ([("command", JString command);
            ("requestId", JString (uuid4 rt (drawn c)));
            ("parameters",
             match parameters with
             | Some p => if py_truthy p then p else JObject []
             | None => JObject []
             end)]
           ++ (if token_set c
               then [("auth", JString (default "" (auth_token c)))]
               else [])).

(** [remove_callback(request_id)]. *)
Definition remove_callback (request_id : string) (c : client) : client * bool :=
  match callbacks c !! request_id with
  | Some _ => (set_callbacks (delete request_id) c, true)
  | None => (c, false)
  end.

(** [disconnect]: the flags are reset; the registered callbacks stay. *)
Definition disconnect (c : client) : client :=
  set_authenticated false (set_connected false c).

(** [authenticate]: the token is sent, the event is cleared, and the call
    waits for the event; [arrivals] are the messages the receive thread
    processes before the 10 seconds expire.  A response that is not a dict
    makes [response.get] raise, which the [except] turns into [False]. *)
Definition authenticate (arrivals : list received) (c : client) : client * bool :=
  if negb (connected c) then (c, false)
  else if negb (token_set c) then (c, false)
  else
    match sendall (JObject [("auth", JString (default "" (auth_token c)))]) c with
    | None => (c, false)
    | Some c1 =>
        let (c2, signalled) := wait arrivals (set_response_event false c1) in
        if signalled : bool then
          match last_response c2 with
          | Some response =>
              if py_truthy response then
                match py_get response "status" JNull with
                | Some status =>
                    if py_eq_str status "authenticated"
                    then (set_authenticated true c2, true)
                    else (c2, false)
                | None => (c2, false)
                end
              else (c2, false)
          | None => (c2, false)
          end
        else (c2, false)
    end.

(** [connect]: [accepted] tells whether the server accepts the connection;
    a client that has a token authenticates at once. *)
Definition connect (accepted : bool) (arrivals : list received) (c : client)
    : client * bool :=
  if connected c then (c, true)
  else if accepted then
    let c1 := set_connected true c in
    if token_set c1 then authenticate arrivals c1 else (c1, true)
  else (disconnect c, false).

(** No identifier is registered with the synchronous callback. *)
Definition no_sync (c : client) : Prop :=
  forall k, callbacks c !! k <> Some sync.

(** A message that carries [id] as its [requestId]. *)
Definition carries (id : string) (message : received) : bool :=
  match message with
  | Decoded (JObject fields) =>
      match assoc "requestId" fields with
      | Some (JString s) => String.eqb s id
      | _ => false
      end
  | _ => false
  end.

(** Whether a message is handed to the synchronous callback: it is an
    object whose ["requestId"] is a non-empty string that is registered with
    that callback. *)
Definition signals (c : client) (message : received) : bool :=
  match message with
  | Decoded (JObject fields) =>
      match assoc "requestId" fields with
      | Some (JString id) =>
          negb (String.eqb id "") && bool_decide (callbacks c !! id = Some sync)
      | _ => false
      end
  | _ => false
  end.

(** What the waiting call relies on while no answer has arrived: the event
    is clear and the only identifier registered with the synchronous
    callback is [id]. *)
Definition awaiting (id : string) (c : client) : Prop :=
  response_event c = false
  /\ callbacks c !! id = Some sync
  /\ forall k, callbacks c !! k = Some sync -> k = id.

End Calls.

End MCPClient.

(** ** The installer: [install.py] *)

Module Installer.

Section Install.

Context (rt : Runtime).

(** The configuration file that [install_python_components] writes, in a
    process that has drawn [n] identifiers: the [SERVER] section and one
    freshly drawn token with the permission ["all"]. *)
Definition written_config (n : nat) : MCPServer.config_file :=
  MCPServer.Parsed
    [("SERVER", [("host", "127.0.0.1"); ("port", "5555");
                 ("auth_enabled", "true"); ("max_clients", "10")]);
     ("AUTH_TOKENS", [(uuid4 rt n, "all")])].

End Install.

End Installer.

(** ** Sample configurations

    Concrete runs of the broker, used to instantiate the theorems below. *)

Module Sample.

Import MCPServer.

Definition runtime : Runtime := {|
  uuid4 := fun n => "uuid-" +:+ pretty n;
  isoformat := fun t => "T+" +:+ pretty t +:+ "ms";
  py_str := fun v => match v with JString s => s | _ => "<value>" end
|}.

Definition tokens_file : config_file :=
  Parsed [("AUTH_TOKENS", [("secret", "all")])].

Definition first_address : string * Z := ("127.0.0.1", 50001).

Definition second_address : string * Z := ("127.0.0.1", 50002).

(** Authentication enabled; one connection, ["uuid-0"] on socket 1. *)
Definition guarded : server :=
  run_events runtime [Connect 1%nat first_address]
             (init runtime true tokens_file true 0 0).

Definition guest : client_info := ClientInfo 1%nat first_address "unknown" false 0.

(** Authentication disabled; connections ["uuid-0"] on socket 1 and
    ["uuid-1"] on socket 2. *)
Definition open_house : server :=
  run_events runtime [Connect 1%nat first_address; Connect 2%nat second_address]
             (init runtime false tokens_file true 0 0).

Definition trader : client_info := ClientInfo 1%nat first_address "unknown" true 0.

Definition advisor : client_info := ClientInfo 2%nat second_address "mt5_ea" true 0.

Definition price_request : list (string * json) :=
  [("command", JString "get_price");
   ("requestId", JString "r1");
   ("parameters", JObject [("symbol", JString "EURUSD")])].

Definition price_item : command_item :=
  CommandItem "uuid-0" (JString "get_price")
              (JObject [("symbol", JString "EURUSD")]) (JString "r1") 0.

Definition identification : list (string * json) :=
  [("identity", JString "MT5_EA")].

(** The writes of the identification branch applied to [open_house], with
    the registry lock released: ["uuid-1"] is the upstream link. *)
Definition linked : server :=
  set_mt5_connection (Some 2%nat)
    (set_clients (insert "uuid-1" advisor) open_house).

(** A reply in the shape the cache branch accepts. *)
Definition price_reply : list (string * json) :=
  [("command", JString "get_price");
   ("responseToId", JString "r1");
   ("status", JString "ok");
   ("price", JString "1.0950")].

(** A reply that correlates by identifier only. *)
Definition bare_reply : list (string * json) :=
  [("requestId", JString "r1");
   ("responseToId", JString "r1");
   ("status", JString "ok");
   ("price", JString "1.0950")].

(** [open_house] after the client has queued [price_request] and the second
    connection has then sent [identification]. *)
Definition identified : server :=
  run_events runtime
    [Receive "uuid-0" (Decoded (JObject price_request));
     Receive "uuid-1" (Decoded (JObject identification))]
    open_house.

(** A cache with one entry past the expiration and one within it. *)
Definition stocked : server :=
  set_clock (fun _ => 700000)
    (set_response_cache
       (fun _ => <[KStr "old" := CacheEntry (JObject bare_reply) 0]>
                   (<[KStr "young" := CacheEntry (JObject price_reply) 650000]> ∅))
       open_house).

(** A connected client without a token that has made no call yet. *)
Definition fresh_client : MCPClient.client :=
  MCPClient.Client true false None ∅ None false None None [] [] 0.

(** The acknowledgment and the terminal reply the broker sends for the
    first command of [fresh_client], and the acknowledgment of the second. *)
Definition first_ack : json :=
  queued_reply runtime (JString "uuid-0") (JString "get_price").

Definition first_terminal : json := not_connected_reply (JString "uuid-0").

Definition second_ack : json :=
  queued_reply runtime (JString "uuid-1") (JString "get_orders").

(** [fresh_client] after a synchronous [send_command] that was answered by
    [first_ack]. *)
Definition returning_client : MCPClient.client :=
  (MCPClient.send_command runtime "get_price" None None [Decoded first_ack]
                          fresh_client).1.

(** The second connection of [open_house], as it is registered. *)
Definition newcomer : client_info := ClientInfo 2%nat second_address "unknown" true 0.

(** [open_house] after the client has queued [price_request]. *)
Definition requested : server :=
  run_events runtime [Receive "uuid-0" (Decoded (JObject price_request))] open_house.

(** A client that was constructed with a token and has not connected. *)
Definition token_client : MCPClient.client :=
  MCPClient.Client false false (Some "secret") ∅ None false None None [] [] 0.

(** The fields of an acknowledgment and of a terminal reply for the first
    command of [fresh_client]. *)
Definition ack_fields : list (string * json) :=
  [("status", JString "queued"); ("requestId", JString "uuid-0")].

Definition terminal_fields : list (string * json) :=
  [("status", JString "error"); ("requestId", JString "uuid-0");
   ("message", JString "MetaTrader EA not connected")].

(** [guarded] after a second connection, ["uuid-1"] on socket 2, has been
    accepted and has sent [identification]. *)
Definition guarded_identified : server :=
  run_events runtime
    [Connect 2%nat second_address;
     Receive "uuid-1" (Decoded (JObject identification))]
    guarded.

End Sample.

(** * Properties of the broker *)

Ltac run :=
  unfold mbind, mret, MCPServer.M_bind, MCPServer.M_ret, MCPServer.gets,
    MCPServer.modify, MCPServer.raise, MCPServer.lift, MCPServer.try_except,
    MCPServer.with_lock, MCPServer.held, MCPServer.set_held;
  simpl.

Section Broker.

Import MCPServer.

Context (rt : Runtime).

#[local] Arguments _send_to_client : simpl never.
#[local] Arguments _is_client_authenticated : simpl never.
#[local] Arguments _authenticate_client : simpl never.
#[local] Arguments _get_client_type : simpl never.
#[local] Arguments is_identification : simpl never.
#[local] Arguments process_identity : simpl never.
#[local] Arguments process_command : simpl never.
#[local] Arguments process_decoded : simpl never.
#[local] Arguments poll_cache : simpl never.
#[local] Arguments sendall : simpl never.
#[local] Arguments wait_loop : simpl never.
#[local] Arguments run_events : simpl never.

Lemma sendall_open (sk : sock) (m : json) (s : server) :
  sk ∉ closed s -> sendall sk m s = Returns tt (sent sk m s).
Proof.
  intros Hopen. unfold sendall. rewrite decide_False by exact Hopen. reflexivity.
Qed.

Lemma sendall_closed (sk : sock) (m : json) (s : server) :
  sk ∈ closed s -> sendall sk m s = Raises EBADF s.
Proof.
  intros Hc. unfold sendall. rewrite decide_True by exact Hc. reflexivity.
Qed.

Lemma send_registered (cid : string) (c : client_info) (m : json) (s : server) :
  clients_held s = false ->
  clients s !! cid = Some c ->
  socket c ∉ closed s ->
  _send_to_client cid m s = Returns true (sent (socket c) m s).
Proof.
  intros Hfree Hc Hopen. destruct s; simpl in *; subst.
  unfold _send_to_client. run. rewrite Hc. run.
  rewrite sendall_open by exact Hopen. reflexivity.
Qed.

Lemma send_closed (cid : string) (c : client_info) (m : json) (s : server) :
  clients_held s = false ->
  clients s !! cid = Some c ->
  socket c ∈ closed s ->
  _send_to_client cid m s = Returns false s.
Proof.
  intros Hfree Hc Hclosed. destruct s; simpl in *; subst.
  unfold _send_to_client. run. rewrite Hc. run.
  rewrite sendall_closed by exact Hclosed. reflexivity.
Qed.

Lemma send_unregistered (cid : string) (m : json) (s : server) :
  clients_held s = false ->
  clients s !! cid = None ->
  _send_to_client cid m s = Returns false s.
Proof.
  intros Hfree Hc. destruct s; simpl in *; subst.
  unfold _send_to_client. run. rewrite Hc. reflexivity.
Qed.

Lemma send_blocked (cid : string) (m : json) (s : server) :
  clients_held s = true -> _send_to_client cid m s = Blocks s.
Proof.
  intros Hheld. unfold _send_to_client. run. rewrite Hheld. reflexivity.
Qed.

Lemma is_identification_object (fields : list (string * json)) (s : server) :
  is_identification (JObject fields) s = Returns (identity_marker fields) s.
Proof.
  unfold is_identification, identity_marker. run.
  destruct (assoc "identity" fields) as [v|]; reflexivity.
Qed.

Lemma authenticated_registered (cid : string) (c : client_info) (s : server) :
  clients_held s = false ->
  auth_enabled s = true ->
  clients s !! cid = Some c ->
  _is_client_authenticated cid s = Returns (authenticated c) s.
Proof.
  intros Hfree Hen Hc. destruct s; simpl in *; subst.
  unfold _is_client_authenticated. run. rewrite Hc. reflexivity.
Qed.

Lemma authenticated_disabled (cid : string) (s : server) :
  auth_enabled s = false ->
  _is_client_authenticated cid s = Returns true s.
Proof.
  intros Hen. unfold _is_client_authenticated. run. rewrite Hen. reflexivity.
Qed.

Lemma authenticate_known (cid t : string) (c : client_info) (s : server) :
  clients_held s = false ->
  auth_enabled s = true ->
  is_Some (auth_tokens s !! t) ->
  clients s !! cid = Some c ->
  _authenticate_client cid (JString t) s
  = Returns true (set_clients (insert cid (with_authenticated true c)) s).
Proof.
  intros Hfree Hen Hknown Hc. destruct s; simpl in *; subst.
  unfold _authenticate_client, token_known. run.
  rewrite bool_decide_true by exact Hknown. run.
  rewrite Hc. reflexivity.
Qed.

Lemma authenticate_unknown (cid : string) (token : json) (k : pykey) (s : server) :
  auth_enabled s = true ->
  key_of token = Some k ->
  (forall t, k = KStr t -> auth_tokens s !! t = None) ->
  _authenticate_client cid token s = Returns false s.
Proof.
  intros Hen Hk Hunknown. unfold _authenticate_client, token_known. run.
  rewrite Hen, Hk. simpl. destruct k as [ |z|t]; simpl; try reflexivity.
  rewrite bool_decide_false; [reflexivity|].
  rewrite (Hunknown t eq_refl). intros [x Hx]. discriminate.
Qed.

Lemma client_type_registered (cid : string) (c : client_info) (s : server) :
  clients_held s = false ->
  clients s !! cid = Some c ->
  _get_client_type cid s = Returns (type c) s.
Proof.
  intros Hfree Hc. destruct s; simpl in *; subst.
  unfold _get_client_type. run. rewrite Hc. reflexivity.
Qed.

Lemma authenticated_admitted (cid : string) (c : client_info) (s : server) :
  clients_held s = false ->
  clients s !! cid = Some c ->
  _is_client_authenticated cid s = Returns (admitted c s) s.
Proof.
  intros Hfree Hc. unfold admitted.
  destruct (auth_enabled s) eqn:Hen; simpl.
  - apply authenticated_registered; assumption.
  - apply authenticated_disabled; assumption.
Qed.

(** An admitted connection reaches the command branch whenever its object
    does not declare the upstream identity. *)
Lemma admitted_reaches_command (s : server) (cid : string) (c : client_info)
    (fields : list (string * json)) :
  clients_held s = false ->
  clients s !! cid = Some c ->
  admitted c s = true ->
  identity_marker fields = false ->
  process_decoded rt cid (JObject fields) s
  = if bool_decide (is_Some (assoc "command" fields))
    then process_command rt cid (JObject fields) s
    else Returns tt s.
Proof.
  intros Hfree Hc Hadm Hmarker.
  unfold process_decoded. run.
  rewrite is_identification_object, Hmarker. run.
  destruct (bool_decide (is_Some (assoc "auth" fields))); simpl;
    rewrite !(authenticated_admitted cid c) by assumption;
    rewrite Hadm; simpl;
    try (rewrite !(authenticated_admitted cid c) by assumption;
         rewrite Hadm; simpl);
    destruct (bool_decide (is_Some (assoc "command" fields))); reflexivity.
Qed.

Lemma request_queued (s : server) (cid : string) (c : client_info)
    (fields : list (string * json)) (cmd : json) :
  unlocked s ->
  clients s !! cid = Some c ->
  String.eqb (type c) "mt5_ea" = false ->
  socket c ∉ closed s ->
  assoc "command" fields = Some cmd ->
  process_command rt cid (JObject fields) s
  = Returns tt
      (sent (socket c)
            (queued_reply rt (request_id (item_of rt cid fields cmd s)) cmd)
            (set_command_queue (fun q => q ++ [item_of rt cid fields cmd s])
                               (set_drawn S s))).
Proof.
  intros (Hfree & Hq & _) Hc Htype Hopen Hcmd.
  unfold process_command. run. rewrite Hcmd. simpl.
  rewrite (client_type_registered cid c) by assumption.
  rewrite Htype. simpl. rewrite Hq. simpl.
  rewrite (send_registered cid c) by assumption.
  destruct s; simpl in *; subst. reflexivity.
Qed.

Lemma execute_without_link (s : server) (item : command_item)
    (schedule : list (list event)) :
  mt5_connection s = None ->
  _execute_command rt item schedule s
  = (_send_to_client (client_id item) (not_connected_reply (request_id item));;
     mret Rejected) s.
Proof.
  intros Hlink. unfold _execute_command. run. rewrite Hlink. reflexivity.
Qed.

Lemma wait_loop_unfold (fuel : nat) (start_time : Z) (item : command_item)
    (schedule : list (list event)) (s : server) :
  wait_loop rt fuel start_time item schedule s
  = if bool_decide (clock s - start_time < max_wait_time) then
      match poll_cache item s with
      | Returns true s1 => Returns Completed s1
      | Returns false s1 =>
          match fuel with
          | O => Returns Exhausted s1
          | S fuel' =>
              wait_loop rt fuel' start_time item (tail schedule)
                        (run_events rt (hd [] schedule) (sleep 100 s1))
          end
      | Raises text s1 => Raises text s1
      | Blocks s1 => Blocks s1
      end
    else Returns TimedOut s.
Proof. destruct fuel; reflexivity. Qed.

Lemma poll_found (item : command_item) (k : pykey) (entry : cache_entry)
    (c : client_info) (s : server) :
  cache_held s = false ->
  clients_held s = false ->
  key_of (request_id item) = Some k ->
  response_cache s !! k = Some entry ->
  clients s !! client_id item = Some c ->
  socket c ∉ closed s ->
  poll_cache item s
  = Returns true (sent (socket c) (data entry) (set_response_cache (delete k) s)).
Proof.
  intros Hcache Hfree Hk Hentry Hc Hopen.
  unfold poll_cache. run. rewrite Hcache, Hk. simpl. rewrite Hentry. simpl.
  rewrite (send_registered (client_id item) c); simpl; try assumption.
  destruct s; simpl in *; subst. reflexivity.
Qed.

Lemma poll_absent (item : command_item) (k : pykey) (s : server) :
  cache_held s = false ->
  key_of (request_id item) = Some k ->
  response_cache s !! k = None ->
  poll_cache item s = Returns false s.
Proof.
  intros Hcache Hk Habsent.
  unfold poll_cache. run. rewrite Hcache, Hk. simpl. rewrite Habsent. simpl.
  destruct s; simpl in *; subst. reflexivity.
Qed.

Lemma reply_cached (s : server) (cid : string) (c : client_info)
    (fields : list (string * json)) (cmd response_to : json) (k : pykey) :
  unlocked s ->
  clients s !! cid = Some c ->
  String.eqb (type c) "mt5_ea" = true ->
  assoc "command" fields = Some cmd ->
  assoc "responseToId" fields = Some response_to ->
  key_of response_to = Some k ->
  process_command rt cid (JObject fields) s
  = Returns tt
      (set_response_cache (insert k (CacheEntry (JObject fields) (clock s)))
                          (set_drawn S s)).
Proof.
  intros (Hfree & _ & Hcache) Hc Htype Hcmd Hto Hk.
  unfold process_command. run. rewrite Hcmd. simpl.
  rewrite (client_type_registered cid c) by assumption.
  rewrite Htype. simpl. rewrite Hto. simpl. rewrite Hcache, Hk. simpl.
  destruct s; simpl in *; subst. reflexivity.
Qed.

Lemma finally_unlocked (cid : string) (sk : sock) (s : server) :
  clients_held s = false ->
  handle_client_finally cid sk s
  = Returns tt (set_clients (delete cid) (close sk s)).
Proof.
  intros Hfree. unfold handle_client_finally. run. rewrite Hfree.
  destruct s; simpl in *; subst. reflexivity.
Qed.

Lemma execute_on_closed_link (s : server) (item : command_item) (c : client_info)
    (up : sock) (schedule : list (list event)) :
  clients_held s = false ->
  mt5_connection s = Some up ->
  up ∈ closed s ->
  clients s !! client_id item = Some c ->
  socket c ∉ closed s ->
  _execute_command rt item schedule s
  = Returns Failed (sent (socket c) (exception_reply (request_id item) EBADF) s).
Proof.
  intros Hfree Hlink Hclosed Hc Hopen.
  unfold _execute_command. run. rewrite Hlink. simpl.
  rewrite sendall_closed by exact Hclosed.
  rewrite (send_registered (client_id item) c) by assumption. reflexivity.
Qed.

Lemma closed_after_close (sk : sock) (s : server) : sk ∈ closed (close sk s).
Proof. simpl. apply elem_of_union. left. apply elem_of_singleton. reflexivity. Qed.

Lemma open_after_close (sk other : sock) (s : server) :
  other <> sk -> other ∉ closed s -> other ∉ closed (close sk s).
Proof.
  intros Hne Hopen Hin. simpl in Hin.
  apply elem_of_union in Hin as [Hin|Hin]; [|contradiction].
  apply elem_of_singleton in Hin. contradiction.
Qed.

(** With the registry lock free: after the [finally] block of the upstream
    handler, the dispatcher attempts the write to the closed socket and the
    client is sent the text of the [OSError]. *)
Lemma write_after_teardown_fails (s : server) (cid : string) (c c2 : client_info)
    (item : command_item) (schedule : list (list event)) :
  clients_held s = false ->
  clients s !! cid = Some c ->
  mt5_connection s = Some (socket c) ->
  client_id item <> cid ->
  clients s !! client_id item = Some c2 ->
  socket c2 <> socket c ->
  socket c2 ∉ closed s ->
  exists s',
    handle_client_finally cid (socket c) s = Returns tt s'
    /\ clients s' !! cid = None
    /\ socket c ∈ closed s'
    /\ mt5_connection s' = Some (socket c)
    /\ _execute_command rt item schedule s'
       = Returns Failed
           (sent (socket c2) (exception_reply (request_id item) EBADF) s').
Proof.
  intros Hfree Hc Hlink Hother Hc2 Hsock Hopen.
  exists (set_clients (delete cid) (close (socket c) s)).
  split; [|split; [|split; [|split]]].
  - apply finally_unlocked. exact Hfree.
  - simpl. apply lookup_delete_eq.
  - apply closed_after_close.
  - simpl. exact Hlink.
  - apply (execute_on_closed_link _ item c2 (socket c)).
    + exact Hfree.
    + exact Hlink.
    + apply closed_after_close.
    + simpl. rewrite lookup_delete_ne by congruence. exact Hc2.
    + apply open_after_close; assumption.
Qed.

(** [stop] is the one place that resets the link after closing the socket
    it names. *)
Lemma stop_resets_link (s : server) :
  clients_held s = false -> mt5_connection (final (stop s)) = None.
Proof.
  intros Hfree. unfold stop. run. rewrite Hfree. simpl.
  destruct (mt5_connection s) as [up|] eqn:Hlink; simpl; [reflexivity|exact Hlink].
Qed.

Lemma closed_link_not_rejected (s s2 : server) (up : sock) (item : command_item)
    (schedule : list (list event)) :
  mt5_connection s = Some up ->
  up ∈ closed s ->
  _execute_command rt item schedule s <> Returns Rejected s2.
Proof.
  intros Hlink Hclosed. unfold _execute_command. run. rewrite Hlink. simpl.
  rewrite sendall_closed by exact Hclosed.
  destruct (_send_to_client _ _ s) as [sent_ok s1|text s1|s1]; discriminate.
Qed.

(** C2, what the code does.  In whatever state the [finally] block of a
    handler runs on the socket that is the upstream link, the block closes
    the socket and leaves [mt5_connection] as it was: the link still names
    the closed socket.  No command executed in the state it leaves is
    [Rejected], the outcome that sends ["MetaTrader EA not connected"]: the
    dispatcher attempts the write to the closed socket instead. *)
Theorem teardown_keeps_link (s : server) (cid : string) (sk : sock)
    (item : command_item) (schedule : list (list event)) :
  mt5_connection s = Some sk ->
  mt5_connection (final (handle_client_finally cid sk s)) = Some sk
  /\ sk ∈ closed (final (handle_client_finally cid sk s))
  /\ forall s2,
      _execute_command rt item schedule (final (handle_client_finally cid sk s))
      <> Returns Rejected s2.
Proof.
  intros Hlink.
  assert (Hfinal : mt5_connection (final (handle_client_finally cid sk s)) = Some sk
                   /\ sk ∈ closed (final (handle_client_finally cid sk s))).
  { unfold handle_client_finally. run.
    destruct (clients_held s); simpl; (split; [exact Hlink|apply closed_after_close]). }
  destruct Hfinal as [Hkept Hclosed]. split; [exact Hkept|split; [exact Hclosed|]].
  intros s2. apply (closed_link_not_rejected _ s2 sk); assumption.
Qed.

Lemma lookup_delete_all (keys : list pykey) (cache : gmap pykey cache_entry)
    (k : pykey) :
  foldl (fun acc key => delete key acc) cache keys !! k
  = if decide (k ∈ keys) then None else cache !! k.
Proof.
  revert cache. induction keys as [|key keys IH]; intros cache.
  - destruct (decide (k ∈ [])) as [Hin|_]; [|reflexivity].
    apply not_elem_of_nil in Hin. contradiction.
  - change (foldl (fun acc key0 => delete key0 acc) cache (key :: keys))
      with (foldl (fun acc key0 => delete key0 acc) (delete key cache) keys).
    rewrite IH.
    destruct (decide (k ∈ keys)) as [Hin|Hnot];
      destruct (decide (k ∈ key :: keys)) as [Hin'|Hnot']; try reflexivity.
    + exfalso. apply Hnot'. right. exact Hin.
    + apply elem_of_cons in Hin' as [->|Hin']; [|contradiction].
      apply lookup_delete_eq.
    + apply lookup_delete_ne. intros ->. apply Hnot'. left.
Qed.

(** C8.  Whatever the cache holds and whatever the clock shows, one run of
    [_clean_expired_cache] returns and leaves a cache in which an entry is
    absent exactly when it was absent before or its age exceeds the
    expiration of 600 seconds; every other entry is kept as it was.  The
    rest of the server is untouched. *)
Theorem sweep_removes_exactly_expired (s : server) :
  cache_held s = false ->
  exists s',
    _clean_expired_cache s = Returns tt s'
    /\ (forall k,
          response_cache s' !! k
          = match response_cache s !! k with
            | Some entry =>
                if decide (expiration < clock s - cached_timestamp entry)
                then None else Some entry
            | None => None
            end)
    /\ command_queue s' = command_queue s
    /\ clients s' = clients s
    /\ wire s' = wire s.
Proof.
  intros Hcache. unfold _clean_expired_cache. run. rewrite Hcache.
  eexists. split; [reflexivity|]. simpl. split; [|repeat split].
  intros k. rewrite lookup_delete_all.
  destruct (response_cache s !! k) as [entry|] eqn:Hk.
  - destruct (decide (expiration < clock s - cached_timestamp entry)) as [Hold|Hyoung].
    + rewrite decide_True; [reflexivity|].
      apply list_elem_of_fmap. exists (k, entry). split; [reflexivity|].
      apply list_elem_of_filter. split; [exact Hold|].
      apply elem_of_map_to_list. exact Hk.
    + rewrite decide_False; [reflexivity|].
      intros Hin. apply list_elem_of_fmap in Hin as ([k' entry'] & -> & Hin).
      apply list_elem_of_filter in Hin as (Hold & Hin).
      apply elem_of_map_to_list in Hin. simpl in *.
      rewrite Hk in Hin. injection Hin as <-. unfold expired in Hold. contradiction.
  - rewrite decide_False; [reflexivity|].
    intros Hin. apply list_elem_of_fmap in Hin as ([k' entry'] & -> & Hin).
    apply list_elem_of_filter in Hin as (_ & Hin).
    apply elem_of_map_to_list in Hin. simpl in *. congruence.
Qed.

(** C7, as amended.  When the configuration file does not exist, the store
    that [_load_auth_tokens] returns holds exactly one token, the freshly
    drawn identifier, with the single permission ["all"]; that token is
    accepted by the membership test.  The token is written to a new file
    when the write succeeds, otherwise no file is left; a server started on
    the written file loads the same token with the same permission. *)
Theorem bootstrap_token (writable : bool) (now : Z) (n : nat) :
  let store := (_load_auth_tokens rt Missing writable now n).1 in
  let file := (_load_auth_tokens rt Missing writable now n).2 in
  store = {[ uuid4 rt n := TokenInfo ["all"] (isoformat rt now) ]}
  /\ size store = 1%nat
  /\ token_known (JString (uuid4 rt n)) store = Some true
  /\ file = (if writable
             then Parsed [("AUTH_TOKENS", [(uuid4 rt n, "all")])]
             else Missing)
  /\ (_load_auth_tokens rt (Parsed [("AUTH_TOKENS", [(uuid4 rt n, "all")])])
                         writable now n).1
     = store.
Proof.
  simpl. split; [|split; [|split; [|split]]].
  - reflexivity.
  - rewrite insert_empty. apply map_size_singleton.
  - unfold token_known. simpl. rewrite bool_decide_true; [reflexivity|].
    rewrite lookup_insert_eq. eauto.
  - reflexivity.
  - reflexivity.
Qed.

End Broker.

(** ** Relations that hold across every call *)

Section Frame.

Import MCPServer.

Context (rt : Runtime).

Variable R : server -> server -> Prop.

Hypothesis HR : framed rt R.

Lemma ensures_ret {A : Type} (a : A) : ensures R (mret a).
Proof. intros s. apply (framed_refl rt R HR). Qed.

Lemma ensures_gets {A : Type} (f : server -> A) : ensures R (gets f).
Proof. intros s. apply (framed_refl rt R HR). Qed.

Lemma ensures_lift {A : Type} (text : string) (o : option A) :
  ensures R (lift text o).
Proof. intros s. destruct o; apply (framed_refl rt R HR). Qed.

Lemma ensures_raise {A : Type} (text : string) : ensures R (raise (A:=A) text).
Proof. intros s. apply (framed_refl rt R HR). Qed.

Lemma ensures_modify (f : server -> server) :
  (forall s, R s (f s)) -> ensures R (modify f).
Proof. intros Hf s. apply Hf. Qed.

Lemma ensures_bind {A B : Type} (m : M A) (f : A -> M B) :
  ensures R m -> (forall a, ensures R (f a)) -> ensures R (m ≫= f).
Proof.
  intros Hm Hf s. specialize (Hm s). unfold mbind, M_bind.
  destruct (m s) as [a s1|text s1|s1]; simpl in *; try exact Hm.
  eapply (framed_trans rt R HR); [exact Hm|apply Hf].
Qed.

Lemma ensures_try {A : Type} (body : M A) (handler : string -> M A) :
  ensures R body -> (forall text, ensures R (handler text)) ->
  ensures R (try_except body handler).
Proof.
  intros Hm Hh s. specialize (Hm s). unfold try_except.
  destruct (body s) as [a s1|text s1|s1]; simpl in *; try exact Hm.
  eapply (framed_trans rt R HR); [exact Hm|apply Hh].
Qed.

Lemma ensures_with_queue_lock {A : Type} (body : M A) :
  ensures R body -> ensures R (with_lock queue_lock body).
Proof.
  intros Hm s. unfold with_lock. simpl.
  destruct (queue_held s); [apply (framed_refl rt R HR)|].
  specialize (Hm (set_queue_held true s)).
  pose proof (framed_queue_lock rt R HR true s) as Hin.
  destruct (body (set_queue_held true s)) as [a s1|text s1|s1]; simpl in *;
    eapply (framed_trans rt R HR); try exact Hin; try exact Hm;
    (eapply (framed_trans rt R HR); [exact Hm|apply (framed_queue_lock rt R HR)]).
Qed.

Lemma ensures_with_cache_lock {A : Type} (body : M A) :
  ensures R body -> ensures R (with_lock cache_lock body).
Proof.
  intros Hm s. unfold with_lock. simpl.
  destruct (cache_held s); [apply (framed_refl rt R HR)|].
  specialize (Hm (set_cache_held true s)).
  pose proof (framed_cache_lock rt R HR true s) as Hin.
  destruct (body (set_cache_held true s)) as [a s1|text s1|s1]; simpl in *;
    eapply (framed_trans rt R HR); try exact Hin; try exact Hm;
    (eapply (framed_trans rt R HR); [exact Hm|apply (framed_cache_lock rt R HR)]).
Qed.

Ltac frame :=
  repeat first
    [ apply ensures_ret | apply ensures_gets | apply ensures_lift
    | apply (framed_sendall rt R HR) | apply (framed_send rt R HR)
    | apply (framed_authenticated rt R HR) | apply (framed_authenticate rt R HR)
    | apply (framed_type rt R HR) | apply (framed_identity rt R HR)
    | apply (framed_accept rt R HR) | apply (framed_touch rt R HR)
    | apply (framed_finally rt R HR)
    | apply ensures_modify;
      first [ apply (framed_queue rt R HR) | apply (framed_cache rt R HR)
            | apply (framed_drawn rt R HR) ]
    | apply ensures_with_queue_lock | apply ensures_with_cache_lock
    | apply ensures_try; [|intros ?]
    | apply ensures_bind; [|intros ?]
    | match goal with
      | |- ensures _ (match ?x with _ => _ end) => destruct x
      end ].

Lemma ensures_process_message (cid : string) (message : received) :
  ensures R (_process_message rt cid message).
Proof. unfold _process_message. destruct message; frame. Qed.

Lemma step_related (e : event) (s : server) : R s (step rt e s).
Proof.
  destruct e as [sk addr|cid message|cid sk|ms|cid]; simpl.
  - apply (framed_accept rt R HR).
  - apply (ensures_bind (touch cid)); [apply (framed_touch rt R HR)|intros _].
    apply ensures_process_message.
  - apply (framed_finally rt R HR).
  - apply (framed_sleep rt R HR). lia.
  - apply (ensures_bind (touch cid)); [apply (framed_touch rt R HR)|intros _].
    apply ensures_raise.
Qed.

Lemma run_events_related (events : list event) (s : server) :
  R s (run_events rt events s).
Proof.
  revert s. induction events as [|e events IH]; intros s; simpl.
  - apply (framed_refl rt R HR).
  - eapply (framed_trans rt R HR); [apply step_related|apply IH].
Qed.

Lemma ensures_poll_cache (item : command_item) : ensures R (poll_cache item).
Proof. unfold poll_cache. frame. Qed.

Lemma ensures_wait_loop (fuel : nat) (start_time : Z) (item : command_item)
    (schedule : list (list event)) :
  ensures R (wait_loop rt fuel start_time item schedule).
Proof.
  revert schedule. induction fuel as [|fuel IH]; intros schedule s; simpl;
    (destruct (bool_decide _); [|apply (framed_refl rt R HR)]);
    pose proof (ensures_poll_cache item s) as Hp;
    destruct (poll_cache item s) as [[|] s1|text s1|s1]; simpl in *;
    try exact Hp.
  eapply (framed_trans rt R HR); [exact Hp|].
  eapply (framed_trans rt R HR); [apply (framed_sleep rt R HR 100); lia|].
  eapply (framed_trans rt R HR); [apply run_events_related|apply IH].
Qed.

Lemma ensures_execute (item : command_item) (schedule : list (list event)) :
  ensures R (_execute_command rt item schedule).
Proof. unfold _execute_command. frame; apply ensures_wait_loop. Qed.

Lemma ensures_dispatch (schedule : list (list event)) :
  ensures R (process_command_queue_step rt schedule).
Proof.
  unfold process_command_queue_step.
  apply ensures_try; [|intros ?].
  - apply ensures_bind; [frame|intros [item|]].
    + apply ensures_bind; [apply ensures_execute|intros ?; apply ensures_ret].
    + apply ensures_bind; [|intros ?; apply ensures_ret].
      apply ensures_modify. intros s. apply (framed_sleep rt R HR). lia.
  - apply ensures_bind; [|intros ?; apply ensures_ret].
    apply ensures_modify. intros s. apply (framed_sleep rt R HR). lia.
Qed.

End Frame.

(** ** Time only moves forward, and a link needs the registry lock *)

Section Runs.

Import MCPServer.

Context (rt : Runtime).

#[local] Arguments wait_loop : simpl never.
#[local] Arguments run_events : simpl never.
#[local] Arguments poll_cache : simpl never.
#[local] Arguments _send_to_client : simpl never.

Ltac leaf :=
  intros s; destruct s; unfold clock_advances, link_guarded;
  repeat (simpl in *;
          match goal with
          | |- context [match ?x with _ => _ end] =>
              lazymatch x with
              | context [match _ with _ => _ end] => fail
              | _ => destruct x eqn:?
              end
          end);
  simpl in *; try lia; try (split; [congruence|auto]).

Ltac leaves :=
  unfold _send_to_client, _is_client_authenticated, _authenticate_client,
    token_known, _get_client_type, process_identity, handle_client_accept,
    touch, handle_client_finally, _send_to_client, sendall, close, sleep;
  run; leaf.

Lemma clock_advances_framed : framed rt clock_advances.
Proof.
  constructor; intros;
    try (unfold clock_advances, sleep in *; simpl; lia);
    unfold ensures; leaves.
Qed.

Lemma link_guarded_transitive (s1 s2 s3 : server) :
  link_guarded s1 s2 -> link_guarded s2 s3 -> link_guarded s1 s3.
Proof.
  intros [H1 L1] [H2 L2]. split; [auto|].
  destruct L2 as [L2|L2]; [|right; exact L2].
  destruct L1 as [L1|L1]; [left; congruence|right; auto].
Qed.

Lemma link_guarded_framed : framed rt link_guarded.
Proof.
  constructor; intros;
    try (eapply link_guarded_transitive; eassumption);
    try (unfold link_guarded, sleep; simpl; auto; fail);
    unfold ensures; leaves.
Qed.

(** The waiting loop is given enough sleeps: each one moves the clock by at
    least 100 ms, so [max_polls] of them exceed the deadline and the loop
    never ends as [Exhausted]. *)
Lemma wait_loop_not_exhausted (fuel : nat) (start_time : Z) (item : command_item)
    (schedule : list (list event)) (s s' : server) :
  max_wait_time - 100 * Z.of_nat fuel <= clock s - start_time ->
  wait_loop rt fuel start_time item schedule s <> Returns Exhausted s'.
Proof.
  revert schedule s. induction fuel as [|fuel IH]; intros schedule s Hfuel.
  - rewrite wait_loop_unfold.
    rewrite bool_decide_false by (simpl in Hfuel; lia). discriminate.
  - rewrite wait_loop_unfold.
    destruct (bool_decide _); [|discriminate].
    pose proof (ensures_poll_cache rt _ clock_advances_framed item s) as Hp.
    destruct (poll_cache item s) as [[|] s1|text s1|s1]; try discriminate.
    apply IH. simpl in Hp. unfold clock_advances in Hp.
    pose proof (run_events_related rt _ clock_advances_framed
                  (hd [] schedule) (sleep 100 s1)) as Hrun.
    unfold clock_advances in Hrun. simpl in Hrun. lia.
Qed.

(** X14.  The waiting loop ends within the sleeps it is given.  Every pass that
    does not end the loop sleeps a tenth of a second, and the other threads
    do not turn the clock back, so the deadline of thirty seconds is reached
    before the three hundred sleeps are spent: the loop ends with a reply
    forwarded, with the timeout, with an exception or at a lock. *)
Lemma wait_loop_terminates (start_time : Z) (item : command_item)
    (schedule : list (list event)) (s s' : server) :
  start_time <= clock s ->
  wait_loop rt max_polls start_time item schedule s <> Returns Exhausted s'.
Proof.
  intros Hstart. apply wait_loop_not_exhausted.
  unfold max_wait_time, max_polls. lia.
Qed.

(** In every state a server goes through, an upstream link is set only
    while the registry lock is held: the one assignment of the link is
    followed, inside the same critical section, by a call that enters the
    lock again. *)
Lemma link_guard_reachable (s : server) :
  reachable rt s -> mt5_connection s <> None -> clients_held s = true.
Proof.
  assert (Hkeep : forall s1 s2,
             link_guarded s1 s2 ->
             (mt5_connection s1 <> None -> clients_held s1 = true) ->
             mt5_connection s2 <> None -> clients_held s2 = true).
  { intros s1 s2 [Hheld [Hlink|Hlock]] Hinv Hset; [|exact Hlock].
    apply Hheld, Hinv. congruence. }
  induction 1 as [enabled file writable now n|e s Hs IH|schedule s Hs IH].
  - simpl. congruence.
  - apply (Hkeep s); [|exact IH]. apply (step_related rt _ link_guarded_framed).
  - apply (Hkeep s); [|exact IH]. apply (ensures_dispatch rt _ link_guarded_framed).
Qed.

Lemma frozen_refl (s : server) : clients_held s = true -> frozen s s.
Proof. intros Hheld. repeat split; try assumption. lia. Qed.

Lemma frozen_trans (s1 s2 s3 : server) :
  frozen s1 s2 -> frozen s2 s3 -> frozen s1 s3.
Proof.
  intros (H1 & W1 & C1 & L1 & M1 & T1) (H2 & W2 & C2 & L2 & M2 & T2).
  repeat split; try congruence. lia.
Qed.

Lemma wedged_step (e : event) (s : server) :
  clients_held s = true -> frozen s (step rt e s).
Proof.
  intros Hheld. destruct e as [sk addr|cid message|cid sk|ms|cid]; simpl;
    unfold handle_client_accept, handle_client_recv, handle_client_undecodable,
      touch, handle_client_finally, sleep, close;
    run; rewrite ?Hheld; simpl; repeat split; try assumption; simpl; lia.
Qed.

Lemma wedged_run_events (events : list event) (s : server) :
  clients_held s = true -> frozen s (run_events rt events s).
Proof.
  revert s. induction events as [|e events IH]; intros s Hheld; simpl.
  - apply frozen_refl. exact Hheld.
  - pose proof (wedged_step e s Hheld) as Hstep.
    eapply frozen_trans; [exact Hstep|]. apply IH. apply Hstep.
Qed.

(** What a poll can do while the registry lock is held for good. *)
Lemma wedged_poll (item : command_item) (s : server) :
  clients_held s = true ->
  match poll_cache item s with
  | Returns found s' => found = false /\ frozen s s' /\ clock s' = clock s
  | Raises _ s' => frozen s s'
  | Blocks s' => wire s' = wire s
  end.
Proof.
  intros Hheld. unfold poll_cache. run.
  destruct (cache_held s) eqn:Hcache; simpl; [reflexivity|].
  destruct (key_of (request_id item)) as [k|]; simpl.
  - destruct (response_cache s !! k) as [entry|]; simpl.
    + rewrite send_blocked by exact Hheld. reflexivity.
    + repeat split; simpl; try assumption; try lia. symmetry. exact Hcache.
  - repeat split; simpl; try assumption; try lia. symmetry. exact Hcache.
Qed.

Lemma wedged_wait (fuel : nat) (start_time : Z) (item : command_item)
    (schedule : list (list event)) (s : server) :
  clients_held s = true ->
  max_wait_time - 100 * Z.of_nat fuel <= clock s - start_time ->
  match wait_loop rt fuel start_time item schedule s with
  | Returns out s' => out = TimedOut /\ clients_held s' = true /\ wire s' = wire s
  | Raises _ s' => clients_held s' = true /\ wire s' = wire s
  | Blocks s' => wire s' = wire s
  end.
Proof.
  revert schedule s. induction fuel as [|fuel IH]; intros schedule s Hheld Hfuel;
    rewrite wait_loop_unfold.
  - rewrite bool_decide_false by (simpl in Hfuel; lia). auto.
  - destruct (bool_decide _); [|auto].
    pose proof (wedged_poll item s Hheld) as Hp.
    destruct (poll_cache item s) as [found s1|text s1|s1].
    + destruct Hp as (-> & Hfrozen & Hclock).
      pose proof (wedged_run_events (hd [] schedule) (sleep 100 s1)) as Hrun.
      destruct Hfrozen as (H1 & W1 & _).
      specialize (Hrun H1). destruct Hrun as (H2 & W2 & _ & _ & _ & T2).
      simpl in W2, T2.
      specialize (IH (tail schedule) _ H2).
      destruct (wait_loop rt fuel start_time item (tail schedule) _)
        as [out s2|text s2|s2].
      * destruct IH as (-> & H3 & W3); [lia|]. repeat split; congruence.
      * destruct IH as (H3 & W3); [lia|]. split; congruence.
      * rewrite IH by lia. congruence.
    + destruct Hp as (H1 & W1 & _). split; assumption.
    + exact Hp.
Qed.

(** Once the registry lock is held for good, the execution of a command
    against a set link never returns: whichever way the write to the
    upstream and the waiting loop end, the reply to the client is a
    [_send_to_client], which waits for the registry lock.  Nothing reaches
    the socket of the client. *)
Lemma wedged_execute_never_returns (s : server) (up : sock) (item : command_item)
    (schedule : list (list event)) :
  clients_held s = true ->
  mt5_connection s = Some up ->
  exists s',
    _execute_command rt item schedule s = Blocks s'
    /\ (wire s' = wire s
        \/ wire s' = wire s ++ [(up, mt5_message rt item (clock s))]).
Proof.
  intros Hheld Hlink. unfold _execute_command. run. rewrite Hlink. simpl.
  unfold sendall. destruct (decide (up ∈ closed s)) as [Hclosed|Hopen]; simpl.
  - rewrite send_blocked by exact Hheld. eexists. split; [reflexivity|]. left. reflexivity.
  - pose proof (wedged_wait max_polls (clock s) item schedule
                  (sent up (mt5_message rt item (clock s)) s) Hheld) as Hw.
    simpl in Hw.
    destruct (wait_loop rt max_polls (clock s) item schedule _)
      as [out s1|text s1|s1].
    + destruct Hw as (-> & H1 & W1); [unfold max_wait_time, max_polls; lia|].
      rewrite send_blocked by exact H1.
      eexists. split; [reflexivity|]. right. exact W1.
    + destruct Hw as (H1 & W1); [unfold max_wait_time, max_polls; lia|].
      rewrite send_blocked by exact H1.
      eexists. split; [reflexivity|]. right. exact W1.
    + eexists. split; [reflexivity|]. right.
      apply Hw. unfold max_wait_time, max_polls. lia.
Qed.

(** X13.  In every state a server goes through, a command that the dispatcher
    executes against a set link never completes: neither a forwarded reply
    nor the timeout error is written, and the dispatcher does not come back
    for the next command. *)
Lemma dispatched_command_never_returns (s : server) (up : sock)
    (item : command_item) (schedule : list (list event)) :
  reachable rt s ->
  mt5_connection s = Some up ->
  exists s',
    _execute_command rt item schedule s = Blocks s'
    /\ (wire s' = wire s
        \/ wire s' = wire s ++ [(up, mt5_message rt item (clock s))]).
Proof.
  intros Hreach Hlink. apply wedged_execute_never_returns; [|exact Hlink].
  apply link_guard_reachable; [exact Hreach|congruence].
Qed.

End Runs.

(** ** The registry lock and the link go together *)

Section Guards.

Import MCPServer.

Context (rt : Runtime).

#[local] Arguments wait_loop : simpl never.
#[local] Arguments run_events : simpl never.
#[local] Arguments poll_cache : simpl never.

Ltac cases :=
  repeat (simpl in *;
          match goal with
          | |- context [match ?x with _ => _ end] =>
              lazymatch x with
              | context [match _ with _ => _ end] => fail
              | _ => destruct x eqn:?
              end
          end);
  simpl in *.

Ltac open_methods :=
  unfold ensures, _send_to_client, _is_client_authenticated,
    _authenticate_client, token_known, _get_client_type, process_identity,
    handle_client_accept, touch, handle_client_finally, sendall, close, sleep;
  run.

Lemma lock_guarded_transitive (s1 s2 s3 : server) :
  lock_guarded s1 s2 -> lock_guarded s2 s3 -> lock_guarded s1 s3.
Proof.
  intros [L1 H1] [L2 H2]. split; [auto|].
  intros Hheld. destruct (H2 Hheld) as [Hbefore|Hlink]; [|right; exact Hlink].
  destruct (H1 Hbefore) as [Hfirst|Hlink]; [left; exact Hfirst|right; auto].
Qed.

Lemma lock_guarded_framed : framed rt lock_guarded.
Proof.
  constructor; intros;
    try (eapply lock_guarded_transitive; eassumption);
    try (unfold lock_guarded, sleep; simpl; auto; fail);
    open_methods; intros s; destruct s; unfold lock_guarded; cases;
    (split; [congruence|intros; first [left; congruence|right; congruence]]).
Qed.

Lemma lock_guard_reachable (s : server) :
  reachable rt s -> clients_held s = true -> mt5_connection s <> None.
Proof.
  assert (Hkeep : forall s1 s2,
             lock_guarded s1 s2 ->
             (clients_held s1 = true -> mt5_connection s1 <> None) ->
             clients_held s2 = true -> mt5_connection s2 <> None).
  { intros s1 s2 [Hlink Hheld] Hinv Hset.
    destruct (Hheld Hset) as [Hbefore|Hnow]; [auto|exact Hnow]. }
  induction 1 as [enabled file writable now n|e s Hs IH|schedule s Hs IH].
  - simpl. discriminate.
  - apply (Hkeep s); [|exact IH]. apply (step_related rt _ lock_guarded_framed).
  - apply (Hkeep s); [|exact IH]. apply (ensures_dispatch rt _ lock_guarded_framed).
Qed.

Lemma type_guarded_refl (s : server) : type_guarded s s.
Proof. split; [auto|]. right. intros cid c' Hc Ht. eauto. Qed.

Lemma type_guarded_transitive (s1 s2 s3 : server) :
  type_guarded s1 s2 -> type_guarded s2 s3 -> type_guarded s1 s3.
Proof.
  intros [H1 T1] [H2 T2]. split; [auto|].
  destruct T2 as [Hheld|T2]; [left; exact Hheld|].
  destruct T1 as [Hheld|T1]; [left; auto|].
  right. intros cid c3 Hc3 Ht3.
  destruct (T2 cid c3 Hc3 Ht3) as (c2 & Hc2 & Ht2). eauto.
Qed.

(** A state that differs from [s] outside the registry and its lock. *)
Lemma type_guarded_same (s s' : server) :
  clients s' = clients s -> clients_held s' = clients_held s -> type_guarded s s'.
Proof.
  intros Hc Hh. split; [congruence|]. right. rewrite Hc. eauto.
Qed.

Ltac same := apply type_guarded_same; reflexivity.

Ltac registry :=
  split; [discriminate|]; right; simpl;
  let k := fresh "k" in
  let c' := fresh "c'" in
  let Hk := fresh "Hk" in
  let Ht := fresh "Ht" in
  let Hne := fresh "Hne" in
  intros k c' Hk Ht;
  match type of Hk with
  | <[?i:=_]> _ !! _ = _ =>
      destruct (decide (i = k)) as [<-|Hne];
      [ rewrite lookup_insert_eq in Hk; injection Hk as <-; simpl in Ht;
        first [discriminate Ht|eauto]
      | rewrite lookup_insert_ne in Hk by exact Hne; eauto ]
  | delete ?i _ !! _ = _ =>
      destruct (decide (i = k)) as [<-|Hne];
      [ rewrite lookup_delete_eq in Hk; discriminate Hk
      | rewrite lookup_delete_ne in Hk by exact Hne; eauto ]
  end.

Lemma type_guarded_framed : framed rt type_guarded.
Proof.
  constructor; intros;
    try apply type_guarded_refl;
    try (eapply type_guarded_transitive; eassumption);
    try same;
    open_methods; intros s; destruct s; cases;
    first [ same | split; [reflexivity|left; reflexivity] | solve [registry] ].
Qed.

(** In every state a server goes through, a connection is registered with
    the upstream type only while the registry lock is held. *)
Lemma type_guard_reachable (s : server) (cid : string) (c : client_info) :
  reachable rt s -> clients s !! cid = Some c -> type c = "mt5_ea" ->
  clients_held s = true.
Proof.
  intros Hreach. revert cid c.
  assert (Hkeep : forall s1 s2,
             type_guarded s1 s2 ->
             (forall cid c, clients s1 !! cid = Some c -> type c = "mt5_ea" ->
                            clients_held s1 = true) ->
             forall cid c, clients s2 !! cid = Some c -> type c = "mt5_ea" ->
                           clients_held s2 = true).
  { intros s1 s2 [Hheld [Hnow|Hold]] Hinv cid c Hc Ht; [exact Hnow|].
    destruct (Hold cid c Hc Ht) as (c1 & Hc1 & Ht1). eauto. }
  induction Hreach as [enabled file writable now n|e s Hs IH|schedule s Hs IH].
  - simpl. intros cid c Hc. rewrite lookup_empty in Hc. discriminate.
  - apply (Hkeep s); [|exact IH]. apply (step_related rt _ type_guarded_framed).
  - apply (Hkeep s); [|exact IH]. apply (ensures_dispatch rt _ type_guarded_framed).
Qed.

End Guards.

(** * The broker after a connection has identified itself *)

Section Wedged.

Import MCPServer.

Context (rt : Runtime).

#[local] Arguments _send_to_client : simpl never.
#[local] Arguments wait_loop : simpl never.
#[local] Arguments run_events : simpl never.
#[local] Arguments _execute_command : simpl never.

(** With the registry lock held, the update of the activity time at the
    head of the read loop waits for the lock: the message is not looked
    at. *)
Lemma wedged_recv (cid : string) (message : received) (s : server) :
  clients_held s = true -> handle_client_recv rt cid message s = Blocks s.
Proof.
  intros Hheld. unfold handle_client_recv, touch. run. rewrite Hheld. reflexivity.
Qed.

(** With the registry lock held, [_process_message] leaves the registry,
    the queue, the cache, the link and what was written as they are. *)
Lemma wedged_process_message (cid : string) (message : received) (s : server) :
  clients_held s = true ->
  let s' := final (_process_message rt cid message s) in
  response_cache s' = response_cache s /\ wire s' = wire s
  /\ clients s' = clients s /\ command_queue s' = command_queue s
  /\ mt5_connection s' = mt5_connection s.
Proof.
  intros Hheld. destruct s; simpl in Hheld; subst.
  destruct message as [| |d];
    unfold _process_message, process_decoded, is_identification,
      process_identity, process_command, _send_to_client,
      _is_client_authenticated, _authenticate_client, _get_client_type;
    run.
  - repeat split.
  - repeat split.
  - repeat (simpl;
            match goal with
            | |- context [match ?x with _ => _ end] =>
                lazymatch x with
                | context [match _ with _ => _ end] => fail
                | _ => destruct x eqn:?
                end
            end); simpl; repeat split.
Qed.

(** With the registry lock held and authentication enabled, the handling
    of an object does not get past the first look at the registry. *)
Lemma wedged_object (cid : string) (fields : list (string * json)) (s : server) :
  clients_held s = true ->
  auth_enabled s = true ->
  _process_message rt cid (Decoded (JObject fields)) s = Blocks s.
Proof.
  intros Hheld Hen. destruct s; simpl in Hheld, Hen; subst.
  unfold _process_message, process_decoded, is_identification,
    process_identity, _is_client_authenticated.
  run.
  destruct (assoc "identity" fields) as [v|]; simpl;
    [destruct (py_eq_str v "MT5_EA"); simpl|];
    try reflexivity;
    destruct (bool_decide (is_Some (assoc "auth" fields))); reflexivity.
Qed.

(** C1, what the code does.  In every state a server goes through, a
    connection that is registered with the upstream type is one whose
    handler is stuck in the identification branch, with the registry lock
    held.  Whatever that connection delivers is not looked at: the
    iteration of the read loop waits for the lock, and the cache, like the
    rest of the state, is as before.  Nor does [_process_message], were it
    run on the message, store or write anything.  The link is set, and any
    command the dispatcher executes never returns; the most that is written
    is the command itself, to the upstream.  So no reply of the upstream
    is stored in the cache, and none is forwarded to a client. *)
Theorem upstream_reply_never_stored (s : server) (cid : string)
    (c : client_info) (message : received) :
  reachable rt s ->
  clients s !! cid = Some c ->
  type c = "mt5_ea" ->
  clients_held s = true
  /\ handle_client_recv rt cid message s = Blocks s
  /\ response_cache (final (_process_message rt cid message s)) = response_cache s
  /\ wire (final (_process_message rt cid message s)) = wire s
  /\ exists up,
      mt5_connection s = Some up
      /\ forall (item : command_item) (schedule : list (list event)),
          exists s',
            _execute_command rt item schedule s = Blocks s'
            /\ (wire s' = wire s
                \/ wire s' = wire s ++ [(up, mt5_message rt item (clock s))]).
Proof.
  intros Hreach Hc Htype.
  pose proof (type_guard_reachable rt s cid c Hreach Hc Htype) as Hheld.
  pose proof (wedged_process_message cid message s Hheld) as (Hcache & Hwire & _).
  split; [exact Hheld|]. split; [apply wedged_recv; exact Hheld|].
  split; [exact Hcache|]. split; [exact Hwire|].
  pose proof (lock_guard_reachable rt s Hreach Hheld) as Hlink.
  destruct (mt5_connection s) as [up|] eqn:Hup; [|congruence].
  exists up. split; [reflexivity|]. intros item schedule.
  apply wedged_execute_never_returns; assumption.
Qed.

(** C3, what the code does.  Once a connection has identified itself as
    the Expert Advisor, which sets the link and leaves the registry lock
    held, the handshake is not carried out any more.  With authentication
    enabled, a registered connection that is not authenticated and sends
    an object carrying ["auth": t], for a token of the store or for any
    other string, gets no reply and stays as it is: neither the iteration
    of the read loop nor [_process_message] returns, and the state does not
    change. *)
Theorem handshake_unanswered_once_linked (s : server) (cid t : string)
    (c : client_info) (fields : list (string * json)) :
  reachable rt s ->
  mt5_connection s <> None ->
  auth_enabled s = true ->
  clients s !! cid = Some c ->
  authenticated c = false ->
  assoc "auth" fields = Some (JString t) ->
  handle_client_recv rt cid (Decoded (JObject fields)) s = Blocks s
  /\ _process_message rt cid (Decoded (JObject fields)) s = Blocks s
  /\ authenticated <$> clients s !! cid = Some false.
Proof.
  intros Hreach Hlink Hen Hc Hflag Hauth.
  pose proof (link_guard_reachable rt s Hreach Hlink) as Hheld.
  split; [apply wedged_recv; exact Hheld|].
  split; [apply wedged_object; assumption|].
  rewrite Hc. simpl. rewrite Hflag. reflexivity.
Qed.

(** C4, what the code does.  Once a connection has identified itself as
    the Expert Advisor, a request of a connection that is not authenticated
    is not turned down any more.  With authentication enabled, an object
    that neither declares the upstream identity nor carries an ["auth"]
    field gets no reply: neither the iteration of the read loop nor
    [_process_message] returns, and nothing is written. *)
Theorem rejection_unanswered_once_linked (s : server) (cid : string)
    (c : client_info) (fields : list (string * json)) :
  reachable rt s ->
  mt5_connection s <> None ->
  auth_enabled s = true ->
  clients s !! cid = Some c ->
  authenticated c = false ->
  identity_marker fields = false ->
  assoc "auth" fields = None ->
  handle_client_recv rt cid (Decoded (JObject fields)) s = Blocks s
  /\ _process_message rt cid (Decoded (JObject fields)) s = Blocks s.
Proof.
  intros Hreach Hlink Hen Hc Hflag Hmarker Hauth.
  pose proof (link_guard_reachable rt s Hreach Hlink) as Hheld.
  split; [apply wedged_recv; exact Hheld|apply wedged_object; assumption].
Qed.

(** C9, what the code does.  A registered connection that is not
    authenticated sends an object that carries an ["auth"] field and does
    not declare the upstream identity, to a server with authentication
    enabled.  Once some connection has identified itself as the Expert
    Advisor, the object gets no reply: the handler does not return.  Before
    that, it gets no reply either when the token is a JSON array or object:
    the lookup in the store raises, the exception is logged, and the call
    returns with nothing written and nothing changed. *)
Theorem auth_attempt_unanswered (s : server) (cid : string) (c : client_info)
    (fields : list (string * json)) (token : json) :
  reachable rt s ->
  auth_enabled s = true ->
  clients s !! cid = Some c ->
  authenticated c = false ->
  identity_marker fields = false ->
  assoc "auth" fields = Some token ->
  (mt5_connection s <> None ->
   handle_client_recv rt cid (Decoded (JObject fields)) s = Blocks s
   /\ _process_message rt cid (Decoded (JObject fields)) s = Blocks s)
  /\ (mt5_connection s = None ->
      key_of token = None ->
      _process_message rt cid (Decoded (JObject fields)) s = Returns tt s).
Proof.
  intros Hreach Hen Hc Hflag Hmarker Hauth. split.
  - intros Hlink.
    pose proof (link_guard_reachable rt s Hreach Hlink) as Hheld.
    split; [apply wedged_recv; exact Hheld|apply wedged_object; assumption].
  - intros Hlink Hkey.
    assert (Hfree : clients_held s = false).
    { destruct (clients_held s) eqn:Hheld; [|reflexivity].
      destruct (lock_guard_reachable rt s Hreach Hheld Hlink). }
    unfold _process_message, process_decoded. run.
    rewrite is_identification_object, Hmarker. run.
    rewrite Hauth. simpl.
    rewrite (authenticated_registered cid c) by assumption.
    rewrite Hflag. simpl.
    unfold _authenticate_client, token_known. run. rewrite Hen, Hkey. reflexivity.
Qed.

End Wedged.

(** * The dispatcher while no link is set *)

Section Unlinked.

Import MCPServer.

Context (rt : Runtime).

#[local] Arguments _send_to_client : simpl never.
#[local] Arguments wait_loop : simpl never.
#[local] Arguments run_events : simpl never.

(** In every state a server goes through, the registry lock is free as
    long as no link is set. *)
Lemma unlinked_registry_free (s : server) :
  reachable rt s -> mt5_connection s = None -> clients_held s = false.
Proof.
  intros Hreach Hlink. destruct (clients_held s) eqn:Hheld; [|reflexivity].
  destruct (lock_guard_reachable rt s Hreach Hheld Hlink).
Qed.

(** C5, as amended.  In every state a server goes through, a command that
    the dispatcher executes while no upstream link is set is turned down at
    once.  The socket registered for the client of the command, when it is
    open, is handed the object with the status ["error"], the ["requestId"]
    of the command and the message ["MetaTrader EA not connected"]; that
    is the only write, the clock has not moved (no sleep, no poll), and the
    link, the queue, the cache and the registry are as before. *)
Theorem absent_upstream_rejects (s : server) (item : command_item)
    (c : client_info) (schedule : list (list event)) :
  reachable rt s ->
  mt5_connection s = None ->
  clients s !! client_id item = Some c ->
  socket c ∉ closed s ->
  exists s',
    _execute_command rt item schedule s = Returns Rejected s'
    /\ wire s'
       = wire s ++ [(socket c,
                     JObject [("status", JString "error");
                              ("requestId", request_id item);
                              ("message", JString "MetaTrader EA not connected")])]
    /\ clock s' = clock s
    /\ mt5_connection s' = None
    /\ command_queue s' = command_queue s
    /\ response_cache s' = response_cache s
    /\ clients s' = clients s.
Proof.
  intros Hreach Hlink Hc Hopen.
  pose proof (unlinked_registry_free s Hreach Hlink) as Hfree.
  rewrite execute_without_link by exact Hlink. run.
  rewrite (send_registered (client_id item) c) by assumption.
  eexists. split; [reflexivity|]. simpl. repeat split. exact Hlink.
Qed.

End Unlinked.

(** ** The theorems at the sample configurations *)

Section BrokerSamples.

Import MCPServer.

#[local] Arguments wait_loop : simpl never.

Ltac by_evaluation :=
  vm_compute;
  first [ reflexivity
        | repeat split; reflexivity
        | eexists; reflexivity
        | let H := fresh in intros H; discriminate H
        | let H := fresh in intros H; inversion H ].

(** [teardown_keeps_link] at [Sample.identified], where socket 2 is the
    upstream link. *)
Lemma teardown_keeps_link_witness :
  mt5_connection (final (handle_client_finally "uuid-1" 2%nat Sample.identified))
  = Some 2%nat
  /\ 2%nat ∈ closed (final (handle_client_finally "uuid-1" 2%nat Sample.identified))
  /\ forall s2,
      _execute_command Sample.runtime Sample.price_item []
        (final (handle_client_finally "uuid-1" 2%nat Sample.identified))
      <> Returns Rejected s2.
Proof.
  apply (teardown_keeps_link Sample.runtime Sample.identified "uuid-1" 2%nat
           Sample.price_item []).
  vm_compute. reflexivity.
Defined.

(** [write_after_teardown_fails] at [Sample.linked]: the client is sent
    ["Error executing command: [Errno 9] Bad file descriptor"]. *)
Lemma write_after_teardown_fails_sample :
  exists s',
    handle_client_finally "uuid-1" 2%nat Sample.linked = Returns tt s'
    /\ clients s' !! "uuid-1" = None
    /\ 2%nat ∈ closed s'
    /\ mt5_connection s' = Some 2%nat
    /\ _execute_command Sample.runtime Sample.price_item [] s'
       = Returns Failed
           (sent 1%nat (exception_reply (JString "r1") EBADF) s').
Proof.
  apply (write_after_teardown_fails Sample.runtime Sample.linked "uuid-1"
           Sample.advisor Sample.trader Sample.price_item []); by_evaluation.
Qed.

(** [sweep_removes_exactly_expired] at [Sample.stocked], 700 seconds after
    the old entry and 50 seconds after the young one. *)
Lemma sweep_removes_exactly_expired_witness :
  exists s',
    _clean_expired_cache Sample.stocked = Returns tt s'
    /\ response_cache s' !! KStr "old" = None
    /\ response_cache s' !! KStr "young"
       = Some (CacheEntry (JObject Sample.price_reply) 650000).
Proof.
  destruct (sweep_removes_exactly_expired Sample.stocked)
    as (s' & Hrun & Hcache & _); [by_evaluation|].
  exists s'. split; [exact Hrun|]. rewrite !Hcache. by_evaluation.
Defined.

(** C7, as stated, fails.  A configuration file that exists but lists no
    token configures no token, and the store loaded from it is empty: no
    token is generated and nothing is written. *)
Lemma existing_file_without_tokens :
  configured_tokens (Parsed []) = []
  /\ _load_auth_tokens Sample.runtime (Parsed []) true 0 0 = (∅, Parsed [])
  /\ configured_tokens (Parsed [("AUTH_TOKENS", [])]) = []
  /\ _load_auth_tokens Sample.runtime (Parsed [("AUTH_TOKENS", [])]) true 0 0
     = (∅, Parsed [("AUTH_TOKENS", [])]).
Proof. repeat split. Qed.

(** The identification branch never returns: [_send_to_client] waits for
    the registry lock that its caller holds.  The link is installed, the
    acknowledgment is not written, and the lock stays held. *)
Lemma identification_blocks :
  exists s',
    _process_message Sample.runtime "uuid-1"
      (Decoded (JObject Sample.identification)) Sample.open_house
    = Blocks s'
    /\ mt5_connection s' = Some 2%nat
    /\ clients_held s' = true
    /\ wire s' = [].
Proof. eexists. split; [vm_compute; reflexivity|]. repeat split. Qed.

(** C6, what the code does.  In [Sample.identified] the client has queued
    the command ["r1"] and the upstream has identified itself.  The
    dispatcher pops the command and writes it to the upstream; no reply is
    cached during the 30 seconds of polling.  The write of the timeout
    error then waits for the registry lock, which the handler of the
    upstream never releases: the call does not return, the client's socket
    has received the acknowledgment and nothing else, and the dispatcher
    cannot take the next command.  A reply that the upstream sends after
    the deadline is not stored either, because the handler that would read
    it is the one that is stuck. *)
Theorem timeout_reply_never_sent :
  exists s',
    process_command_queue_step Sample.runtime [] Sample.identified = Blocks s'
    /\ clock s' = 30000
    /\ clients_held s' = true
    /\ wire s'
       = [(1%nat, queued_reply Sample.runtime (JString "r1") (JString "get_price"));
          (2%nat, mt5_message Sample.runtime Sample.price_item 0)]
    /\ response_cache
         (run_events Sample.runtime
            [Receive "uuid-1" (Decoded (JObject Sample.price_reply))] s')
         !! KStr "r1" = None.
Proof.
  eexists. split; [vm_compute; reflexivity|].
  split; [reflexivity|]. split; [reflexivity|]. split; [reflexivity|].
  vm_compute. reflexivity.
Qed.

End BrokerSamples.

(** * Properties of the client *)

Section Client.

Import MCPClient.

Context (rt : Runtime).

Lemma carries_object (id : string) (fields : list (string * json)) :
  carries id (Decoded (JObject fields)) = true ->
  assoc "requestId" fields = Some (JString id).
Proof.
  simpl. destruct (assoc "requestId" fields) as [[ | | |s| | ]|]; try discriminate.
  intros Heq. apply String.eqb_eq in Heq. congruence.
Qed.

Lemma call_default_keeps (id : string) (response : json) (c c0 : client) :
  awaiting id c0 /\ last_response c0 = last_response c ->
  awaiting id (call_default response c0)
  /\ last_response (call_default response c0) = last_response c.
Proof.
  intros [Hwait Hlast]. unfold call_default.
  destruct (default_callback c0); split; assumption.
Qed.

Lemma other_message_ignored (id : string) (message : received) (c : client) :
  awaiting id c ->
  carries id message = false ->
  awaiting id (_process_response message c)
  /\ last_response (_process_response message c) = last_response c.
Proof.
  intros Hwait Hother.
  assert (Hsame : awaiting id c /\ last_response c = last_response c)
    by (split; [exact Hwait|reflexivity]).
  destruct Hwait as (Hclear & Hreg & Honly).
  destruct message as [| |response]; [exact Hsame|exact Hsame|].
  unfold _process_response.
  destruct (py_get response "requestId" JNull) as [request_id|] eqn:Hget;
    [|exact Hsame].
  destruct (py_truthy request_id); [|apply call_default_keeps; exact Hsame].
  unfold find_callback.
  destruct (key_of request_id) as [[ |z|k]|] eqn:Hkey; simpl;
    try exact Hsame; try (apply call_default_keeps; exact Hsame).
  destruct (callbacks c !! k) as [cb|] eqn:Hcb; simpl;
    [|apply call_default_keeps; exact Hsame].
  apply call_default_keeps.
  destruct cb as [|name].
  - exfalso. rewrite (Honly k Hcb) in *.
    destruct response as [ | | | | |fields]; try discriminate.
    simpl in Hget, Hother. injection Hget as <-.
    destruct (assoc "requestId" fields) as [[ |b|z|u| | ]|];
      simpl in Hkey; try discriminate.
    injection Hkey as ->. rewrite String.eqb_refl in Hother. discriminate.
  - rewrite decide_True by discriminate. simpl.
    assert (Hne : k <> id) by (intros ->; congruence).
    repeat split; simpl; try assumption.
    + rewrite lookup_delete_ne by exact Hne. exact Hreg.
    + intros k' Hk'. apply Honly.
      destruct (decide (k = k')) as [->|Hkk].
      * rewrite lookup_delete_eq in Hk'. discriminate.
      * rewrite lookup_delete_ne in Hk' by exact Hkk. exact Hk'.
Qed.

Lemma matching_message_signals (id : string) (fields : list (string * json))
    (c : client) :
  id <> "" ->
  awaiting id c ->
  carries id (Decoded (JObject fields)) = true ->
  response_event (_process_response (Decoded (JObject fields)) c) = true
  /\ last_response (_process_response (Decoded (JObject fields)) c)
     = Some (JObject fields).
Proof.
  intros Hne (Hclear & Hreg & Honly) Hcarries.
  apply carries_object in Hcarries.
  unfold _process_response, find_callback. simpl. rewrite Hcarries. simpl.
  assert (Htruthy : negb (String.eqb id "") = true).
  { apply negb_true_iff, String.eqb_neq. exact Hne. }
  rewrite Htruthy. simpl. rewrite Hreg. simpl.
  unfold call_default. simpl.
  destruct (default_callback c); split; reflexivity.
Qed.

Lemma wait_signalled (arrivals : list received) (c : client) :
  response_event c = true -> wait arrivals c = (c, true).
Proof. intros Hset. destruct arrivals; simpl; rewrite Hset; reflexivity. Qed.

Lemma wait_returns_first_matching (id : string) (before after : list received)
    (fields : list (string * json)) (c : client) :
  id <> "" ->
  awaiting id c ->
  Forall (fun message => carries id message = false) before ->
  carries id (Decoded (JObject fields)) = true ->
  exists c',
    wait (before ++ Decoded (JObject fields) :: after) c = (c', true)
    /\ last_response c' = Some (JObject fields).
Proof.
  intros Hne Hwait Hbefore Hcarries. revert c Hwait.
  induction Hbefore as [|message before Hother _ IH]; intros c Hwait.
  - destruct (matching_message_signals id fields c Hne Hwait Hcarries)
      as [Hset Hlast].
    exists (_process_response (Decoded (JObject fields)) c).
    split; [|exact Hlast].
    simpl. destruct Hwait as (Hclear & _). rewrite Hclear.
    apply wait_signalled. exact Hset.
  - destruct (other_message_ignored id message c Hwait Hother) as [Hwait' _].
    destruct (IH _ Hwait') as (c' & Hrun & Hlast).
    exists c'. split; [|exact Hlast].
    simpl. destruct Hwait as (Hclear & _). rewrite Hclear. exact Hrun.
Qed.

(** A message that carries an identifier registered with the synchronous
    callback sets the event and becomes the last response. *)
Lemma registered_message_signals (k : string) (fields : list (string * json))
    (c : client) :
  k <> "" ->
  callbacks c !! k = Some sync ->
  carries k (Decoded (JObject fields)) = true ->
  response_event (_process_response (Decoded (JObject fields)) c) = true
  /\ last_response (_process_response (Decoded (JObject fields)) c)
     = Some (JObject fields).
Proof.
  intros Hne Hreg Hcarries. apply carries_object in Hcarries.
  unfold _process_response, find_callback. simpl. rewrite Hcarries. simpl.
  assert (Htruthy : negb (String.eqb k "") = true).
  { apply negb_true_iff, String.eqb_neq. exact Hne. }
  rewrite Htruthy. simpl. rewrite Hreg. simpl.
  unfold call_default. simpl.
  destruct (default_callback c); split; reflexivity.
Qed.

(** C10, what the code does.  [_process_response] never removes a
    registration of the synchronous callback, and the path of an answered
    call does not remove it either, so the identifier of an answered call
    stays registered ([answered_call_stays_registered]).  A synchronous
    [send_command] made while such an identifier [stale] is registered,
    during which a message carrying [stale] is the first to arrive, returns
    that message: one whose ["requestId"] is not the identifier the call
    generated, whatever arrives after it. *)
Theorem leftover_registration_answers (c : client) (command : string)
    (parameters : option json) (stale : string)
    (fields : list (string * json)) (after : list received) :
  connected c = true ->
  token_set c && negb (authenticated c) = false ->
  send_error c = None ->
  callbacks c !! stale = Some sync ->
  stale <> "" ->
  stale <> uuid4 rt (drawn c) ->
  carries stale (Decoded (JObject fields)) = true ->
  (send_command rt command parameters None
                (Decoded (JObject fields) :: after) c).2
  = JObject fields
  /\ carries (uuid4 rt (drawn c)) (Decoded (JObject fields)) = false.
Proof.
  intros Hconn Hauth Hsend Hreg Hne Hfresh Hcarries.
  split.
  - unfold send_command. rewrite Hconn, Hauth. cbn [negb].
    unfold sendall. cbn [send_error set_callbacks set_last_response
                          set_response_event set_drawn].
    rewrite Hsend.
    match goal with
    | |- context [wait _ ?c0] =>
        destruct (registered_message_signals stale fields c0 Hne) as [Hset Hlast];
          [cbn; rewrite lookup_insert_ne by congruence; exact Hreg
          |exact Hcarries|];
        change (wait (Decoded (JObject fields) :: after) c0)
          with (wait after (_process_response (Decoded (JObject fields)) c0))
    end.
    rewrite wait_signalled by exact Hset. rewrite Hlast.
    apply carries_object in Hcarries.
    destruct fields; [discriminate|]. reflexivity.
  - apply carries_object in Hcarries. simpl. rewrite Hcarries.
    apply String.eqb_neq. exact Hfresh.
Qed.

End Client.

Section ClientSamples.

Import MCPClient.

End ClientSamples.

(** * Further properties of the broker *)

Section BrokerEdges.

Import MCPServer.

Context (rt : Runtime).

#[local] Arguments _send_to_client : simpl never.
#[local] Arguments _is_client_authenticated : simpl never.
#[local] Arguments _authenticate_client : simpl never.
#[local] Arguments _get_client_type : simpl never.
#[local] Arguments is_identification : simpl never.
#[local] Arguments process_identity : simpl never.
#[local] Arguments process_command : simpl never.
#[local] Arguments process_decoded : simpl never.
#[local] Arguments poll_cache : simpl never.
#[local] Arguments sendall : simpl never.
#[local] Arguments wait_loop : simpl never.
#[local] Arguments run_events : simpl never.
#[local] Arguments _execute_command : simpl never.

Lemma touch_registered (cid : string) (c : client_info) (s : server) :
  clients_held s = false ->
  clients s !! cid = Some c ->
  touch cid s
  = Returns tt (set_clients (insert cid (with_last_activity (clock s) c)) s).
Proof.
  intros Hfree Hc. unfold touch. run. rewrite Hfree. simpl. rewrite Hc. simpl.
  destruct s; simpl in *; subst. reflexivity.
Qed.

(** X1.  What the read loop does with input it cannot read, for a registered
    connection with an open socket while the registry lock is free.  The
    activity time is refreshed in each case.  A text that [json.loads]
    rejects with [JSONDecodeError] is answered with the status ["error"]
    and the message ["Invalid JSON format"], and nothing else changes.  A
    text on which [json.loads] raises another exception is only logged:
    nothing is written.  Bytes that are not UTF-8 raise in the loop itself,
    which breaks: nothing is written, and the [finally] block that follows
    closes the socket and removes the connection. *)
Theorem malformed_message_answered (s : server) (cid : string) (c : client_info) :
  clients_held s = false ->
  clients s !! cid = Some c ->
  socket c ∉ closed s ->
  let touched :=
    set_clients (insert cid (with_last_activity (clock s) c)) s in
  handle_client_recv rt cid Malformed s
  = Returns tt
      (set_wire
         (fun w => w ++ [(socket c,
                          JObject [("status", JString "error");
                                   ("message", JString "Invalid JSON format")])])
         touched)
  /\ handle_client_recv rt cid Unparsed s = Returns tt touched
  /\ handle_client_undecodable cid s = Raises EILSEQ touched
  /\ wire touched = wire s
  /\ exists s2,
      handle_client_finally cid (socket c) touched = Returns tt s2
      /\ clients s2 = delete cid (clients s)
      /\ socket c ∈ closed s2
      /\ wire s2 = wire s.
Proof.
  intros Hfree Hc Hopen touched.
  assert (Htouch : touch cid s = Returns tt touched).
  { apply (touch_registered cid c); assumption. }
  split; [|split; [|split; [|split; [reflexivity|]]]].
  - unfold handle_client_recv. run. rewrite Htouch.
    unfold _process_message. run.
    rewrite (send_registered cid (with_last_activity (clock s) c)); simpl;
      [|assumption|apply lookup_insert_eq|assumption].
    reflexivity.
  - unfold handle_client_recv. run. rewrite Htouch. reflexivity.
  - unfold handle_client_undecodable. run. rewrite Htouch. reflexivity.
  - exists (set_clients (delete cid) (close (socket c) touched)).
    split; [apply finally_unlocked; exact Hfree|].
    split; [simpl; apply delete_insert_eq|].
    split; [|reflexivity].
    simpl. apply elem_of_union. left. apply elem_of_singleton. reflexivity.
Qed.

(** X2.  A message that decodes to [null], a boolean or a number makes the
    membership test ['identity' in data] raise; a list that contains the
    string ["identity"] makes [data['identity']] raise.  The exception is
    logged and the sender gets no reply at all: the state is unchanged. *)
Theorem scalar_message_unanswered (s : server) (cid : string) (b : bool) (z : Z)
    (before after : list json) :
  _process_message rt cid (Decoded JNull) s = Returns tt s
  /\ _process_message rt cid (Decoded (JBool b)) s = Returns tt s
  /\ _process_message rt cid (Decoded (JInt z)) s = Returns tt s
  /\ _process_message rt cid
       (Decoded (JArray (before ++ JString "identity" :: after))) s
     = Returns tt s.
Proof.
  repeat split; unfold _process_message, process_decoded, is_identification;
    run; try reflexivity.
  rewrite existsb_app. simpl. rewrite orb_true_r. reflexivity.
Qed.

(** X3.  The identification branch, in general.  Whether or not authentication
    is enabled and whatever the connection is, a registered connection that
    sends an object with ["identity": "MT5_EA"] becomes the upstream link
    and its handler never returns from the call: the acknowledgment is not
    written and the registry lock stays held. *)
Theorem identification_deadlocks (s : server) (cid : string) (c : client_info)
    (fields : list (string * json)) :
  clients_held s = false ->
  clients s !! cid = Some c ->
  identity_marker fields = true ->
  _process_message rt cid (Decoded (JObject fields)) s
  = Blocks (set_clients_held true
              (set_mt5_connection (Some (socket c))
                 (set_clients (insert cid (with_type "mt5_ea" c)) s))).
Proof.
  intros Hfree Hc Hmarker.
  unfold _process_message, process_decoded. run.
  rewrite is_identification_object, Hmarker. simpl.
  unfold process_identity. run. rewrite Hfree, Hc. simpl.
  destruct s; reflexivity.
Qed.

Lemma standstill_refl (s : server) : clients_held s = true -> standstill s s.
Proof. intros Hheld. repeat split; assumption. Qed.

Lemma standstill_trans (s1 s2 s3 : server) :
  standstill s1 s2 -> standstill s2 s3 -> standstill s1 s3.
Proof.
  intros (H1 & L1 & C1 & Q1 & R1 & W1) (H2 & L2 & C2 & Q2 & R2 & W2).
  repeat split; congruence.
Qed.

Lemma standstill_step (e : event) (s : server) :
  clients_held s = true -> standstill s (step rt e s).
Proof.
  intros Hheld. destruct e as [sk addr|cid message|cid sk|ms|cid]; simpl;
    unfold handle_client_accept, handle_client_recv, handle_client_undecodable,
      touch, handle_client_finally, sleep, close;
    run; rewrite ?Hheld; simpl; repeat split; assumption.
Qed.

(** X4.  Once the registry lock is held for good, the handler threads are at a
    standstill: whatever connects, sends or hangs up afterwards, no
    connection is registered or removed, no command is queued, no reply is
    cached, nothing is written to any socket, and the link stays with the
    connection that identified first. *)
Theorem standstill_after_identification (events : list event) (s : server) :
  clients_held s = true -> standstill s (run_events rt events s).
Proof.
  revert s. induction events as [|e events IH]; intros s Hheld.
  - apply standstill_refl. exact Hheld.
  - pose proof (standstill_step e s Hheld) as Hstep.
    eapply standstill_trans; [exact Hstep|]. apply IH. apply Hstep.
Qed.

End BrokerEdges.

Section BrokerQueue.

Import MCPServer.

Context (rt : Runtime).

#[local] Arguments _send_to_client : simpl never.
#[local] Arguments _is_client_authenticated : simpl never.
#[local] Arguments _get_client_type : simpl never.
#[local] Arguments is_identification : simpl never.
#[local] Arguments process_command : simpl never.
#[local] Arguments process_decoded : simpl never.
#[local] Arguments sendall : simpl never.
#[local] Arguments wait_loop : simpl never.
#[local] Arguments run_events : simpl never.
#[local] Arguments _execute_command : simpl never.

(** X5.  The dispatcher serves the queue from its head.  With no upstream link,
    one iteration of its loop removes the oldest command, leaves the others
    in their order, sends the rejection to the client of that command and
    is ready for the next iteration without having slept. *)
Theorem dispatcher_takes_oldest (s : server) (item : command_item)
    (rest : list command_item) (c : client_info) (schedule : list (list event)) :
  unlocked s ->
  mt5_connection s = None ->
  command_queue s = item :: rest ->
  clients s !! client_id item = Some c ->
  socket c ∉ closed s ->
  exists s',
    process_command_queue_step rt schedule s = Returns (Some Rejected) s'
    /\ command_queue s' = rest
    /\ wire s' = wire s ++ [(socket c, not_connected_reply (request_id item))]
    /\ clock s' = clock s.
Proof.
  intros (Hfree & Hq & _) Hlink Hqueue Hc Hopen.
  unfold process_command_queue_step. run. rewrite Hq, Hqueue. simpl.
  rewrite execute_without_link by exact Hlink. run.
  rewrite (send_registered (client_id item) c); simpl; try assumption.
  eexists. split; [reflexivity|]. simpl. rewrite Hqueue. repeat split.
Qed.

(** X6.  A client that disconnects does not take its queued commands with it.
    The [finally] block of its handler leaves the queue as it is, and when
    the dispatcher executes one of these commands without an upstream link
    the rejection is addressed to a connection that is no longer
    registered: nothing is written and the reply is lost. *)
Theorem departed_client_reply_dropped (s : server) (item : command_item)
    (c : client_info) (schedule : list (list event)) :
  clients_held s = false ->
  mt5_connection s = None ->
  clients s !! client_id item = Some c ->
  exists s1,
    handle_client_finally (client_id item) (socket c) s = Returns tt s1
    /\ command_queue s1 = command_queue s
    /\ _execute_command rt item schedule s1 = Returns Rejected s1.
Proof.
  intros Hfree Hlink Hc.
  exists (set_clients (delete (client_id item)) (close (socket c) s)).
  split; [apply finally_unlocked; exact Hfree|]. split; [reflexivity|].
  rewrite execute_without_link by exact Hlink. run.
  rewrite send_unregistered; simpl;
    [reflexivity|exact Hfree|apply lookup_delete_eq].
Qed.

(** X7.  [stop] on a server whose registry lock is free: every socket that was
    registered and the socket of the upstream link are closed, the registry
    is empty and the link is reset.  The commands that were queued and the
    replies that were cached are still there. *)
Theorem stop_closes_everything (s : server) :
  clients_held s = false ->
  exists s',
    stop s = Returns tt s'
    /\ clients s' = ∅
    /\ mt5_connection s' = None
    /\ (forall cid c, clients s !! cid = Some c -> socket c ∈ closed s')
    /\ (forall up, mt5_connection s = Some up -> up ∈ closed s')
    /\ command_queue s' = command_queue s
    /\ response_cache s' = response_cache s.
Proof.
  intros Hfree.
  assert (Hregistered : forall cid c (others : gset sock),
             clients s !! cid = Some c ->
             socket c ∈ list_to_set (socket <$> (map_to_list (clients s)).*2) ∪ others).
  { intros cid c others Hc. apply elem_of_union. left.
    apply elem_of_list_to_set, list_elem_of_fmap. exists c. split; [reflexivity|].
    apply list_elem_of_fmap. exists (cid, c). split; [reflexivity|].
    apply elem_of_map_to_list. exact Hc. }
  unfold stop. run. rewrite Hfree. simpl.
  destruct (mt5_connection s) as [up|] eqn:Hlink; simpl;
    (eexists; split; [reflexivity|]); simpl; repeat split; try assumption.
  - intros cid c Hc. apply elem_of_union. right. apply (Hregistered cid c). exact Hc.
  - intros up' [= <-]. apply elem_of_union. left. apply elem_of_singleton. reflexivity.
  - intros cid c Hc. apply (Hregistered cid c). exact Hc.
  - intros up' [=].
Qed.

(** X8.  A connection that passes the authentication check is not asked for its
    token again: an ["auth"] field in front of a request, valid or not, makes
    no difference to what the broker does with the request. *)
Theorem token_ignored_once_admitted (s : server) (cid : string) (c : client_info)
    (fields : list (string * json)) (token : json) :
  unlocked s ->
  clients s !! cid = Some c ->
  String.eqb (type c) "mt5_ea" = false ->
  admitted c s = true ->
  socket c ∉ closed s ->
  identity_marker fields = false ->
  _process_message rt cid (Decoded (JObject (("auth", token) :: fields))) s
  = _process_message rt cid (Decoded (JObject fields)) s.
Proof.
  intros Hun Hc Htype Hadm Hopen Hmarker.
  pose proof Hun as (Hfree & _ & _).
  unfold _process_message. run.
  rewrite !(admitted_reaches_command rt s cid c) by assumption.
  change (assoc "command" (("auth", token) :: fields)) with (assoc "command" fields).
  destruct (assoc "command" fields) as [cmd|] eqn:Hcmd; simpl; [|reflexivity].
  rewrite (request_queued rt s cid c (("auth", token) :: fields) cmd)
    by assumption.
  rewrite (request_queued rt s cid c fields cmd) by assumption.
  reflexivity.
Qed.

End BrokerQueue.

(** * What the broker's methods never do *)

Section BrokerTotals.

Import MCPServer.

Context (rt : Runtime).

#[local] Arguments _send_to_client : simpl never.
#[local] Arguments process_decoded : simpl never.
#[local] Arguments sendall : simpl never.
#[local] Arguments wait_loop : simpl never.
#[local] Arguments run_events : simpl never.
#[local] Arguments _execute_command : simpl never.

Lemma send_does_not_raise (cid : string) (m : json) (s : server)
    (text : string) (s' : server) :
  _send_to_client cid m s <> Raises text s'.
Proof.
  destruct (clients_held s) eqn:Hheld.
  - rewrite send_blocked by exact Hheld. discriminate.
  - destruct (clients s !! cid) as [c|] eqn:Hc.
    + destruct (decide (socket c ∈ closed s)) as [Hclosed|Hopen].
      * rewrite (send_closed cid c) by assumption. discriminate.
      * rewrite (send_registered cid c) by assumption. discriminate.
    + rewrite send_unregistered by assumption. discriminate.
Qed.

(** X9.  [_send_to_client] does not raise.  It returns [True] after exactly one
    write, to the socket registered for the client; it returns [False],
    leaving everything as it was, for a client that is not registered or
    whose socket was closed; and it does not return when the registry lock
    is held. *)
Theorem send_to_client_outcomes (cid : string) (m : json) (s : server) :
  match _send_to_client cid m s with
  | Returns true s' =>
      clients_held s = false
      /\ exists c, clients s !! cid = Some c /\ (socket c ∉ closed s)
                   /\ s' = sent (socket c) m s
  | Returns false s' =>
      s' = s /\ clients_held s = false
      /\ (clients s !! cid = None
          \/ exists c, clients s !! cid = Some c /\ socket c ∈ closed s)
  | Raises _ _ => False
  | Blocks s' => s' = s /\ clients_held s = true
  end.
Proof.
  destruct (clients_held s) eqn:Hheld.
  - rewrite send_blocked by exact Hheld. split; reflexivity.
  - destruct (clients s !! cid) as [c|] eqn:Hc.
    + destruct (decide (socket c ∈ closed s)) as [Hclosed|Hopen].
      * rewrite (send_closed cid c) by assumption.
        split; [reflexivity|]. split; [reflexivity|]. right. eauto.
      * rewrite (send_registered cid c) by assumption.
        split; [reflexivity|]. eauto.
    + rewrite send_unregistered by assumption.
      split; [reflexivity|]. split; [reflexivity|]. left. reflexivity.
Qed.

Ltac quiet :=
  repeat match goal with
         | |- context [MCPServer._send_to_client ?c ?m ?s] =>
             let H := fresh "Hsend" in
             destruct (MCPServer._send_to_client c m s) eqn:H; simpl;
               try discriminate;
               try (destruct (send_does_not_raise _ _ _ _ _ H))
         end.

(** X10.  No exception escapes the handler of a message or an iteration of the
    dispatcher: whatever a connection sends, in whatever state,
    [_process_message] does not raise, and neither do [_execute_command]
    and the body of the loop of [_process_command_queue]. *)
Theorem no_exception_escapes (cid : string) (message : received)
    (item : command_item) (schedule : list (list event)) (s : server)
    (text : string) (s' : server) :
  _process_message rt cid message s <> Raises text s'
  /\ _execute_command rt item schedule s <> Raises text s'
  /\ process_command_queue_step rt schedule s <> Raises text s'.
Proof.
  assert (Hexec : forall s0 t0 s1, _execute_command rt item schedule s0 <> Raises t0 s1).
  { intros s0 t0 s1. unfold _execute_command. run.
    destruct (mt5_connection s0) as [up|]; [|quiet].
    destruct (sendall up (mt5_message rt item (clock s0)) s0) as [[] s2|t2 s2|s2];
      simpl; try discriminate; [|quiet].
    destruct (wait_loop rt max_polls (clock s2) item schedule s2)
      as [[| | | |] s3|t3 s3|s3]; simpl; try discriminate; quiet. }
  split; [|split; [apply Hexec|]].
  - destruct message as [| |d]; unfold _process_message; run;
      [quiet|discriminate|].
    destruct (process_decoded rt cid d s); discriminate.
  - unfold process_command_queue_step. run.
    destruct (queue_held s); [discriminate|].
    destruct (command_queue s) as [|first rest]; simpl; [discriminate|].
    match goal with
    | |- context [_execute_command rt first schedule ?s0] =>
        destruct (_execute_command rt first schedule s0) as [out s2|t2 s2|s2]
    end; simpl; discriminate.
Qed.

(** X11.  The idle check.  A connection is dropped by the check that follows a
    read timeout exactly when more than 120 seconds have passed since its
    last message: [d] milliseconds after a message was received the check
    asks for the [break] if and only if [120000 < d], and it changes
    nothing.  For a connection that is no longer registered it never asks
    for it. *)
Theorem idle_check_threshold (s : server) (cid : string) (c : client_info) (d : Z) :
  clients_held s = false ->
  clients s !! cid = Some c ->
  exists s1,
    touch cid s = Returns tt s1
    /\ handle_client_idle cid (sleep d s1)
       = Returns (bool_decide (120000 < d)) (sleep d s1)
    /\ handle_client_idle cid (set_clients (delete cid) (sleep d s1))
       = Returns false (set_clients (delete cid) (sleep d s1)).
Proof.
  intros Hfree Hc.
  exists (set_clients (insert cid (with_last_activity (clock s) c)) s).
  destruct s; simpl in *; subst. split; [|split].
  - unfold touch. run. rewrite Hc. reflexivity.
  - unfold handle_client_idle. run. rewrite lookup_insert_eq. simpl.
    match goal with
    | |- context [bool_decide (120000 < ?t + d - ?t)] =>
        replace (t + d - t) with d by lia
    end.
    reflexivity.
  - unfold handle_client_idle. run. rewrite lookup_delete_eq. reflexivity.
Qed.

End BrokerTotals.

(** * The broker once the upstream link is set *)

Section BrokerLink.

Import MCPServer.

Context (rt : Runtime).

#[local] Arguments _send_to_client : simpl never.

Lemma reachable_run_events (events : list event) (s : server) :
  reachable rt s -> reachable rt (run_events rt events s).
Proof.
  revert s. induction events as [|e events IH]; intros s Hs; [exact Hs|].
  apply IH. apply reachable_step. exact Hs.
Qed.

(** X12.  Once a connection has identified itself as the Expert Advisor, the
    broker cannot write to any client and cannot be stopped.  In every
    state a server goes through in which the upstream link is set, the
    registry lock is held: [_send_to_client] waits for it whoever the
    message is for, and so does [stop]. *)
Theorem link_needs_registry_lock (s : server) :
  reachable rt s ->
  mt5_connection s <> None ->
  clients_held s = true
  /\ (forall cid m, _send_to_client cid m s = Blocks s)
  /\ stop s = Blocks s.
Proof.
  intros Hreach Hlink.
  pose proof (link_guard_reachable rt s Hreach Hlink) as Hheld.
  split; [exact Hheld|]. split.
  - intros cid m. apply send_blocked. exact Hheld.
  - unfold stop. run. rewrite Hheld. reflexivity.
Qed.

End BrokerLink.

(** * The token store *)

Section Tokens.

Import MCPServer.

Context (rt : Runtime).

Lemma append_assoc (a b c : string) : (a +:+ b) +:+ c = a +:+ (b +:+ c).
Proof.
  induction a as [|x a IH]; [reflexivity|].
  change (String x ((a +:+ b) +:+ c) = String x (a +:+ (b +:+ c))).
  rewrite IH. reflexivity.
Qed.

Lemma append_empty (a : string) : a +:+ "" = a.
Proof.
  induction a as [|x a IH]; [reflexivity|].
  change (String x (a +:+ "") = String x a). rewrite IH. reflexivity.
Qed.

Lemma split_comma_aux_cons (current text : string) :
  exists part parts, split_comma_aux current text = part :: parts.
Proof.
  revert current. induction text as [|ch text IH]; intros current; simpl.
  - eauto.
  - destruct (Ascii.eqb ch ","%char); [eauto|apply IH].
Qed.

Lemma join_split_aux (current text : string) :
  join_comma (split_comma_aux current text) = current +:+ text.
Proof.
  revert current. induction text as [|ch text IH]; intros current; simpl.
  - symmetry. apply append_empty.
  - destruct (Ascii.eqb ch ","%char) eqn:Hch.
    + apply Ascii.eqb_eq in Hch. subst ch.
      destruct (split_comma_aux_cons "" text) as (part & parts & Hsplit).
      specialize (IH ""). rewrite Hsplit in *.
      change (join_comma (current :: part :: parts))
        with (current +:+ "," +:+ join_comma (part :: parts)).
      rewrite IH. reflexivity.
    + rewrite IH. rewrite append_assoc. reflexivity.
Qed.

(** X15.  [split(',')] loses nothing: joining the parts with commas gives the
    text back, so no part is trimmed and no empty part is dropped; and the
    result is never the empty list. *)
Theorem split_comma_join (text : string) :
  join_comma (split_comma text) = text /\ split_comma text <> [].
Proof.
  split.
  - apply (join_split_aux "" text).
  - destruct (split_comma_aux_cons "" text) as (part & parts & Hsplit).
    unfold split_comma. rewrite Hsplit. discriminate.
Qed.

Lemma loaded_lookup (created : string) (options : list (string * string))
    (tokens : gmap string token_info) (t : string) :
  NoDup options.*1 ->
  foldl (fun acc '(token, perms) =>
           <[token := TokenInfo (split_comma perms) created]> acc)
        tokens options !! t
  = match list_find (fun kv => kv.1 = t) options with
    | Some (_, (_, perms)) => Some (TokenInfo (split_comma perms) created)
    | None => tokens !! t
    end.
Proof.
  revert tokens. induction options as [|[token perms] options IH];
    intros tokens Hnodup; [reflexivity|].
  apply NoDup_cons in Hnodup as [Hfresh Hnodup].
  simpl. rewrite IH by exact Hnodup.
  destruct (decide (token = t)) as [->|Hne]; simpl.
  - destruct (list_find (fun kv => kv.1 = t) options) as [[i [k v]]|] eqn:Hfind.
    + exfalso. apply list_find_Some in Hfind as (Hin & Heq & _). simpl in Heq. subst k.
      apply Hfresh. apply list_elem_of_fmap. exists (t, v). split; [reflexivity|].
      apply list_elem_of_lookup. eauto.
    + simpl. apply lookup_insert_eq.
  - destruct (list_find (fun kv => kv.1 = t) options) as [[i [k v]]|]; simpl;
      [reflexivity|]. apply lookup_insert_ne. exact Hne.
Qed.

(** X16.  What [_load_auth_tokens] loads from a file with an [AUTH_TOKENS]
    section.  [options] are the options the enumeration of the section
    yields: all of them, or, when the enumeration raises part-way, the ones
    in front of the option that raises.  With distinct names, every one of
    them is in the store with the parts of its value between commas as
    permissions, and a string that is not among them is not accepted: a
    token listed behind the option that raises is not loaded.  The file is
    left as it was. *)
Theorem listed_tokens_loaded (file : config_file)
    (sections : list (string * list (string * string)))
    (options : list (string * string)) (writable : bool) (now : Z) (n : nat) :
  (file = Parsed sections /\ section "AUTH_TOKENS" sections = Some options)
  \/ file = Interrupted options ->
  NoDup options.*1 ->
  let store := (_load_auth_tokens rt file writable now n).1 in
  (forall token perms,
      (token, perms) ∈ options ->
      store !! token = Some (TokenInfo (split_comma perms) (isoformat rt now))
      /\ token_known (JString token) store = Some true)
  /\ (forall t, t ∉ options.*1 -> token_known (JString t) store = Some false)
  /\ (_load_auth_tokens rt file writable now n).2 = file.
Proof.
  intros Hfile Hnodup.
  assert (Hstore : (_load_auth_tokens rt file writable now n).1
                   = foldl (fun acc '(token, perms) =>
                              <[token := TokenInfo (split_comma perms) (isoformat rt now)]> acc)
                           (∅ : gmap string token_info) options
                   /\ (_load_auth_tokens rt file writable now n).2 = file).
  { destruct Hfile as [[-> Hsection]| ->]; simpl; [rewrite Hsection|];
      split; reflexivity. }
  destruct Hstore as [Hstore Hkept]. simpl. rewrite Hstore.
  split; [|split; [|exact Hkept]].
  - intros token perms Hin.
    assert (Hlookup : foldl (fun acc '(token0, perms0) =>
                               <[token0 := TokenInfo (split_comma perms0) (isoformat rt now)]> acc)
                            (∅ : gmap string token_info) options !! token
                      = Some (TokenInfo (split_comma perms) (isoformat rt now))).
    { rewrite loaded_lookup by exact Hnodup.
      destruct (list_find (fun kv => kv.1 = token) options) as [[i [k v]]|] eqn:Hfind.
      - apply list_find_Some in Hfind as (Hi & Heq & _). simpl in Heq. subst k.
        apply list_elem_of_lookup in Hin as [j Hj].
        assert (i = j) as ->.
        { eapply NoDup_lookup; [exact Hnodup| |];
            rewrite list_lookup_fmap; [rewrite Hi|rewrite Hj]; reflexivity. }
        rewrite Hi in Hj. injection Hj as ->. reflexivity.
      - exfalso. apply list_find_None in Hfind.
        rewrite Forall_forall in Hfind. apply (Hfind (token, perms)).
        + exact Hin.
        + reflexivity. }
    split; [exact Hlookup|].
    unfold token_known. simpl. rewrite bool_decide_true; [reflexivity|].
    rewrite Hlookup. eauto.
  - intros t Hnot. unfold token_known. simpl.
    rewrite bool_decide_false; [reflexivity|].
    rewrite loaded_lookup by exact Hnodup.
    destruct (list_find (fun kv => kv.1 = t) options) as [[i [k v]]|] eqn:Hfind.
    + exfalso. apply list_find_Some in Hfind as (Hi & Heq & _). simpl in Heq. subst k.
      apply Hnot. apply list_elem_of_fmap. exists (t, v). split; [reflexivity|].
      apply list_elem_of_lookup. eauto.
    + rewrite lookup_empty. intros [x Hx]. discriminate.
Qed.

(** X17.  The installer and the server agree.  A server that starts on the file
    written by [install_python_components] holds exactly one token, the one
    the installer generated and printed, with the single permission
    ["all"]; it accepts that token, ignores the [SERVER] section and writes
    nothing back. *)
Theorem installed_token_accepted (n m : nat) (writable : bool) (now : Z) :
  let loaded := _load_auth_tokens rt (Installer.written_config rt n) writable now m in
  loaded.1 = {[ uuid4 rt n := TokenInfo ["all"] (isoformat rt now) ]}
  /\ loaded.2 = Installer.written_config rt n
  /\ token_known (JString (uuid4 rt n)) loaded.1 = Some true
  /\ forall t, t <> uuid4 rt n -> token_known (JString t) loaded.1 = Some false.
Proof.
  simpl. split; [reflexivity|]. split; [reflexivity|].
  unfold token_known. simpl. split.
  - rewrite bool_decide_true; [reflexivity|]. rewrite lookup_insert_eq. eauto.
  - intros t Hne. rewrite bool_decide_false; [reflexivity|].
    rewrite lookup_insert_ne by congruence. rewrite lookup_empty.
    intros [x Hx]. discriminate.
Qed.

End Tokens.

(** * The client outside a synchronous call *)

Section ClientEdges.

Import MCPClient.

Context (rt : Runtime).

Lemma no_sync_delete (id : string) (c : client) :
  no_sync c -> no_sync (set_callbacks (delete id) c).
Proof.
  intros Hquiet k. simpl. destruct (decide (id = k)) as [->|Hne].
  - rewrite lookup_delete_eq. discriminate.
  - rewrite lookup_delete_ne by exact Hne. apply Hquiet.
Qed.

(** While nothing is registered with the synchronous callback, a message
    cannot set the event; it changes the callbacks and the record of calls
    at most. *)
Lemma quiet_message (message : received) (c : client) :
  no_sync c ->
  response_event c = false ->
  let c' := _process_response message c in
  no_sync c' /\ response_event c' = false /\ connected c' = connected c
  /\ authenticated c' = authenticated c /\ auth_token c' = auth_token c
  /\ send_error c' = send_error c /\ outbox c' = outbox c.
Proof.
  intros Hquiet Hclear.
  assert (Hdefault : forall response c0,
             no_sync c0 /\ response_event c0 = false /\ connected c0 = connected c
             /\ authenticated c0 = authenticated c /\ auth_token c0 = auth_token c
             /\ send_error c0 = send_error c /\ outbox c0 = outbox c ->
             let c' := call_default response c0 in
             no_sync c' /\ response_event c' = false /\ connected c' = connected c
             /\ authenticated c' = authenticated c /\ auth_token c' = auth_token c
             /\ send_error c' = send_error c /\ outbox c' = outbox c).
  { intros response c0 H. unfold call_default.
    destruct (default_callback c0); exact H. }
  assert (Hsame : no_sync c /\ response_event c = false /\ connected c = connected c
                  /\ authenticated c = authenticated c /\ auth_token c = auth_token c
                  /\ send_error c = send_error c /\ outbox c = outbox c)
    by (repeat split; assumption).
  destruct message as [| |response]; [exact Hsame|exact Hsame|].
  unfold _process_response.
  destruct (py_get response "requestId" JNull) as [request_id|]; [|exact Hsame].
  destruct (py_truthy request_id); [|apply Hdefault; exact Hsame].
  unfold find_callback.
  destruct (key_of request_id) as [[ |z|k]|]; simpl;
    try exact Hsame; try (apply Hdefault; exact Hsame).
  destruct (callbacks c !! k) as [[|name]|] eqn:Hcb; simpl;
    [exfalso; exact (Hquiet k Hcb)| |apply Hdefault; exact Hsame].
  apply Hdefault. repeat split; simpl; try assumption.
  apply (no_sync_delete k c Hquiet).
Qed.

Lemma quiet_wait (arrivals : list received) (c : client) :
  no_sync c ->
  response_event c = false ->
  let c' := (wait arrivals c).1 in
  (wait arrivals c).2 = false
  /\ no_sync c' /\ response_event c' = false /\ connected c' = connected c
  /\ authenticated c' = authenticated c /\ auth_token c' = auth_token c
  /\ send_error c' = send_error c /\ outbox c' = outbox c.
Proof.
  revert c. induction arrivals as [|message arrivals IH]; intros c Hquiet Hclear;
    simpl; rewrite Hclear; simpl.
  - repeat split; assumption.
  - destruct (quiet_message message c Hquiet Hclear)
      as (Hquiet' & Hclear' & Hconn & Hauth & Htoken & Herr & Hout).
    destruct (IH _ Hquiet' Hclear') as (Hno & H1 & H2 & H3 & H4 & H5 & H6 & H7).
    repeat split; try assumption; congruence.
Qed.

Lemma authenticate_quiet (arrivals : list received) (c : client) :
  no_sync c ->
  (authenticate arrivals c).2 = false
  /\ authenticated (authenticate arrivals c).1 = authenticated c
  /\ connected (authenticate arrivals c).1 = connected c
  /\ auth_token (authenticate arrivals c).1 = auth_token c
  /\ no_sync (authenticate arrivals c).1.
Proof.
  intros Hquiet. unfold authenticate.
  destruct (negb (connected c)); [repeat split; assumption|].
  destruct (negb (token_set c)); [repeat split; assumption|].
  unfold sendall. destruct (send_error c) eqn:Herr; [repeat split; assumption|].
  match goal with
  | |- context [wait arrivals ?c0] =>
      destruct (quiet_wait arrivals c0) as (Hno & H1 & H2 & H3 & H4 & H5 & _);
        [exact Hquiet|reflexivity|]; destruct (wait arrivals c0) as [c2 signalled]
  end.
  simpl in *. subst signalled. simpl. repeat split; try assumption; congruence.
Qed.

(** X18.  [authenticate] cannot succeed on a client that has nothing registered
    with the synchronous callback, whatever the server sends while it
    waits: the only code that sets the event it waits for is
    [_sync_response_callback], which [_process_response] reaches through a
    registration alone, and the broker's answer to a token carries no
    ["requestId"].  The call returns [False], the client is as
    authenticated as before, and still nothing is registered with the
    synchronous callback. *)
Theorem authenticate_times_out (arrivals : list received) (c : client) :
  no_sync c ->
  (authenticate arrivals c).2 = false
  /\ authenticated (authenticate arrivals c).1 = authenticated c
  /\ no_sync (authenticate arrivals c).1.
Proof.
  intros Hquiet.
  destruct (authenticate_quiet arrivals c Hquiet) as (H1 & H2 & _ & _ & H5).
  repeat split; assumption.
Qed.

(** X19.  A client that was given a token never gets a command out.  [connect]
    on a fresh client returns [False], although the connection, when it was
    accepted, stays open; every later [send_command] is then refused
    before anything is written: [authenticated] is still [False]. *)
Theorem token_client_locked_out (accepted : bool) (arrivals later : list received)
    (command : string) (parameters : option json) (callback : option nat)
    (c : client) :
  connected c = false ->
  authenticated c = false ->
  token_set c = true ->
  no_sync c ->
  let c' := (connect accepted arrivals c).1 in
  (connect accepted arrivals c).2 = false
  /\ connected c' = accepted
  /\ send_command rt command parameters callback later c'
     = (c', error_result (if accepted
                          then "Not authenticated with MCP Server"
                          else "Not connected to MCP Server")).
Proof.
  intros Hconn Hauth Htoken Hquiet. unfold connect. rewrite Hconn.
  destruct accepted.
  - assert (Htoken1 : token_set (set_connected true c) = true) by exact Htoken.
    rewrite Htoken1.
    destruct (authenticate_quiet arrivals (set_connected true c))
      as (Hres & Hauth' & Hconn' & Htok' & _); [exact Hquiet|].
    simpl in Hauth'. rewrite Hauth in Hauth'.
    simpl. split; [exact Hres|]. split; [exact Hconn'|].
    unfold send_command. rewrite Hconn'. simpl.
    unfold token_set in *. rewrite Htok'. simpl. rewrite Htoken, Hauth'. reflexivity.
  - simpl. repeat split.
Qed.

Lemma callbacks_call_default (response : json) (c : client) :
  callbacks (call_default response c) = callbacks c.
Proof. unfold call_default. destruct (default_callback c); reflexivity. Qed.

(** A message whose identifier is not registered reaches the default
    callback at most. *)
Lemma unregistered_message (id : string) (fields : list (string * json))
    (c : client) :
  callbacks c !! id = None ->
  carries id (Decoded (JObject fields)) = true ->
  _process_response (Decoded (JObject fields)) c = call_default (JObject fields) c.
Proof.
  intros Hnone Hcarries. apply carries_object in Hcarries.
  unfold _process_response, find_callback. simpl. rewrite Hcarries. simpl.
  destruct (negb (String.eqb id "")); [|reflexivity].
  simpl. rewrite Hnone. reflexivity.
Qed.

(** X20.  A callback passed to [send_command] is called once.  The call registers
    it under the generated identifier and writes the envelope; the first
    message that carries the identifier is handed to the callback and the
    registration is deleted, so the next message with the same identifier
    reaches the default callback at most.  The broker acknowledges a
    command before it answers it, with the same identifier: the callback
    gets the acknowledgment. *)
Theorem callback_called_once (c : client) (command : string)
    (parameters : option json) (name : nat) (arrivals : list received)
    (first second : list (string * json)) :
  connected c = true ->
  token_set c && negb (authenticated c) = false ->
  send_error c = None ->
  uuid4 rt (drawn c) <> "" ->
  carries (uuid4 rt (drawn c)) (Decoded (JObject first)) = true ->
  carries (uuid4 rt (drawn c)) (Decoded (JObject second)) = true ->
  let registered :=
    set_outbox (fun o => o ++ [command_message rt command parameters c])
      (set_callbacks (insert (uuid4 rt (drawn c)) (user name)) (set_drawn S c)) in
  send_command rt command parameters (Some name) arrivals c
  = (registered, JObject [("status", JString "sent");
                          ("requestId", JString (uuid4 rt (drawn c)))])
  /\ _process_response (Decoded (JObject first)) registered
     = call_default (JObject first)
         (set_invoked (fun l => l ++ [(name, JObject first)])
            (set_callbacks (delete (uuid4 rt (drawn c))) registered))
  /\ _process_response (Decoded (JObject second))
       (_process_response (Decoded (JObject first)) registered)
     = call_default (JObject second)
         (_process_response (Decoded (JObject first)) registered).
Proof.
  intros Hconn Hauth Hsend Hne Hfirst Hsecond registered.
  assert (Htruthy : negb (String.eqb (uuid4 rt (drawn c)) "") = true).
  { apply negb_true_iff, String.eqb_neq. exact Hne. }
  assert (Hcall : _process_response (Decoded (JObject first)) registered
                  = call_default (JObject first)
                      (set_invoked (fun l => l ++ [(name, JObject first)])
                         (set_callbacks (delete (uuid4 rt (drawn c))) registered))).
  { apply carries_object in Hfirst.
    unfold _process_response, find_callback. simpl. rewrite Hfirst. simpl.
    rewrite Htruthy. simpl. rewrite lookup_insert_eq. reflexivity. }
  split; [|split; [exact Hcall|]].
  - unfold send_command. rewrite Hconn, Hauth. simpl.
    unfold sendall. simpl. rewrite Hsend. reflexivity.
  - rewrite Hcall.
    apply (unregistered_message (uuid4 rt (drawn c))); [|exact Hsecond].
    rewrite callbacks_call_default. simpl. apply lookup_delete_eq.
Qed.

Lemma wait_unanswered (id : string) (arrivals : list received) (c : client) :
  awaiting id c ->
  Forall (fun message => carries id message = false) arrivals ->
  (wait arrivals c).2 = false
  /\ awaiting id (wait arrivals c).1
  /\ outbox (wait arrivals c).1 = outbox c.
Proof.
  intros Hwait Hall. revert c Hwait.
  induction Hall as [|message arrivals Hother _ IH]; intros c Hwait;
    simpl; rewrite (proj1 Hwait); simpl.
  - repeat split; apply Hwait.
  - destruct (other_message_ignored id message c Hwait Hother) as [Hwait' _].
    destruct (IH _ Hwait') as (Hres & Hstill & Hout).
    repeat split; try assumption; try apply Hstill.
    rewrite Hout. clear - c.
    destruct message as [| |response]; [reflexivity|reflexivity|].
    unfold _process_response.
    destruct (py_get response "requestId" JNull) as [request_id|]; [|reflexivity].
    assert (Hdefault : forall c0, outbox c0 = outbox c ->
                                  outbox (call_default response c0) = outbox c).
    { intros c0 H. unfold call_default. destruct (default_callback c0); exact H. }
    destruct (py_truthy request_id); [|apply Hdefault; reflexivity].
    destruct (find_callback request_id c) as [[[k cb]|]|]; simpl;
      try reflexivity; try (apply Hdefault; reflexivity).
    apply Hdefault. destruct cb; simpl; [reflexivity|].
    destruct (decide (user name <> sync)); reflexivity.
Qed.

(** X21.  A synchronous [send_command] that is not answered gives up cleanly.
    When none of the messages that arrive within the timeout carries the
    generated identifier, the call returns the error ["Response timeout"],
    the registration it made is removed, and the envelope is the only thing
    it wrote. *)
Theorem unanswered_call_times_out (c : client) (command : string)
    (parameters : option json) (arrivals : list received) :
  connected c = true ->
  token_set c && negb (authenticated c) = false ->
  send_error c = None ->
  no_sync c ->
  Forall (fun message => carries (uuid4 rt (drawn c)) message = false) arrivals ->
  let c' := (send_command rt command parameters None arrivals c).1 in
  (send_command rt command parameters None arrivals c).2
  = error_result "Response timeout"
  /\ callbacks c' !! uuid4 rt (drawn c) = None
  /\ no_sync c'
  /\ outbox c' = outbox c ++ [command_message rt command parameters c].
Proof.
  intros Hconn Hauth Hsend Hquiet Hall.
  unfold send_command. rewrite Hconn, Hauth. simpl.
  unfold sendall. simpl. rewrite Hsend.
  match goal with
  | |- context [wait arrivals ?c0] =>
      destruct (wait_unanswered (uuid4 rt (drawn c)) arrivals c0)
        as (Hres & (Hclear & Hreg & Honly) & Hout);
        [|exact Hall|]; [|destruct (wait arrivals c0) as [c4 signalled]]
  end.
  - repeat split; simpl.
    + apply lookup_insert_eq.
    + intros k Hk. destruct (decide (uuid4 rt (drawn c) = k)) as [<-|Hk'];
        [reflexivity|].
      rewrite lookup_insert_ne in Hk by exact Hk'. destruct (Hquiet k Hk).
  - simpl in *. subst signalled. simpl.
    split; [reflexivity|]. split; [apply lookup_delete_eq|].
    split; [|exact Hout].
    intros k Hk. simpl in Hk. destruct (decide (uuid4 rt (drawn c) = k)) as [<-|Hne].
    + rewrite lookup_delete_eq in Hk. discriminate.
    + rewrite lookup_delete_ne in Hk by exact Hne.
      apply Hne. symmetry. apply Honly. exact Hk.
Qed.

End ClientEdges.

(** * Registrations of the client *)

Section ClientRegistrations.

Import MCPClient.

Context (rt : Runtime).

Lemma matching_message_keeps (id : string) (fields : list (string * json))
    (c : client) :
  id <> "" ->
  awaiting id c ->
  carries id (Decoded (JObject fields)) = true ->
  callbacks (_process_response (Decoded (JObject fields)) c) = callbacks c.
Proof.
  intros Hne (Hclear & Hreg & Honly) Hcarries.
  apply carries_object in Hcarries.
  unfold _process_response, find_callback. simpl. rewrite Hcarries. simpl.
  assert (Htruthy : negb (String.eqb id "") = true).
  { apply negb_true_iff, String.eqb_neq. exact Hne. }
  rewrite Htruthy. simpl. rewrite Hreg. simpl.
  unfold call_default. simpl.
  destruct (default_callback c); reflexivity.
Qed.

Lemma wait_keeps_registration (id : string) (before after : list received)
    (fields : list (string * json)) (c : client) :
  id <> "" ->
  awaiting id c ->
  Forall (fun message => carries id message = false) before ->
  carries id (Decoded (JObject fields)) = true ->
  let c' := (wait (before ++ Decoded (JObject fields) :: after) c).1 in
  (wait (before ++ Decoded (JObject fields) :: after) c).2 = true
  /\ callbacks c' !! id = Some sync
  /\ forall k, callbacks c' !! k = Some sync -> k = id.
Proof.
  intros Hne Hwait Hbefore Hcarries. revert c Hwait.
  induction Hbefore as [|message before Hother _ IH]; intros c Hwait.
  - destruct (matching_message_signals id fields c Hne Hwait Hcarries)
      as [Hset _].
    pose proof (matching_message_keeps id fields c Hne Hwait Hcarries) as Hkeep.
    cbn [app wait]. destruct Hwait as (Hclear & Hreg & Honly). rewrite Hclear.
    rewrite wait_signalled by exact Hset. cbn [fst snd]. rewrite Hkeep.
    split; [reflexivity|]. split; assumption.
  - destruct (other_message_ignored id message c Hwait Hother) as [Hwait' _].
    specialize (IH _ Hwait').
    simpl. destruct Hwait as (Hclear & _). rewrite Hclear. exact IH.
Qed.

(** X22.  The registration of an answered synchronous call is left behind.  The
    call removes its registration on a timeout only; after an answer the
    generated identifier is still registered with the synchronous callback,
    and it stays so until the caller passes it to [remove_callback], which
    then returns [True] and leaves nothing registered with the synchronous
    callback. *)
Theorem answered_call_stays_registered (c : client) (command : string)
    (parameters : option json) (before after : list received)
    (fields : list (string * json)) :
  connected c = true ->
  token_set c && negb (authenticated c) = false ->
  send_error c = None ->
  uuid4 rt (drawn c) <> "" ->
  no_sync c ->
  Forall (fun message => carries (uuid4 rt (drawn c)) message = false) before ->
  carries (uuid4 rt (drawn c)) (Decoded (JObject fields)) = true ->
  let c' := (send_command rt command parameters None
               (before ++ Decoded (JObject fields) :: after) c).1 in
  callbacks c' !! uuid4 rt (drawn c) = Some sync
  /\ (remove_callback (uuid4 rt (drawn c)) c').2 = true
  /\ no_sync (remove_callback (uuid4 rt (drawn c)) c').1.
Proof.
  intros Hconn Hauth Hsend Hne Hquiet Hbefore Hcarries.
  unfold send_command. rewrite Hconn, Hauth. simpl.
  unfold sendall. simpl. rewrite Hsend.
  match goal with
  | |- context [wait _ ?c0] =>
      destruct (wait_keeps_registration (uuid4 rt (drawn c)) before after
                  fields c0 Hne) as (Hrun & Hreg & Honly);
        [|exact Hbefore|exact Hcarries|];
        [|destruct (wait (before ++ Decoded (JObject fields) :: after) c0)
            as [c4 signalled]]
  end.
  - repeat split; simpl.
    + apply lookup_insert_eq.
    + intros k Hk. destruct (decide (uuid4 rt (drawn c) = k)) as [<-|Hk'];
        [reflexivity|].
      rewrite lookup_insert_ne in Hk by exact Hk'. destruct (Hquiet k Hk).
  - simpl in *. subst signalled.
    assert (Hsame : forall result : client * json,
               (let (c5, _) := result in c5) = result.1)
      by (intros [c5 r]; reflexivity).
    assert (Hc' : (if true
                   then match last_response c4 with
                        | Some response =>
                            if py_truthy response then (c4, response)
                            else (c4, error_result "Empty response")
                        | None => (c4, error_result "Empty response")
                        end
                   else (set_callbacks (delete (uuid4 rt (drawn c))) c4,
                         error_result "Response timeout")).1 = c4).
    { destruct (last_response c4) as [response|]; [|reflexivity].
      destruct (py_truthy response); reflexivity. }
    rewrite Hc'. unfold remove_callback. rewrite Hreg. simpl.
    split; [reflexivity|]. split; [reflexivity|].
    intros k Hk. simpl in Hk.
    destruct (decide (uuid4 rt (drawn c) = k)) as [<-|Hk'].
    + rewrite lookup_delete_eq in Hk. discriminate.
    + rewrite lookup_delete_ne in Hk by exact Hk'.
      apply Hk'. symmetry. apply Honly. exact Hk.
Qed.

(** X23.  [remove_callback] cancels a callback.  After a [send_command] with a
    callback, removing the identifier it returned succeeds and takes the
    registrations back to what they were without it; a message with that
    identifier then reaches the default callback at most, and a second
    removal returns [False] and changes nothing. *)
Theorem removed_callback_not_called (c : client) (command : string)
    (parameters : option json) (name : nat) (arrivals : list received)
    (fields : list (string * json)) :
  connected c = true ->
  token_set c && negb (authenticated c) = false ->
  send_error c = None ->
  carries (uuid4 rt (drawn c)) (Decoded (JObject fields)) = true ->
  let registered := (send_command rt command parameters (Some name) arrivals c).1 in
  let removed := (remove_callback (uuid4 rt (drawn c)) registered).1 in
  callbacks registered !! uuid4 rt (drawn c) = Some (user name)
  /\ (remove_callback (uuid4 rt (drawn c)) registered).2 = true
  /\ callbacks removed = delete (uuid4 rt (drawn c)) (callbacks c)
  /\ _process_response (Decoded (JObject fields)) removed
     = call_default (JObject fields) removed
  /\ remove_callback (uuid4 rt (drawn c)) removed = (removed, false).
Proof.
  intros Hconn Hauth Hsend Hcarries registered removed.
  assert (Hsent : registered
                  = set_outbox (fun o => o ++ [command_message rt command parameters c])
                      (set_callbacks (insert (uuid4 rt (drawn c)) (user name))
                                     (set_drawn S c))).
  { unfold registered, send_command. rewrite Hconn, Hauth. simpl.
    unfold sendall. simpl. rewrite Hsend. reflexivity. }
  assert (Hlook : callbacks registered !! uuid4 rt (drawn c) = Some (user name)).
  { rewrite Hsent. simpl. apply lookup_insert_eq. }
  assert (Hrem : remove_callback (uuid4 rt (drawn c)) registered
                 = (set_callbacks (delete (uuid4 rt (drawn c))) registered, true)).
  { unfold remove_callback. rewrite Hlook. reflexivity. }
  assert (Hremoved : removed
                     = set_callbacks (delete (uuid4 rt (drawn c))) registered).
  { unfold removed. rewrite Hrem. reflexivity. }
  split; [exact Hlook|]. split; [rewrite Hrem; reflexivity|].
  rewrite Hremoved. split; [|split].
  - simpl. rewrite Hsent. simpl. apply delete_insert_eq.
  - apply (unregistered_message (uuid4 rt (drawn c))); [|exact Hcarries].
    simpl. apply lookup_delete_eq.
  - unfold remove_callback. simpl. rewrite lookup_delete_eq. reflexivity.
Qed.

End ClientRegistrations.

(** * Client and broker together *)

Section EndToEnd.

Import MCPServer.

Context (rt : Runtime).

#[local] Arguments MCPClient.wait : simpl never.

Lemma command_message_fields (command : string) (parameters : option json)
    (c : MCPClient.client) :
  exists fields,
    MCPClient.command_message rt command parameters c = JObject fields
    /\ identity_marker fields = false
    /\ assoc "command" fields = Some (JString command)
    /\ assoc "requestId" fields = Some (JString (uuid4 rt (MCPClient.drawn c)))
    /\ assoc "parameters" fields
       = Some (match parameters with
               | Some p => if py_truthy p then p else JObject []
               | None => JObject []
               end).
Proof.
  unfold MCPClient.command_message.
  destruct (MCPClient.token_set c); eexists; (split; [reflexivity|]);
    repeat split; reflexivity.
Qed.

(** X24.  What a command goes through.  The envelope [send_command] writes is
    accepted by [_process_message] on a connection the broker admits: the
    broker queues one item under the identifier the client generated, with
    the command and the parameters of the call, and writes the [queued]
    acknowledgment with that identifier to the client's socket.  A
    synchronous call that receives this acknowledgment first returns it:
    what [send_command] reports is that the command was queued, not its
    result. *)
Theorem command_round_trip (c : MCPClient.client) (s : server) (cid : string)
    (info : client_info) (command : string) (parameters : option json)
    (after : list received) :
  MCPClient.connected c = true ->
  MCPClient.token_set c && negb (MCPClient.authenticated c) = false ->
  MCPClient.send_error c = None ->
  uuid4 rt (MCPClient.drawn c) <> "" ->
  MCPClient.no_sync c ->
  unlocked s ->
  clients s !! cid = Some info ->
  admitted info s = true ->
  String.eqb (type info) "mt5_ea" = false ->
  socket info ∉ closed s ->
  let envelope := MCPClient.command_message rt command parameters c in
  let ack := queued_reply rt (JString (uuid4 rt (MCPClient.drawn c))) (JString command) in
  MCPClient.outbox
    (MCPClient.send_command rt command parameters None (Decoded ack :: after) c).1
  = MCPClient.outbox c ++ [envelope]
  /\ (exists s',
         _process_message rt cid (Decoded envelope) s = Returns tt s'
         /\ command_queue s'
            = command_queue s
              ++ [CommandItem cid (JString command)
                    (match parameters with
                     | Some p => if py_truthy p then p else JObject []
                     | None => JObject []
                     end)
                    (JString (uuid4 rt (MCPClient.drawn c))) (clock s)]
         /\ wire s' = wire s ++ [(socket info, ack)])
  /\ (MCPClient.send_command rt command parameters None (Decoded ack :: after) c).2
     = ack.
Proof.
  intros Hconn Hauth Hsend Hne Hquiet Hfree Hinfo Hadm Htype Hopen envelope ack.
  assert (Hwait : forall c0,
             MCPClient.awaiting (uuid4 rt (MCPClient.drawn c)) c0 ->
             exists c',
               MCPClient.wait (Decoded ack :: after) c0 = (c', true)
               /\ MCPClient.last_response c' = Some ack
               /\ MCPClient.outbox c' = MCPClient.outbox c0).
  { intros c0 Hwait.
    destruct (matching_message_signals (uuid4 rt (MCPClient.drawn c))
                [("status", JString "queued");
                 ("requestId", JString (uuid4 rt (MCPClient.drawn c)));
                 ("message",
                  JString ("Command '" +:+ py_str rt (JString command)
                           +:+ "' queued for processing"))] c0 Hne Hwait)
      as [Hset Hlast]; [simpl; apply String.eqb_refl|].
    exists (MCPClient._process_response (Decoded ack) c0).
    change (MCPClient.wait (Decoded ack :: after) c0)
      with (if MCPClient.response_event c0 then (c0, true)
            else MCPClient.wait after (MCPClient._process_response (Decoded ack) c0)).
    rewrite (proj1 Hwait).
    rewrite wait_signalled by exact Hset.
    split; [reflexivity|]. split; [exact Hlast|].
    destruct Hwait as (_ & Hreg & _).
    unfold MCPClient._process_response, MCPClient.find_callback. simpl.
    assert (Htruthy : negb (String.eqb (uuid4 rt (MCPClient.drawn c)) "") = true).
    { apply negb_true_iff, String.eqb_neq. exact Hne. }
    rewrite Htruthy. simpl. rewrite Hreg. simpl.
    unfold MCPClient.call_default. simpl.
    destruct (MCPClient.default_callback c0); reflexivity. }
  assert (Hcall : exists c',
             MCPClient.send_command rt command parameters None
               (Decoded ack :: after) c = (c', ack)
             /\ MCPClient.outbox c' = MCPClient.outbox c ++ [envelope]).
  { unfold MCPClient.send_command. rewrite Hconn, Hauth. simpl.
    unfold MCPClient.sendall. simpl. rewrite Hsend.
    match goal with
    | |- context [MCPClient.wait _ ?c0] =>
        destruct (Hwait c0) as (c' & Hrun & Hlast & Hout)
    end.
    - repeat split; simpl.
      + apply lookup_insert_eq.
      + intros k Hk.
        destruct (decide (uuid4 rt (MCPClient.drawn c) = k)) as [<-|Hk'];
          [reflexivity|].
        rewrite lookup_insert_ne in Hk by exact Hk'. destruct (Hquiet k Hk).
    - fold ack. rewrite Hrun, Hlast. simpl.
      exists c'. split; [reflexivity|]. exact Hout. }
  destruct Hcall as (c' & Hcall & Hout). rewrite Hcall. simpl.
  split; [exact Hout|]. split; [|reflexivity].
  destruct (command_message_fields command parameters c)
    as (fields & Hshape & Hmarker & Hcmd & Hrid & Hparams).
  unfold envelope. rewrite Hshape.
  unfold _process_message, try_except.
  rewrite (admitted_reaches_command rt s cid info fields)
    by (try apply Hfree; assumption).
  rewrite bool_decide_true by (rewrite Hcmd; eauto).
  rewrite (request_queued rt s cid info fields (JString command))
    by assumption.
  eexists. split; [reflexivity|].
  unfold item_of. rewrite Hrid, Hparams. simpl. split; reflexivity.
Qed.

End EndToEnd.

(** * Admission of a connection *)

Section BrokerAdmission.

Import MCPServer.

Context (rt : Runtime).

#[local] Arguments _send_to_client : simpl never.
#[local] Arguments _is_client_authenticated : simpl never.
#[local] Arguments _authenticate_client : simpl never.
#[local] Arguments _get_client_type : simpl never.
#[local] Arguments is_identification : simpl never.
#[local] Arguments process_command : simpl never.
#[local] Arguments process_decoded : simpl never.

(** X25.  A connection that has just been accepted is registered under a fresh
    identifier with the type ["unknown"], and it passes the authentication
    check exactly when authentication is disabled.  Nothing is written to
    it: the broker sends no greeting. *)
Theorem accepted_connection_standing (s : server) (sk : sock) (addr : string * Z) :
  clients_held s = false ->
  exists s1,
    handle_client_accept rt sk addr s = Returns (uuid4 rt (drawn s)) s1
    /\ clients s1 !! uuid4 rt (drawn s)
       = Some (ClientInfo sk addr "unknown" (negb (auth_enabled s)) (clock s))
    /\ _is_client_authenticated (uuid4 rt (drawn s)) s1
       = Returns (negb (auth_enabled s)) s1
    /\ _get_client_type (uuid4 rt (drawn s)) s1 = Returns "unknown" s1
    /\ drawn s1 = S (drawn s)
    /\ wire s1 = wire s.
Proof.
  intros Hfree.
  exists (set_clients
            (insert (uuid4 rt (drawn s))
                    (ClientInfo sk addr "unknown" (negb (auth_enabled s)) (clock s)))
            (set_drawn S s)).
  destruct s; simpl in *; subst.
  split; [unfold handle_client_accept; run; reflexivity|].
  split; [apply lookup_insert_eq|].
  split; [|split; [|split; reflexivity]].
  - unfold _is_client_authenticated. run.
    destruct auth_enabled0; simpl; [|reflexivity].
    rewrite lookup_insert_eq. reflexivity.
  - unfold _get_client_type. run. rewrite lookup_insert_eq. reflexivity.
Qed.

(** X26.  A token that is a JSON array or object is not answered.  The lookup
    [token in self.auth_tokens] raises for an unhashable value; the
    exception is logged, the connection gets neither the success nor the
    failure reply, and nothing has changed. *)
Theorem unhashable_token_unanswered (s : server) (cid : string) (c : client_info)
    (fields : list (string * json)) (token : json) :
  clients_held s = false ->
  auth_enabled s = true ->
  clients s !! cid = Some c ->
  authenticated c = false ->
  identity_marker fields = false ->
  assoc "auth" fields = Some token ->
  key_of token = None ->
  _process_message rt cid (Decoded (JObject fields)) s = Returns tt s.
Proof.
  intros Hfree Hen Hc Hflag Hmarker Hauth Hkey.
  unfold _process_message, process_decoded. run.
  rewrite is_identification_object, Hmarker. run.
  rewrite Hauth. simpl.
  rewrite (authenticated_registered cid c) by assumption.
  rewrite Hflag. simpl.
  unfold _authenticate_client, token_known. run. rewrite Hen, Hkey. reflexivity.
Qed.

(** X27.  An object without a ["command"] field that comes from a connection
    which passes the authentication check is dropped without an answer:
    a token sent again, or sent to a broker that has authentication
    disabled, is not acknowledged. *)
Theorem commandless_message_unanswered (s : server) (cid : string)
    (c : client_info) (fields : list (string * json)) :
  clients_held s = false ->
  clients s !! cid = Some c ->
  admitted c s = true ->
  identity_marker fields = false ->
  assoc "command" fields = None ->
  _process_message rt cid (Decoded (JObject fields)) s = Returns tt s.
Proof.
  intros Hfree Hc Hadm Hmarker Hcmd.
  unfold _process_message. run.
  rewrite (admitted_reaches_command rt s cid c) by assumption.
  rewrite Hcmd. reflexivity.
Qed.

End BrokerAdmission.

(** * The handshake before any connection has identified itself *)

Section BeforeIdentification.

Import MCPServer.

Context (rt : Runtime).

#[local] Arguments _send_to_client : simpl never.
#[local] Arguments _is_client_authenticated : simpl never.
#[local] Arguments _authenticate_client : simpl never.
#[local] Arguments is_identification : simpl never.
#[local] Arguments process_decoded : simpl never.

(** X28.  The handshake, as long as no connection has identified itself as
    the Expert Advisor.  In every state a server goes through in which no
    link is set, with authentication enabled, a registered connection that
    is not authenticated, whose socket is open, sends an object that
    carries a hashable ["auth"] value and does not declare the upstream
    identity.  When the value is a string of the token store, the
    [authenticated] field of the connection becomes [True], its other
    fields stay, and its socket is handed the object with the status
    ["authenticated"] and the message ["Authentication successful"].  When
    it is not, the socket is handed the status ["error"] with the message
    ["Authentication failed"] and nothing else changes.  In both cases
    that is all: a command in the same object is not queued. *)
Theorem handshake_before_identification (s : server) (cid : string)
    (c : client_info) (fields : list (string * json)) (token : json) (k : pykey) :
  reachable rt s ->
  mt5_connection s = None ->
  auth_enabled s = true ->
  clients s !! cid = Some c ->
  authenticated c = false ->
  socket c ∉ closed s ->
  identity_marker fields = false ->
  assoc "auth" fields = Some token ->
  key_of token = Some k ->
  (forall t,
      token = JString t ->
      is_Some (auth_tokens s !! t) ->
      _process_message rt cid (Decoded (JObject fields)) s
      = Returns tt
          (set_wire
             (fun w => w ++ [(socket c,
                              JObject [("status", JString "authenticated");
                                       ("message", JString "Authentication successful")])])
             (set_clients
                (insert cid (ClientInfo (socket c) (address c) (type c) true
                                        (last_activity c)))
                s)))
  /\ ((forall t, k = KStr t -> auth_tokens s !! t = None) ->
      _process_message rt cid (Decoded (JObject fields)) s
      = Returns tt
          (set_wire
             (fun w => w ++ [(socket c,
                              JObject [("status", JString "error");
                                       ("message", JString "Authentication failed")])])
             s)).
Proof.
  intros Hreach Hlink Hen Hc Hflag Hopen Hmarker Hauth Hk.
  pose proof (unlinked_registry_free rt s Hreach Hlink) as Hfree.
  assert (Hstart : _process_message rt cid (Decoded (JObject fields)) s
                   = try_except
                       (ok ← _authenticate_client cid token;
                        _send_to_client cid
                          (if ok : bool then authenticated_reply
                           else authentication_failed_reply);;
                        mret tt)
                       (fun _ => mret tt) s).
  { unfold _process_message, process_decoded. run.
    rewrite is_identification_object, Hmarker. run.
    rewrite Hauth. simpl.
    rewrite (authenticated_registered cid c) by assumption.
    rewrite Hflag. reflexivity. }
  rewrite Hstart. clear Hstart. split.
  - intros t -> Hknown. run.
    rewrite (authenticate_known cid t c) by assumption.
    rewrite (send_registered cid (with_authenticated true c)); simpl;
      [reflexivity|assumption|apply lookup_insert_eq|assumption].
  - intros Hunknown. run.
    rewrite (authenticate_unknown cid token k) by assumption.
    rewrite (send_registered cid c) by assumption. reflexivity.
Qed.

(** X29.  The refusal, as long as no connection has identified itself as
    the Expert Advisor.  In every state a server goes through in which no
    link is set, with authentication enabled, an object that neither
    declares the upstream identity nor carries an ["auth"] field, from a
    registered connection that is not authenticated and whose socket is
    open, is answered with the status ["error"] and the message
    ["Not authenticated"].  That write is the only change: nothing is
    queued. *)
Theorem request_refused_before_identification (s : server) (cid : string)
    (c : client_info) (fields : list (string * json)) :
  reachable rt s ->
  mt5_connection s = None ->
  auth_enabled s = true ->
  clients s !! cid = Some c ->
  authenticated c = false ->
  socket c ∉ closed s ->
  identity_marker fields = false ->
  assoc "auth" fields = None ->
  _process_message rt cid (Decoded (JObject fields)) s
  = Returns tt
      (set_wire
         (fun w => w ++ [(socket c,
                          JObject [("status", JString "error");
                                   ("message", JString "Not authenticated")])])
         s).
Proof.
  intros Hreach Hlink Hen Hc Hflag Hopen Hmarker Hauth.
  pose proof (unlinked_registry_free rt s Hreach Hlink) as Hfree.
  unfold _process_message, process_decoded. run.
  rewrite is_identification_object, Hmarker. run.
  rewrite Hauth. simpl.
  rewrite (authenticated_registered cid c) by assumption.
  rewrite Hflag. simpl.
  rewrite (send_registered cid c) by assumption. reflexivity.
Qed.

End BeforeIdentification.

(** * What a synchronous call returns *)

Section SynchronousCall.

Import MCPClient.

Context (rt : Runtime).

Lemma signals_registered (c : client) (fields : list (string * json)) :
  signals c (Decoded (JObject fields)) = true ->
  exists k, k <> "" /\ callbacks c !! k = Some sync
            /\ carries k (Decoded (JObject fields)) = true.
Proof.
  simpl. destruct (assoc "requestId" fields) as [[ | | |k| | ]|]; try discriminate.
  intros H. apply andb_true_iff in H as [Hne Hreg].
  exists k. split; [|split].
  - apply negb_true_iff, String.eqb_neq in Hne. exact Hne.
  - apply bool_decide_eq_true in Hreg. exact Hreg.
  - apply String.eqb_refl.
Qed.

Lemma signals_same (c1 c2 : client) (message : received) :
  (forall k, callbacks c1 !! k = Some sync <-> callbacks c2 !! k = Some sync) ->
  signals c1 message = signals c2 message.
Proof.
  intros Hsame. destruct message as [| |[ | | | | |fields]]; try reflexivity.
  simpl. destruct (assoc "requestId" fields) as [[ | | |k| | ]|]; try reflexivity.
  f_equal. apply bool_decide_ext. apply Hsame.
Qed.

(** A message that is not handed to the synchronous callback leaves the
    event clear and the registrations of that callback as they are. *)
Lemma silent_message (message : received) (c : client) :
  response_event c = false ->
  signals c message = false ->
  response_event (_process_response message c) = false
  /\ forall k, callbacks (_process_response message c) !! k = Some sync
               <-> callbacks c !! k = Some sync.
Proof.
  intros Hclear Hsilent.
  assert (Hsame : response_event c = false
                  /\ forall k, callbacks c !! k = Some sync
                               <-> callbacks c !! k = Some sync)
    by (split; [exact Hclear|reflexivity]).
  assert (Hdefault : forall response c0,
             (response_event c0 = false
              /\ forall k, callbacks c0 !! k = Some sync
                           <-> callbacks c !! k = Some sync) ->
             response_event (call_default response c0) = false
             /\ forall k, callbacks (call_default response c0) !! k = Some sync
                          <-> callbacks c !! k = Some sync).
  { intros response c0 H. unfold call_default.
    destruct (default_callback c0); exact H. }
  destruct message as [| |response]; [exact Hsame|exact Hsame|].
  unfold _process_response.
  destruct (py_get response "requestId" JNull) as [request_id|] eqn:Hget;
    [|exact Hsame].
  destruct (py_truthy request_id) eqn:Htruthy; [|apply Hdefault; exact Hsame].
  unfold find_callback.
  destruct (key_of request_id) as [[ |z|k]|] eqn:Hkey; simpl;
    try exact Hsame; try (apply Hdefault; exact Hsame).
  destruct (callbacks c !! k) as [[|name]|] eqn:Hcb; simpl;
    [|apply Hdefault|apply Hdefault; exact Hsame].
  - exfalso.
    destruct response as [ | | | | |fields]; try discriminate.
    simpl in Hget, Hsilent. injection Hget as <-.
    destruct (assoc "requestId" fields) as [[ |b|z|u| | ]|];
      simpl in Hkey, Htruthy; try discriminate.
    injection Hkey as ->. rewrite Htruthy in Hsilent. simpl in Hsilent.
    rewrite bool_decide_true in Hsilent by exact Hcb. discriminate.
  - split; [exact Hclear|]. simpl. intros k'.
    destruct (decide (k = k')) as [<-|Hne].
    + rewrite lookup_delete_eq, Hcb. split; discriminate.
    + rewrite lookup_delete_ne by exact Hne. reflexivity.
Qed.

Lemma wait_first_signal (before after : list received)
    (fields : list (string * json)) (c : client) :
  response_event c = false ->
  Forall (fun message => signals c message = false) before ->
  signals c (Decoded (JObject fields)) = true ->
  exists c',
    wait (before ++ Decoded (JObject fields) :: after) c = (c', true)
    /\ last_response c' = Some (JObject fields).
Proof.
  intros Hclear Hbefore Hsignal. revert c Hclear Hsignal Hbefore.
  induction before as [|message before IH]; intros c Hclear Hsignal Hbefore.
  - destruct (signals_registered c fields Hsignal) as (k & Hne & Hreg & Hcarries).
    destruct (registered_message_signals k fields c Hne Hreg Hcarries)
      as [Hset Hlast].
    exists (_process_response (Decoded (JObject fields)) c).
    split; [|exact Hlast].
    cbn [app wait]. rewrite Hclear. apply wait_signalled. exact Hset.
  - apply Forall_cons in Hbefore as [Hsilent Hbefore].
    destruct (silent_message message c Hclear Hsilent) as [Hclear' Hsame].
    destruct (IH (_process_response message c) Hclear') as (c' & Hrun & Hlast).
    + rewrite (signals_same _ c) by exact Hsame. exact Hsignal.
    + eapply Forall_impl; [exact Hbefore|]. intros other Hother.
      rewrite (signals_same _ c) by exact Hsame. exact Hother.
    + exists c'. split; [|exact Hlast].
      cbn [app wait]. rewrite Hclear. exact Hrun.
Qed.

(** X30.  What a synchronous [send_command] returns.  The call is made on a
    connected client that is authenticated if it has a token and whose
    socket accepts the write.  It returns the first message to arrive that
    is handed to the synchronous callback: an object whose ["requestId"] is
    a non-empty string registered with that callback, be it the identifier
    the call has just generated or one that an earlier call left behind.
    What arrives after that message plays no part. *)
Theorem sync_call_returns_first_signal (c : client) (command : string)
    (parameters : option json) (before after : list received)
    (fields : list (string * json)) :
  connected c = true ->
  token_set c && negb (authenticated c) = false ->
  send_error c = None ->
  let registered := set_callbacks (insert (uuid4 rt (drawn c)) sync) c in
  Forall (fun message => signals registered message = false) before ->
  signals registered (Decoded (JObject fields)) = true ->
  (send_command rt command parameters None
                (before ++ Decoded (JObject fields) :: after) c).2
  = JObject fields.
Proof.
  intros Hconn Hauth Hsend registered Hbefore Hsignal.
  unfold send_command. rewrite Hconn, Hauth. cbn [negb].
  unfold sendall.
  cbn [send_error set_callbacks set_last_response set_response_event set_drawn].
  rewrite Hsend.
  match goal with
  | |- context [wait _ ?c0] =>
      destruct (wait_first_signal before after fields c0) as (c' & Hrun & Hlast);
        [reflexivity| |
        |rewrite Hrun, Hlast]
  end.
  - eapply Forall_impl; [exact Hbefore|]. intros message Hsilent.
    rewrite <- Hsilent. apply signals_same. reflexivity.
  - rewrite <- Hsignal. apply signals_same. reflexivity.
  - destruct (signals_registered _ _ Hsignal) as (k & _ & _ & Hcarries).
    apply carries_object in Hcarries.
    destruct fields; [discriminate|]. reflexivity.
Qed.

End SynchronousCall.

(** * The further properties at the sample configurations *)

Section FurtherSamples.

Import MCPServer.

#[local] Arguments wait_loop : simpl never.

Ltac by_evaluation :=
  vm_compute;
  first [ reflexivity
        | repeat split; reflexivity
        | eexists; reflexivity
        | let H := fresh in intros H; discriminate H
        | let H := fresh in intros H; inversion H ].

Lemma identified_reachable : reachable Sample.runtime Sample.identified.
Proof.
  unfold Sample.identified, Sample.open_house.
  repeat apply reachable_run_events. apply reachable_init.
Qed.

(** [identification_deadlocks] at [Sample.open_house]: the second
    connection identifies itself. *)
Lemma identification_deadlocks_witness :
  _process_message Sample.runtime "uuid-1"
    (Decoded (JObject Sample.identification)) Sample.open_house
  = Blocks (set_clients_held true
              (set_mt5_connection (Some (socket Sample.newcomer))
                 (set_clients (insert "uuid-1" (with_type "mt5_ea" Sample.newcomer))
                              Sample.open_house))).
Proof.
  apply (identification_deadlocks Sample.runtime Sample.open_house "uuid-1"
           Sample.newcomer Sample.identification); by_evaluation.
Defined.

(** [standstill_after_identification] at [Sample.identified]: a third
    connection arrives, the client repeats its request and hangs up. *)
Lemma standstill_after_identification_witness :
  standstill Sample.identified
    (run_events Sample.runtime
       [Connect 3%nat Sample.first_address;
        Receive "uuid-0" (Decoded (JObject Sample.price_request));
        Hangup "uuid-0" 1%nat]
       Sample.identified).
Proof.
  apply (standstill_after_identification Sample.runtime); by_evaluation.
Defined.

(** [dispatcher_takes_oldest] at [Sample.requested]. *)
Lemma dispatcher_takes_oldest_witness :
  exists s',
    process_command_queue_step Sample.runtime [] Sample.requested
    = Returns (Some Rejected) s'
    /\ command_queue s' = []
    /\ wire s'
       = wire Sample.requested
         ++ [(socket Sample.trader,
              not_connected_reply (request_id Sample.price_item))]
    /\ clock s' = clock Sample.requested.
Proof.
  apply (dispatcher_takes_oldest Sample.runtime Sample.requested
           Sample.price_item [] Sample.trader []); by_evaluation.
Defined.

(** [departed_client_reply_dropped] at [Sample.requested]. *)
Lemma departed_client_reply_dropped_witness :
  exists s1,
    handle_client_finally (client_id Sample.price_item) (socket Sample.trader)
                          Sample.requested
    = Returns tt s1
    /\ command_queue s1 = command_queue Sample.requested
    /\ _execute_command Sample.runtime Sample.price_item [] s1
       = Returns Rejected s1.
Proof.
  apply (departed_client_reply_dropped Sample.runtime Sample.requested
           Sample.price_item Sample.trader []); by_evaluation.
Defined.

(** [stop_closes_everything] at [Sample.requested]. *)
Lemma stop_closes_everything_witness :
  exists s',
    stop Sample.requested = Returns tt s'
    /\ clients s' = ∅
    /\ mt5_connection s' = None
    /\ (forall cid c, clients Sample.requested !! cid = Some c -> socket c ∈ closed s')
    /\ (forall up, mt5_connection Sample.requested = Some up -> up ∈ closed s')
    /\ command_queue s' = command_queue Sample.requested
    /\ response_cache s' = response_cache Sample.requested.
Proof.
  apply (stop_closes_everything Sample.requested); by_evaluation.
Defined.

(** [token_ignored_once_admitted] at [Sample.open_house]. *)
Lemma token_ignored_once_admitted_witness :
  _process_message Sample.runtime "uuid-0"
    (Decoded (JObject (("auth", JString "no such token") :: Sample.price_request)))
    Sample.open_house
  = _process_message Sample.runtime "uuid-0"
      (Decoded (JObject Sample.price_request)) Sample.open_house.
Proof.
  apply (token_ignored_once_admitted Sample.runtime Sample.open_house "uuid-0"
           Sample.trader Sample.price_request (JString "no such token"));
    by_evaluation.
Defined.

(** [idle_check_threshold] at [Sample.open_house], one millisecond past the
    limit. *)
Lemma idle_check_threshold_witness :
  exists s1,
    touch "uuid-0" Sample.open_house = Returns tt s1
    /\ handle_client_idle "uuid-0" (sleep 120001 s1)
       = Returns (bool_decide (120000 < 120001)) (sleep 120001 s1)
    /\ handle_client_idle "uuid-0" (set_clients (delete "uuid-0") (sleep 120001 s1))
       = Returns false (set_clients (delete "uuid-0") (sleep 120001 s1)).
Proof.
  apply (idle_check_threshold Sample.open_house "uuid-0" Sample.trader 120001);
    by_evaluation.
Defined.

(** [link_needs_registry_lock] at [Sample.identified]. *)
Lemma link_needs_registry_lock_witness :
  clients_held Sample.identified = true
  /\ (forall cid m, _send_to_client cid m Sample.identified = Blocks Sample.identified)
  /\ stop Sample.identified = Blocks Sample.identified.
Proof.
  apply (link_needs_registry_lock Sample.runtime Sample.identified);
    [exact identified_reachable|by_evaluation].
Defined.

(** [dispatched_command_never_returns] at [Sample.identified]. *)
Lemma dispatched_command_never_returns_witness :
  exists s',
    _execute_command Sample.runtime Sample.price_item [] Sample.identified
    = Blocks s'
    /\ (wire s' = wire Sample.identified
        \/ wire s'
           = wire Sample.identified
             ++ [(2%nat, mt5_message Sample.runtime Sample.price_item
                           (clock Sample.identified))]).
Proof.
  apply (dispatched_command_never_returns Sample.runtime Sample.identified 2%nat
           Sample.price_item []); [exact identified_reachable|by_evaluation].
Defined.

(** [wait_loop_terminates] at [Sample.open_house]. *)
Lemma wait_loop_terminates_witness :
  wait_loop Sample.runtime max_polls 0 Sample.price_item [] Sample.open_house
  <> Returns Exhausted Sample.open_house.
Proof.
  apply (wait_loop_terminates Sample.runtime 0 Sample.price_item []
           Sample.open_house Sample.open_house); by_evaluation.
Defined.

(** [accepted_connection_standing] at [Sample.open_house]: a third
    connection. *)
Lemma accepted_connection_standing_witness :
  exists s1,
    handle_client_accept Sample.runtime 3%nat Sample.second_address Sample.open_house
    = Returns (uuid4 Sample.runtime (drawn Sample.open_house)) s1
    /\ clients s1 !! uuid4 Sample.runtime (drawn Sample.open_house)
       = Some (ClientInfo 3%nat Sample.second_address "unknown"
                          (negb (auth_enabled Sample.open_house))
                          (clock Sample.open_house))
    /\ _is_client_authenticated (uuid4 Sample.runtime (drawn Sample.open_house)) s1
       = Returns (negb (auth_enabled Sample.open_house)) s1
    /\ _get_client_type (uuid4 Sample.runtime (drawn Sample.open_house)) s1
       = Returns "unknown" s1
    /\ drawn s1 = S (drawn Sample.open_house)
    /\ wire s1 = wire Sample.open_house.
Proof.
  apply (accepted_connection_standing Sample.runtime Sample.open_house 3%nat
           Sample.second_address); by_evaluation.
Defined.

(** [unhashable_token_unanswered] at [Sample.guarded]: the token comes
    wrapped in a list. *)
Lemma unhashable_token_unanswered_witness :
  _process_message Sample.runtime "uuid-0"
    (Decoded (JObject [("auth", JArray [JString "secret"])])) Sample.guarded
  = Returns tt Sample.guarded.
Proof.
  apply (unhashable_token_unanswered Sample.runtime Sample.guarded "uuid-0"
           Sample.guest [("auth", JArray [JString "secret"])]
           (JArray [JString "secret"])); by_evaluation.
Defined.

(** [commandless_message_unanswered] at [Sample.open_house]: a token sent
    to a broker that has authentication disabled. *)
Lemma commandless_message_unanswered_witness :
  _process_message Sample.runtime "uuid-0"
    (Decoded (JObject [("auth", JString "secret")])) Sample.open_house
  = Returns tt Sample.open_house.
Proof.
  apply (commandless_message_unanswered Sample.runtime Sample.open_house "uuid-0"
           Sample.trader [("auth", JString "secret")]); by_evaluation.
Defined.

Lemma guarded_identified_reachable :
  reachable Sample.runtime Sample.guarded_identified.
Proof.
  unfold Sample.guarded_identified, Sample.guarded.
  repeat apply reachable_run_events. apply reachable_init.
Qed.

Lemma requested_reachable : reachable Sample.runtime Sample.requested.
Proof.
  unfold Sample.requested, Sample.open_house.
  repeat apply reachable_run_events. apply reachable_init.
Qed.

Lemma guarded_reachable : reachable Sample.runtime Sample.guarded.
Proof.
  unfold Sample.guarded. apply reachable_run_events. apply reachable_init.
Qed.

(** [upstream_reply_never_stored] at [Sample.identified]: the connection
    that identified itself delivers [Sample.price_reply], the reply to the
    command ["r1"] that the client has queued. *)
Lemma upstream_reply_never_stored_witness :
  clients_held Sample.identified = true
  /\ handle_client_recv Sample.runtime "uuid-1"
       (Decoded (JObject Sample.price_reply)) Sample.identified
     = Blocks Sample.identified
  /\ response_cache
       (final (_process_message Sample.runtime "uuid-1"
                 (Decoded (JObject Sample.price_reply)) Sample.identified))
     = response_cache Sample.identified
  /\ wire (final (_process_message Sample.runtime "uuid-1"
                    (Decoded (JObject Sample.price_reply)) Sample.identified))
     = wire Sample.identified
  /\ exists up,
      mt5_connection Sample.identified = Some up
      /\ forall (item : command_item) (schedule : list (list event)),
          exists s',
            _execute_command Sample.runtime item schedule Sample.identified
            = Blocks s'
            /\ (wire s' = wire Sample.identified
                \/ wire s'
                   = wire Sample.identified
                     ++ [(up, mt5_message Sample.runtime item
                                (clock Sample.identified))]).
Proof.
  apply (upstream_reply_never_stored Sample.runtime Sample.identified "uuid-1"
           Sample.advisor (Decoded (JObject Sample.price_reply)));
    [exact identified_reachable|by_evaluation|reflexivity].
Defined.

(** [handshake_unanswered_once_linked] at [Sample.guarded_identified]: the
    first connection sends the token of the store. *)
Lemma handshake_unanswered_once_linked_witness :
  is_Some (auth_tokens Sample.guarded_identified !! "secret")
  /\ handle_client_recv Sample.runtime "uuid-0"
       (Decoded (JObject [("auth", JString "secret")])) Sample.guarded_identified
     = Blocks Sample.guarded_identified
  /\ _process_message Sample.runtime "uuid-0"
       (Decoded (JObject [("auth", JString "secret")])) Sample.guarded_identified
     = Blocks Sample.guarded_identified
  /\ authenticated <$> clients Sample.guarded_identified !! "uuid-0" = Some false.
Proof.
  split; [vm_compute; eauto|].
  apply (handshake_unanswered_once_linked Sample.runtime Sample.guarded_identified
           "uuid-0" "secret" Sample.guest [("auth", JString "secret")]);
    [exact guarded_identified_reachable|by_evaluation..].
Defined.

(** [rejection_unanswered_once_linked] at [Sample.guarded_identified]: the
    first connection, not authenticated, sends [Sample.price_request]. *)
Lemma rejection_unanswered_once_linked_witness :
  handle_client_recv Sample.runtime "uuid-0"
    (Decoded (JObject Sample.price_request)) Sample.guarded_identified
  = Blocks Sample.guarded_identified
  /\ _process_message Sample.runtime "uuid-0"
       (Decoded (JObject Sample.price_request)) Sample.guarded_identified
     = Blocks Sample.guarded_identified.
Proof.
  apply (rejection_unanswered_once_linked Sample.runtime Sample.guarded_identified
           "uuid-0" Sample.guest Sample.price_request);
    [exact guarded_identified_reachable|by_evaluation..].
Defined.

(** [auth_attempt_unanswered] at [Sample.guarded_identified], for a message
    that carries the token of the store and a command, and at
    [Sample.guarded], for a message whose token comes wrapped in a list. *)
Lemma auth_attempt_unanswered_witness :
  (handle_client_recv Sample.runtime "uuid-0"
     (Decoded (JObject (("auth", JString "secret") :: Sample.price_request)))
     Sample.guarded_identified
   = Blocks Sample.guarded_identified
   /\ _process_message Sample.runtime "uuid-0"
        (Decoded (JObject (("auth", JString "secret") :: Sample.price_request)))
        Sample.guarded_identified
      = Blocks Sample.guarded_identified)
  /\ _process_message Sample.runtime "uuid-0"
       (Decoded (JObject (("auth", JArray [JString "secret"])
                          :: Sample.price_request)))
       Sample.guarded
     = Returns tt Sample.guarded.
Proof.
  split.
  - apply (auth_attempt_unanswered Sample.runtime Sample.guarded_identified
             "uuid-0" Sample.guest
             (("auth", JString "secret") :: Sample.price_request)
             (JString "secret"));
      [exact guarded_identified_reachable|by_evaluation..].
  - apply (auth_attempt_unanswered Sample.runtime Sample.guarded
             "uuid-0" Sample.guest
             (("auth", JArray [JString "secret"]) :: Sample.price_request)
             (JArray [JString "secret"]));
      [exact guarded_reachable|by_evaluation..].
Defined.

(** C5, as stated, fails.  The client of [Sample.open_house] submits
    [Sample.price_request] while no link is set, which gives
    [Sample.requested]; before the dispatcher takes the command, the second
    connection identifies itself, which gives [Sample.identified].  The
    dispatcher then writes the command to the socket of the upstream.  The
    socket of the client has been handed the acknowledgment and nothing
    else: no error that the upstream is not connected. *)
Lemma command_submitted_unlinked_goes_upstream :
  mt5_connection Sample.open_house = None
  /\ Sample.requested
     = step Sample.runtime
         (Receive "uuid-0" (Decoded (JObject Sample.price_request)))
         Sample.open_house
  /\ mt5_connection Sample.requested = None
  /\ command_queue Sample.requested = [Sample.price_item]
  /\ Sample.identified
     = step Sample.runtime
         (Receive "uuid-1" (Decoded (JObject Sample.identification)))
         Sample.requested
  /\ exists s',
      process_command_queue_step Sample.runtime [] Sample.identified = Blocks s'
      /\ wire s'
         = [(1%nat,
             JObject [("status", JString "queued");
                      ("requestId", JString "r1");
                      ("message",
                       JString "Command 'get_price' queued for processing")]);
            (2%nat,
             JObject [("command", JString "get_price");
                      ("parameters", JObject [("symbol", JString "EURUSD")]);
                      ("requestId", JString "r1");
                      ("timestamp", JString "T+0ms")])].
Proof.
  split; [reflexivity|]. split; [reflexivity|]. split; [reflexivity|].
  split; [vm_compute; reflexivity|]. split; [reflexivity|].
  eexists. split; vm_compute; reflexivity.
Qed.

(** [absent_upstream_rejects] at [Sample.requested]: the dispatcher executes
    the command of the client while no connection has identified itself. *)
Lemma absent_upstream_rejects_witness :
  exists s',
    _execute_command Sample.runtime Sample.price_item [] Sample.requested
    = Returns Rejected s'
    /\ wire s'
       = wire Sample.requested
         ++ [(socket Sample.trader,
              JObject [("status", JString "error");
                       ("requestId", request_id Sample.price_item);
                       ("message", JString "MetaTrader EA not connected")])]
    /\ clock s' = clock Sample.requested
    /\ mt5_connection s' = None
    /\ command_queue s' = command_queue Sample.requested
    /\ response_cache s' = response_cache Sample.requested
    /\ clients s' = clients Sample.requested.
Proof.
  apply (absent_upstream_rejects Sample.runtime Sample.requested
           Sample.price_item Sample.trader []);
    [exact requested_reachable|by_evaluation..].
Defined.

(** [malformed_message_answered] at [Sample.open_house]. *)
Lemma malformed_message_answered_witness :
  let touched :=
    set_clients
      (insert "uuid-0"
              (with_last_activity (clock Sample.open_house) Sample.trader))
      Sample.open_house in
  handle_client_recv Sample.runtime "uuid-0" Malformed Sample.open_house
  = Returns tt
      (set_wire
         (fun w => w ++ [(socket Sample.trader,
                          JObject [("status", JString "error");
                                   ("message", JString "Invalid JSON format")])])
         touched)
  /\ handle_client_recv Sample.runtime "uuid-0" Unparsed Sample.open_house
     = Returns tt touched
  /\ handle_client_undecodable "uuid-0" Sample.open_house = Raises EILSEQ touched
  /\ wire touched = wire Sample.open_house
  /\ exists s2,
      handle_client_finally "uuid-0" (socket Sample.trader) touched
      = Returns tt s2
      /\ clients s2 = delete "uuid-0" (clients Sample.open_house)
      /\ socket Sample.trader ∈ closed s2
      /\ wire s2 = wire Sample.open_house.
Proof.
  apply (malformed_message_answered Sample.runtime Sample.open_house "uuid-0"
           Sample.trader); by_evaluation.
Defined.

(** [listed_tokens_loaded] at [Sample.tokens_file], and at a file in which
    an option that cannot be enumerated follows the token ["secret"]. *)
Lemma listed_tokens_loaded_witness :
  (let store := (_load_auth_tokens Sample.runtime Sample.tokens_file true 0 0).1 in
   (forall token perms,
       (token, perms) ∈ [("secret", "all")] ->
       store !! token
       = Some (TokenInfo (split_comma perms) (isoformat Sample.runtime 0))
       /\ token_known (JString token) store = Some true)
   /\ (forall t, t ∉ [("secret", "all")].*1 ->
                 token_known (JString t) store = Some false)
   /\ (_load_auth_tokens Sample.runtime Sample.tokens_file true 0 0).2
      = Sample.tokens_file)
  /\ (let store := (_load_auth_tokens Sample.runtime
                      (Interrupted [("secret", "all")]) true 0 0).1 in
      (forall token perms,
          (token, perms) ∈ [("secret", "all")] ->
          store !! token
          = Some (TokenInfo (split_comma perms) (isoformat Sample.runtime 0))
          /\ token_known (JString token) store = Some true)
      /\ (forall t, t ∉ [("secret", "all")].*1 ->
                    token_known (JString t) store = Some false)
      /\ (_load_auth_tokens Sample.runtime
            (Interrupted [("secret", "all")]) true 0 0).2
         = Interrupted [("secret", "all")]).
Proof.
  split.
  - apply (listed_tokens_loaded Sample.runtime Sample.tokens_file
             [("AUTH_TOKENS", [("secret", "all")])] [("secret", "all")] true 0 0);
      [left; split; reflexivity|apply NoDup_singleton].
  - apply (listed_tokens_loaded Sample.runtime (Interrupted [("secret", "all")])
             [] [("secret", "all")] true 0 0);
      [right; reflexivity|apply NoDup_singleton].
Defined.

(** [handshake_before_identification] at [Sample.guarded]: the token of the
    store, and a string that is not in it. *)
Lemma handshake_before_identification_witness :
  _process_message Sample.runtime "uuid-0"
    (Decoded (JObject [("auth", JString "secret")])) Sample.guarded
  = Returns tt
      (set_wire
         (fun w => w ++ [(socket Sample.guest,
                          JObject [("status", JString "authenticated");
                                   ("message", JString "Authentication successful")])])
         (set_clients
            (insert "uuid-0"
                    (ClientInfo (socket Sample.guest) (address Sample.guest)
                                (type Sample.guest) true
                                (last_activity Sample.guest)))
            Sample.guarded))
  /\ _process_message Sample.runtime "uuid-0"
       (Decoded (JObject [("auth", JString "guess")])) Sample.guarded
     = Returns tt
         (set_wire
            (fun w => w ++ [(socket Sample.guest,
                             JObject [("status", JString "error");
                                      ("message", JString "Authentication failed")])])
            Sample.guarded).
Proof.
  split.
  - destruct (handshake_before_identification Sample.runtime Sample.guarded
                "uuid-0" Sample.guest [("auth", JString "secret")]
                (JString "secret") (KStr "secret")) as [Hknown _];
      [exact guarded_reachable|by_evaluation..|].
    apply (Hknown "secret"); [reflexivity|vm_compute; eauto].
  - destruct (handshake_before_identification Sample.runtime Sample.guarded
                "uuid-0" Sample.guest [("auth", JString "guess")]
                (JString "guess") (KStr "guess")) as [_ Hunknown];
      [exact guarded_reachable|by_evaluation..|].
    apply Hunknown. intros t Heq. injection Heq as <-. vm_compute. reflexivity.
Defined.

(** [request_refused_before_identification] at [Sample.guarded]. *)
Lemma request_refused_before_identification_witness :
  _process_message Sample.runtime "uuid-0"
    (Decoded (JObject Sample.price_request)) Sample.guarded
  = Returns tt
      (set_wire
         (fun w => w ++ [(socket Sample.guest,
                          JObject [("status", JString "error");
                                   ("message", JString "Not authenticated")])])
         Sample.guarded).
Proof.
  apply (request_refused_before_identification Sample.runtime Sample.guarded
           "uuid-0" Sample.guest Sample.price_request);
    [exact guarded_reachable|by_evaluation..].
Defined.

End FurtherSamples.

Section FurtherClientSamples.

Import MCPClient.

Lemma nothing_registered (c : client) : callbacks c = ∅ -> no_sync c.
Proof. intros Hempty k. rewrite Hempty, lookup_empty. discriminate. Qed.

(** [authenticate_times_out] at [Sample.token_client], connected: the
    broker's answer to the token arrives and changes nothing. *)
Lemma authenticate_times_out_witness :
  (authenticate [Decoded MCPServer.authenticated_reply]
                (set_connected true Sample.token_client)).2 = false
  /\ authenticated
       (authenticate [Decoded MCPServer.authenticated_reply]
                     (set_connected true Sample.token_client)).1
     = authenticated (set_connected true Sample.token_client)
  /\ no_sync (authenticate [Decoded MCPServer.authenticated_reply]
                           (set_connected true Sample.token_client)).1.
Proof.
  apply (authenticate_times_out [Decoded MCPServer.authenticated_reply]
           (set_connected true Sample.token_client)).
  apply nothing_registered. reflexivity.
Defined.

(** [token_client_locked_out] at [Sample.token_client]. *)
Lemma token_client_locked_out_witness :
  let c' := (connect true [Decoded MCPServer.authenticated_reply]
                     Sample.token_client).1 in
  (connect true [Decoded MCPServer.authenticated_reply] Sample.token_client).2
  = false
  /\ connected c' = true
  /\ send_command Sample.runtime "get_price" None None [] c'
     = (c', error_result "Not authenticated with MCP Server").
Proof.
  apply (token_client_locked_out Sample.runtime true
           [Decoded MCPServer.authenticated_reply] [] "get_price" None None
           Sample.token_client);
    [reflexivity|reflexivity|reflexivity|apply nothing_registered; reflexivity].
Defined.

(** [callback_called_once] at [Sample.fresh_client]: the acknowledgment and
    the terminal reply of the first command arrive. *)
Lemma callback_called_once_witness :
  let registered :=
    set_outbox (fun o => o ++ [command_message Sample.runtime "get_price" None
                                               Sample.fresh_client])
      (set_callbacks (insert (uuid4 Sample.runtime (drawn Sample.fresh_client)) (user 7))
                     (set_drawn S Sample.fresh_client)) in
  send_command Sample.runtime "get_price" None (Some 7%nat) [] Sample.fresh_client
  = (registered,
     JObject [("status", JString "sent");
              ("requestId", JString (uuid4 Sample.runtime (drawn Sample.fresh_client)))])
  /\ _process_response (Decoded (JObject Sample.ack_fields)) registered
     = call_default (JObject Sample.ack_fields)
         (set_invoked (fun l => l ++ [(7%nat, JObject Sample.ack_fields)])
            (set_callbacks (delete (uuid4 Sample.runtime (drawn Sample.fresh_client)))
                           registered))
  /\ _process_response (Decoded (JObject Sample.terminal_fields))
       (_process_response (Decoded (JObject Sample.ack_fields)) registered)
     = call_default (JObject Sample.terminal_fields)
         (_process_response (Decoded (JObject Sample.ack_fields)) registered).
Proof.
  apply (callback_called_once Sample.runtime Sample.fresh_client "get_price" None
           7%nat [] Sample.ack_fields Sample.terminal_fields);
    [ reflexivity | reflexivity | reflexivity
    | vm_compute; discriminate
    | vm_compute; reflexivity
    | vm_compute; reflexivity ].
Defined.

(** [unanswered_call_times_out] at [Sample.fresh_client]: only a notice
    arrives. *)
Lemma unanswered_call_times_out_witness :
  let c' := (send_command Sample.runtime "get_price" None None
               [Decoded (JObject [("status", JString "notice")])]
               Sample.fresh_client).1 in
  (send_command Sample.runtime "get_price" None None
     [Decoded (JObject [("status", JString "notice")])] Sample.fresh_client).2
  = error_result "Response timeout"
  /\ callbacks c' !! uuid4 Sample.runtime (drawn Sample.fresh_client) = None
  /\ no_sync c'
  /\ outbox c'
     = outbox Sample.fresh_client
       ++ [command_message Sample.runtime "get_price" None Sample.fresh_client].
Proof.
  apply (unanswered_call_times_out Sample.runtime Sample.fresh_client "get_price"
           None [Decoded (JObject [("status", JString "notice")])]);
    [ reflexivity | reflexivity | reflexivity
    | apply nothing_registered; reflexivity
    | repeat constructor ].
Defined.

(** [answered_call_stays_registered] at [Sample.fresh_client]. *)
Lemma answered_call_stays_registered_witness :
  let c' := (send_command Sample.runtime "get_price" None None
               ([] ++ Decoded (JObject Sample.ack_fields) :: [])
               Sample.fresh_client).1 in
  callbacks c' !! uuid4 Sample.runtime (drawn Sample.fresh_client) = Some sync
  /\ (remove_callback (uuid4 Sample.runtime (drawn Sample.fresh_client)) c').2 = true
  /\ no_sync (remove_callback (uuid4 Sample.runtime (drawn Sample.fresh_client)) c').1.
Proof.
  apply (answered_call_stays_registered Sample.runtime Sample.fresh_client
           "get_price" None [] [] Sample.ack_fields);
    [ reflexivity | reflexivity | reflexivity
    | vm_compute; discriminate
    | apply nothing_registered; reflexivity
    | constructor
    | vm_compute; reflexivity ].
Defined.

(** [removed_callback_not_called] at [Sample.fresh_client]. *)
Lemma removed_callback_not_called_witness :
  let registered := (send_command Sample.runtime "get_price" None (Some 7%nat) []
                                  Sample.fresh_client).1 in
  let removed := (remove_callback (uuid4 Sample.runtime (drawn Sample.fresh_client))
                                  registered).1 in
  callbacks registered !! uuid4 Sample.runtime (drawn Sample.fresh_client)
  = Some (user 7)
  /\ (remove_callback (uuid4 Sample.runtime (drawn Sample.fresh_client)) registered).2
     = true
  /\ callbacks removed
     = delete (uuid4 Sample.runtime (drawn Sample.fresh_client))
              (callbacks Sample.fresh_client)
  /\ _process_response (Decoded (JObject Sample.ack_fields)) removed
     = call_default (JObject Sample.ack_fields) removed
  /\ remove_callback (uuid4 Sample.runtime (drawn Sample.fresh_client)) removed
     = (removed, false).
Proof.
  apply (removed_callback_not_called Sample.runtime Sample.fresh_client "get_price"
           None 7%nat [] Sample.ack_fields);
    [ reflexivity | reflexivity | reflexivity | vm_compute; reflexivity ].
Defined.

(** [command_round_trip] between [Sample.fresh_client] and the first
    connection of [Sample.open_house]. *)
Lemma command_round_trip_witness :
  let envelope := command_message Sample.runtime "get_price" None Sample.fresh_client in
  let ack :=
    MCPServer.queued_reply Sample.runtime
      (JString (uuid4 Sample.runtime (drawn Sample.fresh_client)))
      (JString "get_price") in
  outbox (send_command Sample.runtime "get_price" None None [Decoded ack]
                       Sample.fresh_client).1
  = outbox Sample.fresh_client ++ [envelope]
  /\ (exists s',
         MCPServer._process_message Sample.runtime "uuid-0" (Decoded envelope)
                                    Sample.open_house
         = MCPServer.Returns tt s'
         /\ MCPServer.command_queue s'
            = MCPServer.command_queue Sample.open_house
              ++ [MCPServer.CommandItem "uuid-0" (JString "get_price") (JObject [])
                    (JString (uuid4 Sample.runtime (drawn Sample.fresh_client)))
                    (MCPServer.clock Sample.open_house)]
         /\ MCPServer.wire s'
            = MCPServer.wire Sample.open_house
              ++ [(MCPServer.socket Sample.trader, ack)])
  /\ (send_command Sample.runtime "get_price" None None [Decoded ack]
                   Sample.fresh_client).2
     = ack.
Proof.
  apply (command_round_trip Sample.runtime Sample.fresh_client Sample.open_house
           "uuid-0" Sample.trader "get_price" None []);
    [ reflexivity | reflexivity | reflexivity
    | vm_compute; discriminate
    | apply nothing_registered; reflexivity
    | vm_compute; repeat split; reflexivity
    | vm_compute; reflexivity
    | reflexivity
    | reflexivity
    | vm_compute; let H := fresh in intros H; inversion H ].
Defined.

(** [leftover_registration_answers] at [Sample.returning_client], whose
    first synchronous call was answered by the acknowledgment of ["uuid-0"]:
    during its second call, which generates ["uuid-1"], the terminal reply
    of the first command arrives before the acknowledgment of the second
    and is what the call returns. *)
Lemma leftover_registration_answers_witness :
  callbacks Sample.returning_client !! "uuid-0" = Some sync
  /\ uuid4 Sample.runtime (drawn Sample.returning_client) = "uuid-1"
  /\ (send_command Sample.runtime "get_orders" None None
        (Decoded (JObject Sample.terminal_fields) :: [Decoded Sample.second_ack])
        Sample.returning_client).2
     = JObject Sample.terminal_fields
  /\ carries (uuid4 Sample.runtime (drawn Sample.returning_client))
             (Decoded (JObject Sample.terminal_fields)) = false.
Proof.
  split; [vm_compute; reflexivity|]. split; [vm_compute; reflexivity|].
  apply (leftover_registration_answers Sample.runtime Sample.returning_client
           "get_orders" None "uuid-0" Sample.terminal_fields
           [Decoded Sample.second_ack]);
    [ reflexivity | reflexivity | reflexivity
    | vm_compute; reflexivity
    | discriminate
    | vm_compute; discriminate
    | vm_compute; reflexivity ].
Defined.

(** [sync_call_returns_first_signal] at [Sample.fresh_client]: a notice
    arrives first, then the acknowledgment, then the terminal reply. *)
Lemma sync_call_returns_first_signal_witness :
  (send_command Sample.runtime "get_price" None None
     ([Decoded (JObject [("status", JString "notice")])]
      ++ Decoded (JObject Sample.ack_fields)
      :: [Decoded (JObject Sample.terminal_fields)])
     Sample.fresh_client).2
  = JObject Sample.ack_fields.
Proof.
  apply (sync_call_returns_first_signal Sample.runtime Sample.fresh_client
           "get_price" None [Decoded (JObject [("status", JString "notice")])]
           [Decoded (JObject Sample.terminal_fields)] Sample.ack_fields);
    [ reflexivity | reflexivity | reflexivity
    | repeat constructor
    | vm_compute; reflexivity ].
Defined.

End FurtherClientSamples.
